(** * Verification of the financial fact-find dialogue (chat.py)

    A shallow embedding of [multiply_ai_coding_task/chat.py]: the text
    normalisers [parse_date] and [parse_currency], the extraction adapter
    [extract_user_info] / [extract_goal_details] and the dialogue engine
    [chat_response], followed by the properties stated about them.

    Modelling conventions.
    - Python [str] is [string] (a sequence of 8-bit characters); case
      folding and white space are those of the ASCII range.
    - Python [int] is [Z].  Python [float] is [Q], the exact value of the
      number: rounding to binary64, infinities and NaN are outside the
      model.
    - Functions of the Python standard library that the source calls
      ([str.lower], [str.strip], [re.search], [datetime.strptime],
      [date + timedelta], ...) are given as executable definitions that
      follow the CPython implementation on this character range.
    - The language model ([llm]), [json.loads], [dt.date.today], [float]
      on an arbitrary string and [str] on a non-string value are section
      variables: the code is verified for every behaviour of them.
    - The dataclass instances that the engine updates in place live in an
      explicit store ([heap]); a reference is a location.  The message
      lists are values: the engine builds new lists and never updates one
      that it was given.
    - What the [except] clauses print to the console is left out. *)

From Stdlib Require Import ZArith QArith Qabs Ascii String List Lia Bool.
From stdpp Require Import base option list gmap strings.

Set Warnings "-register-all".

Local Open Scope Z_scope.

(** ** Characters and strings *)

Module Str.

Definition code (c : ascii) : Z := Z.of_N (N_of_ascii c).

Definition chr (z : Z) : ascii := ascii_of_N (Z.to_N z).

Definition is_digit (c : ascii) : bool :=
  (48 <=? code c) && (code c <=? 57).

Definition is_upper (c : ascii) : bool :=
  (65 <=? code c) && (code c <=? 90).

Definition is_lower (c : ascii) : bool :=
  (97 <=? code c) && (code c <=? 122).

Definition is_alpha (c : ascii) : bool := is_upper c || is_lower c.

(** [str.isspace] on the ASCII range: TAB, LF, VT, FF, CR, FS, GS, RS,
    US and the space. *)
Definition is_space (c : ascii) : bool :=
  ((9 <=? code c) && (code c <=? 13))
  || ((28 <=? code c) && (code c <=? 32)).

Definition lower_char (c : ascii) : ascii :=
  if is_upper c then chr (code c + 32) else c.

(** [s.lower()] *)
Fixpoint lower (s : string) : string :=
  match s with
  | EmptyString => EmptyString
  | String c s' => String (lower_char c) (lower s')
  end.

Fixpoint lstrip (s : string) : string :=
  match s with
  | EmptyString => EmptyString
  | String c s' => if is_space c then lstrip s' else s
  end.

Fixpoint rstrip (s : string) : string :=
  match s with
  | EmptyString => EmptyString
  | String c s' =>
      match rstrip s' with
      | EmptyString => if is_space c then EmptyString else String c EmptyString
      | r => String c r
      end
  end.

(** [s.strip()] *)
Definition strip (s : string) : string := rstrip (lstrip s).

(** [s.startswith(p)] *)
Fixpoint startswith (p s : string) : bool :=
  match p, s with
  | EmptyString, _ => true
  | String a p', String b s' => if ascii_dec a b then startswith p' s' else false
  | String _ _, EmptyString => false
  end.

(** [sub in s] *)
Fixpoint contains (sub s : string) : bool :=
  match s with
  | EmptyString => startswith sub EmptyString
  | String _ s' => startswith sub s || contains sub s'
  end.

(** [s.replace(c, "")] for a one-character [c] *)
Fixpoint remove_char (c : ascii) (s : string) : string :=
  match s with
  | EmptyString => EmptyString
  | String a s' => if ascii_dec a c then remove_char c s' else String a (remove_char c s')
  end.

Fixpoint all_chars (p : ascii -> bool) (s : string) : bool :=
  match s with
  | EmptyString => true
  | String c s' => p c && all_chars p s'
  end.

(** The longest prefix of [s] whose characters satisfy [p], and the rest. *)
Fixpoint span (p : ascii -> bool) (s : string) : string * string :=
  match s with
  | EmptyString => (EmptyString, EmptyString)
  | String c s' =>
      if p c then let '(a, b) := span p s' in (String c a, b)
      else (EmptyString, s)
  end.

(** [re.search(r'[class]+', s)]: the first maximal run of characters of
    the class, if there is one. *)
Fixpoint search_run (p : ascii -> bool) (s : string) : option string :=
  match s with
  | EmptyString => None
  | String c s' => if p c then Some (fst (span p s)) else search_run p s'
  end.

Definition digit_val (c : ascii) : Z := code c - 48.

Fixpoint digits_val (acc : Z) (s : string) : Z :=
  match s with
  | EmptyString => acc
  | String c s' => digits_val (10 * acc + digit_val c) s'
  end.

(** [int(s)] for a non-empty string of decimal digits. *)
Definition int_of_digits (s : string) : Z := digits_val 0 s.

Definition digit_char (n : Z) : ascii := chr (48 + n).

Fixpoint digits_of_pos (fuel : nat) (n : Z) (acc : string) : string :=
  match fuel with
  | O => acc
  | S fuel' =>
      let acc' := String (digit_char (n mod 10)) acc in
      if n <? 10 then acc' else digits_of_pos fuel' (n / 10) acc'
  end.

(** [str(n)] for [0 <= n]. *)
Definition of_nonneg (n : Z) : string :=
  digits_of_pos (S (Z.to_nat (Z.log2 n))) n EmptyString.

Fixpoint zeros (k : nat) : string :=
  match k with
  | O => EmptyString
  | S k' => String "0"%char (zeros k')
  end.

(** ["%0wd" % n] for [0 <= n]. *)
Definition zfill (w : nat) (n : Z) : string :=
  let s := of_nonneg n in
  (zeros (w - String.length s) +:+ s).

(** [s.split(sep)] for a non-empty [sep]: the pieces between the
    occurrences of [sep], found from left to right without overlap.
    [skip] counts the characters of a separator still to be passed. *)
Fixpoint split_aux (sep : string) (skip : nat) (s : string) : list string :=
  match s with
  | EmptyString => [EmptyString]
  | String c s' =>
      match skip with
      | S k => split_aux sep k s'
      | O =>
          if startswith sep s
          then EmptyString :: split_aux sep (String.length sep - 1) s'
          else match split_aux sep 0 s' with
               | p :: ps => String c p :: ps
               | [] => [String c EmptyString]
               end
      end
  end.

Definition split (sep s : string) : list string := split_aux sep 0 s.

End Str.

(** ** Calendar dates ([datetime.date]) *)

Record date := mkDate { year : Z; month : Z; day : Z }.

Module Date.

Definition is_leap (y : Z) : bool :=
  (y mod 4 =? 0) && (negb (y mod 100 =? 0) || (y mod 400 =? 0)).

Definition days_in_month_table (m : Z) : Z :=
  match m with
  | 1 => 31 | 2 => 28 | 3 => 31 | 4 => 30 | 5 => 31 | 6 => 30
  | 7 => 31 | 8 => 31 | 9 => 30 | 10 => 31 | 11 => 30 | 12 => 31
  | _ => -1
  end.

Definition days_before_month_table (m : Z) : Z :=
  match m with
  | 1 => 0 | 2 => 31 | 3 => 59 | 4 => 90 | 5 => 120 | 6 => 151
  | 7 => 181 | 8 => 212 | 9 => 243 | 10 => 273 | 11 => 304 | 12 => 334
  | _ => -1
  end.

Definition days_in_month (y m : Z) : Z :=
  if (m =? 2) && is_leap y then 29 else days_in_month_table m.

Definition days_before_year (y : Z) : Z :=
  let y' := y - 1 in y' * 365 + y' / 4 - y' / 100 + y' / 400.

Definition days_before_month (y m : Z) : Z :=
  days_before_month_table m + (if (2 <? m) && is_leap y then 1 else 0).

Definition MINYEAR : Z := 1.
Definition MAXYEAR : Z := 9999.
Definition MAXORDINAL : Z := 3652059.

(** The check made by the [date] constructor. *)
Definition valid (d : date) : bool :=
  (MINYEAR <=? year d) && (year d <=? MAXYEAR)
  && (1 <=? month d) && (month d <=? 12)
  && (1 <=? day d) && (day d <=? days_in_month (year d) (month d)).

(** [dt.date(y, m, d)]; [None] stands for the [ValueError]. *)
Definition make (y m d : Z) : option date :=
  let r := mkDate y m d in if valid r then Some r else None.

(** [d.toordinal()] *)
Definition toordinal (d : date) : Z :=
  days_before_year (year d) + days_before_month (year d) (month d) + day d.

(** [date.fromordinal(n)], after [_ord2ymd] of the CPython sources. *)
Definition fromordinal (n : Z) : date :=
  let n := n - 1 in
  let n400 := n / 146097 in let n := n mod 146097 in
  let y := n400 * 400 + 1 in
  let n100 := n / 36524 in let n := n mod 36524 in
  let n4 := n / 1461 in let n := n mod 1461 in
  let n1 := n / 365 in let n := n mod 365 in
  let y := y + n100 * 100 + n4 * 4 + n1 in
  if (n1 =? 4) || (n100 =? 4) then mkDate (y - 1) 12 31
  else
    let leapyear := (n1 =? 3) && (negb (n4 =? 24) || (n100 =? 3)) in
    let m := Z.shiftr (n + 50) 5 in
    let preceding :=
      days_before_month_table m + (if (2 <? m) && leapyear then 1 else 0) in
    if n <? preceding then
      let m' := m - 1 in
      let preceding' :=
        preceding
        - (days_in_month_table m' + (if (m' =? 2) && leapyear then 1 else 0)) in
      mkDate y m' (n - preceding' + 1)
    else mkDate y m (n - preceding + 1).

(** [d + dt.timedelta(days=k)]; [None] stands for the [OverflowError]
    raised when the result leaves the supported range (a [timedelta]
    too large to build raises the same error earlier). *)
Definition add_days (d : date) (k : Z) : option date :=
  let o := toordinal d + k in
  if (0 <? o) && (o <=? MAXORDINAL) then Some (fromordinal o) else None.

(** [d.isoformat()], which is also [str(d)]. *)
Definition isoformat (d : date) : string :=
  Str.zfill 4 (year d) +:+ "-" +:+ Str.zfill 2 (month d) +:+ "-"
  +:+ Str.zfill 2 (day d).

End Date.

(** ** [datetime.strptime]

    A format is compiled to a sequence of directives, each of which stands
    for the regular expression that [_strptime] substitutes for it; the
    sequence is matched with the priorities of a backtracking matcher
    (the successes are listed in the order in which [re.match] would find
    them), case-insensitively, for the English month names. *)

Module Strptime.

Inductive directive :=
| DY                 (* %Y : \d\d\d\d *)
| Dm                 (* %m : 1[0-2]|0[1-9]|[1-9] *)
| Dd                 (* %d : 3[0-1]|[1-2]\d|0[1-9]|[1-9]| [1-9] *)
| DB                 (* %B : full month name *)
| Db                 (* %b : abbreviated month name *)
| DSpace             (* a run of white space in the format: \s+ *)
| DLit (c : ascii)   (* any other character, matched as it is *)
| DBad.              (* a directive outside this table: ValueError *)

Fixpoint compile (after_space : bool) (fmt : string) : list directive :=
  match fmt with
  | EmptyString => []
  | String c rest =>
      if Str.is_space c then
        if after_space then compile true rest else DSpace :: compile true rest
      else if ascii_dec c "%" then
        match rest with
        | EmptyString => [DBad]
        | String k rest' =>
            (if ascii_dec k "Y" then DY
             else if ascii_dec k "m" then Dm
             else if ascii_dec k "d" then Dd
             else if ascii_dec k "B" then DB
             else if ascii_dec k "b" then Db
             else DBad) :: compile false rest'
        end
      else DLit c :: compile false rest
  end.

(** The groups of a match: year, month, day. *)
Record fields := mkFields { fY : option Z; fM : option Z; fD : option Z }.

Definition no_fields : fields := mkFields None None None.

Definition full_months : list (string * Z) :=
  [("september", 9); ("february", 2); ("november", 11); ("december", 12);
   ("january", 1); ("october", 10); ("august", 8); ("march", 3);
   ("april", 4); ("june", 6); ("july", 7); ("may", 5)].

Definition abbr_months : list (string * Z) :=
  [("jan", 1); ("feb", 2); ("mar", 3); ("apr", 4); ("may", 5); ("jun", 6);
   ("jul", 7); ("aug", 8); ("sep", 9); ("oct", 10); ("nov", 11); ("dec", 12)].

Fixpoint drop (n : nat) (s : string) : string :=
  match n, s with
  | O, _ => s
  | S n', String _ s' => drop n' s'
  | S _, EmptyString => EmptyString
  end.

(** One alternative per name, in the order of the compiled expression. *)
Definition match_names (names : list (string * Z)) (s : string)
  : list (Z * string) :=
  flat_map (fun '(name, k) =>
    if Str.startswith name (Str.lower s)
    then [(k, drop (String.length name) s)] else []) names.

Definition in_range (lo hi : Z) (c : ascii) : bool :=
  (lo <=? Str.code c) && (Str.code c <=? hi).

Definition two (p1 p2 : ascii -> bool) (s : string) : list (Z * string) :=
  match s with
  | String a (String b rest) =>
      if p1 a && p2 b
      then [(10 * Str.digit_val a + Str.digit_val b, rest)] else []
  | _ => []
  end.

Definition one (p : ascii -> bool) (s : string) : list (Z * string) :=
  match s with
  | String a rest => if p a then [(Str.digit_val a, rest)] else []
  | _ => []
  end.

Definition is_char (c : ascii) (a : ascii) : bool :=
  if ascii_dec a c then true else false.

Definition match_Y (s : string) : list (Z * string) :=
  match s with
  | String a (String b (String c (String d rest))) =>
      if Str.is_digit a && Str.is_digit b && Str.is_digit c && Str.is_digit d
      then [(Str.int_of_digits (String a (String b (String c (String d EmptyString)))), rest)]
      else []
  | _ => []
  end.

Definition match_m (s : string) : list (Z * string) :=
  two (is_char "1") (in_range 48 50) s
  ++ two (is_char "0") (in_range 49 57) s
  ++ one (in_range 49 57) s.

Definition match_d (s : string) : list (Z * string) :=
  two (is_char "3") (in_range 48 49) s
  ++ two (in_range 49 50) Str.is_digit s
  ++ two (is_char "0") (in_range 49 57) s
  ++ one (in_range 49 57) s
  ++ match s with
     | String a rest => if is_char " " a then one (in_range 49 57) rest else []
     | _ => []
     end.

(** [\s+], greedy: the longest run first, then the shorter ones. *)
Fixpoint match_space (s : string) : list string :=
  match s with
  | String c rest =>
      if Str.is_space c then match_space rest ++ [rest] else []
  | EmptyString => []
  end.

Definition step (d : directive) (f : fields) (s : string)
  : list (fields * string) :=
  match d with
  | DY => map (fun '(v, r) => (mkFields (Some v) (fM f) (fD f), r)) (match_Y s)
  | Dm => map (fun '(v, r) => (mkFields (fY f) (Some v) (fD f), r)) (match_m s)
  | Dd => map (fun '(v, r) => (mkFields (fY f) (fM f) (Some v), r)) (match_d s)
  | DB => map (fun '(v, r) => (mkFields (fY f) (Some v) (fD f), r))
              (match_names full_months s)
  | Db => map (fun '(v, r) => (mkFields (fY f) (Some v) (fD f), r))
              (match_names abbr_months s)
  | DSpace => map (fun r => (f, r)) (match_space s)
  | DLit c =>
      match s with
      | String a rest =>
          if ascii_dec (Str.lower_char a) (Str.lower_char c)
          then [(f, rest)] else []
      | EmptyString => []
      end
  | DBad => []
  end.

Fixpoint run (ds : list directive) (f : fields) (s : string)
  : list (fields * string) :=
  match ds with
  | [] => [(f, s)]
  | d :: ds' => flat_map (fun '(f', r) => run ds' f' r) (step d f s)
  end.

(** [dt.datetime.strptime(s, fmt).date()]; [None] stands for the
    [ValueError] (no match, unconverted data, or no such day).  A field
    the format leaves out takes its default: 1900, January, the 1st. *)
Definition strptime (s fmt : string) : option date :=
  match run (compile false fmt) no_fields s with
  | (f, EmptyString) :: _ =>
      Date.make (default 1900 (fY f)) (default 1 (fM f)) (default 1 (fD f))
  | _ => None
  end.

End Strptime.

(** ** Python values and exceptions *)

(** The values [json.loads] can return.  A [dict] is kept as the list of
    its items in insertion order; its keys are distinct. *)
Inductive pyval :=
| VNone
| VBool (b : bool)
| VInt (z : Z)
| VFloat (q : Q)
| VStr (s : string)
| VList (l : list pyval)
| VDict (d : list (string * pyval)).

Inductive exn :=
| AttributeError | TypeError | ValueError | KeyError | OverflowError.

Inductive result (A : Type) :=
| Ok (a : A)
| Raise (e : exn).

Arguments Ok {A} a.
Arguments Raise {A} e.

(** Sequencing: an exception of the first step passes through. *)
Definition rbind {A B} (r : result A) (k : A -> result B) : result B :=
  match r with Ok a => k a | Raise e => Raise e end.

Module Py.

(** [bool(v)] *)
Definition truthy (v : pyval) : bool :=
  match v with
  | VNone => false
  | VBool b => b
  | VInt z => negb (z =? 0)
  | VFloat q => negb (Qnum q =? 0)
  | VStr s => negb (if string_dec s EmptyString then true else false)
  | VList l => match l with [] => false | _ => true end
  | VDict d => match d with [] => false | _ => true end
  end.

Definition dict := list (string * pyval).

(** [d.get(k)] *)
Fixpoint get (k : string) (d : dict) : option pyval :=
  match d with
  | [] => None
  | (k', v) :: d' => if string_dec k k' then Some v else get k d'
  end.

(** [k in d] *)
Definition mem (k : string) (d : dict) : bool :=
  match get k d with Some _ => true | None => false end.

(** [d[k] = v] *)
Fixpoint set (k : string) (v : pyval) (d : dict) : dict :=
  match d with
  | [] => [(k, v)]
  | (k', v') :: d' =>
      if string_dec k k' then (k, v) :: d' else (k', v') :: set k v d'
  end.

(** [d.get(k, dflt)] *)
Definition get_default (k : string) (dflt : pyval) (d : dict) : pyval :=
  default dflt (get k d).

End Py.

(** ** The temporal normaliser: [parse_date] *)

Section ParseDate.

(** [dt.date.today()] *)
Variable today : date.

(** The body of the [try] under [date_str.startswith("in ")]: the date it
    returns, or [None] when control leaves the block without a [return]
    (no unit word, or an exception swallowed by the bare [except]). *)
Definition relative_date (date_str : string) : option date :=
  match Str.search_run Str.is_digit date_str with
  | None => None
  | Some digits =>
      let num := Str.int_of_digits digits in
      if Str.contains "day" date_str then Date.add_days today num
      else if Str.contains "week" date_str then Date.add_days today (7 * num)
      else if Str.contains "month" date_str then Date.add_days today (30 * num)
      else if Str.contains "year" date_str then Date.add_days today (365 * num)
      else None
  end.

Definition standard_formats : list string :=
  ["%Y-%m-%d"; "%d/%m/%Y"; "%m/%d/%Y"; "%B %d, %Y"; "%b %d, %Y"].

(** The [for fmt in (...)] loop: the first format that parses. *)
Fixpoint try_formats (date_str : string) (fmts : list string) : option date :=
  match fmts with
  | [] => None
  | fmt :: fmts' =>
      match Strptime.strptime date_str fmt with
      | Some d => Some d
      | None => try_formats date_str fmts'
      end
  end.

(** [$]: the end of the string, or just before a final line feed. *)
Definition at_end (s : string) : bool :=
  match s with
  | EmptyString => true
  | String c EmptyString => if ascii_dec c "010" then true else false
  | _ => false
  end.

(** [re.match(r'^(jan|feb|...|dec)[a-z]* \d{4}$', s, re.I)] *)
Definition month_year_shape (s : string) : bool :=
  existsb (fun '(name, _) =>
    Str.startswith name (Str.lower s)
    && match snd (Str.span Str.is_alpha (Strptime.drop 3 s)) with
       | String sp (String a (String b (String c (String d rest)))) =>
           (if ascii_dec sp " " then true else false)
           && Str.is_digit a && Str.is_digit b && Str.is_digit c
           && Str.is_digit d && at_end rest
       | _ => false
       end) Strptime.abbr_months.

(** [re.match(r'^20\d{2}$', s)] *)
Definition year_shape (s : string) : bool :=
  match s with
  | String a (String b (String c (String d rest))) =>
      (if ascii_dec a "2" then true else false)
      && (if ascii_dec b "0" then true else false)
      && Str.is_digit c && Str.is_digit d && at_end rest
  | _ => false
  end.

(** [parse_date] once [date_str] is known to be a non-empty [str]. *)
Definition parse_date_str (date_str0 : string) : result (option date) :=
  let date_str := Str.strip (Str.lower date_str0) in
  match
    (if Str.startswith "in " date_str then relative_date date_str else None)
  with
  | Some d => Ok (Some d)
  | None =>
      if string_dec date_str "next month" then
        let next_month := if month today <? 12 then month today + 1 else 1 in
        let next_year := if month today <? 12 then year today else year today + 1 in
        match Date.make next_year next_month 1 with
        | Some d => Ok (Some d)
        | None => Raise ValueError
        end
      else if string_dec date_str "next year" then
        match Date.make (year today + 1) 1 1 with
        | Some d => Ok (Some d)
        | None => Raise ValueError
        end
      else
        match try_formats date_str standard_formats with
        | Some d => Ok (Some d)
        | None =>
            match
              (if month_year_shape date_str then
                 match Strptime.strptime date_str "%B %Y" with
                 | Some d => Some d
                 | None => Strptime.strptime date_str "%b %Y"
                 end
               else None)
            with
            | Some d => Ok (Some d)
            | None =>
                if year_shape date_str then
                  match Date.make (Str.int_of_digits (Str.strip date_str)) 1 1 with
                  | Some d => Ok (Some d)
                  | None => Raise ValueError
                  end
                else Ok None
            end
        end
  end.

(** [parse_date(date_str)].  The annotation says [str], but the callers
    pass whatever value the extraction returned: a false value gives
    [None] at once, and any other non-string has no [lower]. *)
Definition parse_date (date_str : pyval) : result (option date) :=
  if negb (Py.truthy date_str) then Ok None
  else match date_str with
       | VStr s => parse_date_str s
       | _ => Raise AttributeError
       end.

End ParseDate.

(** ** The currency normaliser: [parse_currency] *)

Module Currency.

Definition is_digit_or_dot (c : ascii) : bool :=
  Str.is_digit c || (if ascii_dec c "." then true else false).

Fixpoint count_dots (s : string) : nat :=
  match s with
  | EmptyString => O
  | String c s' => ((if ascii_dec c "." then 1 else 0) + count_dots s')%nat
  end.

(** The digits of [s] and how many of them follow the point. *)
Fixpoint decimal_parts (seen_dot : bool) (s : string) : string * nat :=
  match s with
  | EmptyString => (EmptyString, O)
  | String c s' =>
      if ascii_dec c "." then decimal_parts true s'
      else let '(ds, k) := decimal_parts seen_dot s' in
           (String c ds, if seen_dot then S k else k)
  end.

(** [float(s)] for a string of digits and points, as [re.search] returns
    here: a number when there is at least one digit and at most one
    point, a [ValueError] ([None]) otherwise. *)
Definition float_of_decimal (s : string) : option Q :=
  let '(ds, k) := decimal_parts false s in
  if (count_dots s <=? 1)%nat && negb (if string_dec ds EmptyString then true else false)
  then Some (Qred (Str.int_of_digits ds # Z.to_pos (10 ^ Z.of_nat k)))
  else None.

(** The product of two floats. *)
Definition fmul (a b : Q) : Q := Qred (a * b).

Definition currency_symbols : list string := ["$"; "£"; "€"; "¥"].

End Currency.

Definition parse_currency (amount0 : string) : option Q :=
  if string_dec amount0 EmptyString then None
  else
    let amount := Str.strip (Str.remove_char "," (Str.lower amount0)) in
    match
      match Str.search_run Currency.is_digit_or_dot amount with
      | Some run => Currency.float_of_decimal run
      | None => None
      end
    with
    | None => None
    | Some numeric_part =>
        if Str.contains "million" amount then
          Some (Currency.fmul numeric_part 1000000)
        else if Str.contains "billion" amount then
          Some (Currency.fmul numeric_part 1000000000)
        else if Str.contains "thousand" amount then
          Some (Currency.fmul numeric_part 1000)
        else if Str.contains "m" amount && negb (Str.contains "million" amount) then
          Some (Currency.fmul numeric_part 1000000)
        else if Str.contains "b" amount && negb (Str.contains "billion" amount) then
          Some (Currency.fmul numeric_part 1000000000)
        else if Str.contains "k" amount then
          Some (Currency.fmul numeric_part 1000)
        else if existsb (fun symbol => Str.contains symbol amount)
                        Currency.currency_symbols then
          Some numeric_part
        else Some numeric_part
    end.


(** ** The data model *)

(** Modelled from the spec: the classes of [factfind.py], which is not
    among the sources ([GoalType], the three detail payloads, [Goal] and
    [User]).  They are taken to be plain data classes, like those of
    [chat.py]: a constructor stores the values it is given. *)
Inductive GoalType := NEW_HOME | NEW_CAR | OTHER.

Inductive goal_info :=
| NewHomeGoalInformation
    (location : pyval) (house_price deposit_amount : Q)
    (purchase_date : option date)
| NewCarInformation
    (car_type : pyval) (car_price : Q) (purchase_date : option date)
| OtherGoalInformation
    (description : pyval) (amount_required : Q) (target_date : option date).

(** The date of a detail payload ([purchase_date] or [target_date]). *)
Definition info_date (i : goal_info) : option date :=
  match i with
  | NewHomeGoalInformation _ _ _ d => d
  | NewCarInformation _ _ d => d
  | OtherGoalInformation _ _ d => d
  end.

(** The amounts of a detail payload, in the order of its fields. *)
Definition info_amounts (i : goal_info) : list Q :=
  match i with
  | NewHomeGoalInformation _ p dep _ => [p; dep]
  | NewCarInformation _ p _ => [p]
  | OtherGoalInformation _ a _ => [a]
  end.

(** A reference to an object of the store. *)
Definition loc := positive.

Record Goal := mkGoal {
  goal_type : GoalType;
  goal_name : string;
  goal_specific_information : option goal_info
}.

(** [goals] is a Python list of references; [None] is the Python [None],
    which [list.append] stores like any other value. *)
Record User := mkUser {
  first_name : pyval;
  last_name : pyval;
  date_of_birth : option date;
  email : pyval;
  goals : list (option loc)
}.

Inductive Sender := USER | AI.

Record Message := mkMessage { text : string; sender : Sender }.

Inductive ConversationStage :=
| GET_USER_INFO
| GET_GOAL_TYPE
| GET_GOAL_DETAILS
| CONFIRM_GOAL
| ADD_ANOTHER_GOAL
| COMPLETED.

Record ExtractedInformation := mkInfo {
  user : option loc;
  pending_goal : option loc;
  conversation_stage : ConversationStage
}.

(** [extracted_information] is a reference: the engine updates the object
    it points to, and the state it returns points to the same object. *)
Record ConversationState := mkState {
  finished : bool;
  messages : list Message;
  new_messages : list Message;
  extracted_information : loc
}.

#[global] Instance GoalType_eq_dec : EqDecision GoalType.
Proof. solve_decision. Defined.

#[global] Instance ConversationStage_eq_dec : EqDecision ConversationStage.
Proof. solve_decision. Defined.

#[global] Instance Sender_eq_dec : EqDecision Sender.
Proof. solve_decision. Defined.

Definition STOP_COMMANDS : list string := ["exit"; "quit"; "stop"; "done"].

(** [s in STOP_COMMANDS] *)
Definition is_stop_command (s : string) : bool :=
  existsb (fun c => if string_dec s c then true else false) STOP_COMMANDS.

(** ** The store and the computations over it *)

Record heap := mkHeap {
  infos : gmap loc ExtractedInformation;
  users : gmap loc User;
  goal_objects : gmap loc Goal
}.

(** A computation reads and updates the store and returns a value or
    raises.  The outer [None] is for a reference to no object, which
    Python excludes; it does not occur from a well-formed store. *)
Definition M (A : Type) : Type := heap -> option (result A * heap).

Definition ret {A} (a : A) : M A := fun h => Some (Ok a, h).

Definition raise {A} (e : exn) : M A := fun h => Some (Raise e, h).

Definition bind {A B} (m : M A) (k : A -> M B) : M B :=
  fun h =>
    match m h with
    | Some (Ok a, h') => k a h'
    | Some (Raise e, h') => Some (Raise e, h')
    | None => None
    end.

Notation "x <- m ;; k" := (bind m (fun x => k))
  (at level 100, m at next level, right associativity).
Notation "m ;;; k" := (bind m (fun _ => k))
  (at level 100, right associativity).

(** A value or an exception computed without the store. *)
Definition lift {A} (r : result A) : M A := fun h => Some (r, h).

(** The store after the object at [l] has been replaced or created. *)
Definition with_info (l : loc) (i : ExtractedInformation) (h : heap) : heap :=
  mkHeap (<[l := i]> (infos h)) (users h) (goal_objects h).

Definition with_user (l : loc) (u : User) (h : heap) : heap :=
  mkHeap (infos h) (<[l := u]> (users h)) (goal_objects h).

Definition with_goal (l : loc) (g : Goal) (h : heap) : heap :=
  mkHeap (infos h) (users h) (<[l := g]> (goal_objects h)).

Definition get_info (l : loc) : M ExtractedInformation :=
  fun h => match infos h !! l with Some i => Some (Ok i, h) | None => None end.

Definition put_info (l : loc) (i : ExtractedInformation) : M unit :=
  fun h => Some (Ok tt, with_info l i h).

Definition get_user (l : loc) : M User :=
  fun h => match users h !! l with Some u => Some (Ok u, h) | None => None end.

Definition put_user (l : loc) (u : User) : M unit :=
  fun h => Some (Ok tt, with_user l u h).

Definition get_goal (l : loc) : M Goal :=
  fun h => match goal_objects h !! l with Some g => Some (Ok g, h) | None => None end.

Definition put_goal (l : loc) (g : Goal) : M unit :=
  fun h => Some (Ok tt, with_goal l g h).

(** A constructor call: the new object gets a reference not in use. *)
Definition new_info (i : ExtractedInformation) : M loc :=
  fun h => let l := fresh (dom (infos h)) in Some (Ok l, with_info l i h).

Definition new_user (u : User) : M loc :=
  fun h => let l := fresh (dom (users h)) in Some (Ok l, with_user l u h).

Definition new_goal (g : Goal) : M loc :=
  fun h => let l := fresh (dom (goal_objects h)) in Some (Ok l, with_goal l g h).

(** Attribute assignments. *)
Definition set_user (l : loc) (u : option loc) : M unit :=
  i <- get_info l ;; put_info l (mkInfo u (pending_goal i) (conversation_stage i)).

Definition set_pending_goal (l : loc) (g : option loc) : M unit :=
  i <- get_info l ;; put_info l (mkInfo (user i) g (conversation_stage i)).

Definition set_conversation_stage (l : loc) (s : ConversationStage) : M unit :=
  i <- get_info l ;; put_info l (mkInfo (user i) (pending_goal i) s).

Definition set_goal_specific_information (l : loc) (x : option goal_info) : M unit :=
  g <- get_goal l ;; put_goal l (mkGoal (goal_type g) (goal_name g) x).

(** [u.goals.append(g)] *)
Definition append_goal (l : loc) (g : option loc) : M unit :=
  u <- get_user l ;;
  put_user l (mkUser (first_name u) (last_name u) (date_of_birth u) (email u)
                     (goals u ++ [g])).

(** [ConversationState()]: a fresh state with a fresh, empty
    [ExtractedInformation]. *)
Definition new_conversation : M ConversationState :=
  l <- new_info (mkInfo None None GET_USER_INFO) ;;
  ret (mkState false [] [] l).

(** ** Dynamic operations on values *)

Module Dyn.

(** [k in v], for a string [k] *)
Definition contains_key (k : string) (v : pyval) : result bool :=
  match v with
  | VDict d => Ok (Py.mem k d)
  | VList l =>
      Ok (existsb (fun x => match x with
                            | VStr s => if string_dec s k then true else false
                            | _ => false
                            end) l)
  | VStr s => Ok (Str.contains k s)
  | _ => Raise TypeError
  end.

(** [v[k]], for a string [k] *)
Definition getitem (k : string) (v : pyval) : result pyval :=
  match v with
  | VDict d => match Py.get k d with Some x => Ok x | None => Raise KeyError end
  | _ => Raise TypeError
  end.

(** [v[k] = x], for a string [k] *)
Definition setitem (k : string) (x : pyval) (v : pyval) : result pyval :=
  match v with
  | VDict d => Ok (VDict (Py.set k x d))
  | _ => Raise TypeError
  end.

(** [v.get(k, dflt)] *)
Definition get (k : string) (dflt : pyval) (v : pyval) : result pyval :=
  match v with
  | VDict d => Ok (Py.get_default k dflt d)
  | _ => Raise AttributeError
  end.

(** [all(k in v for k in keys)]: stops at the first key that is absent. *)
Fixpoint all_in (keys : list string) (v : pyval) : result bool :=
  match keys with
  | [] => Ok true
  | k :: keys' =>
      match contains_key k v with
      | Raise e => Raise e
      | Ok false => Ok false
      | Ok true => all_in keys' v
      end
  end.

End Dyn.

(** ** Number formatting: [format(x, ",.2f")] *)

Module Fmt.

(** The integer nearest to [q], ties to the even one, for [0 <= q]. *)
Definition round_half_even (q : Q) : Z :=
  let n := Qnum q in
  let d := Z.pos (Qden q) in
  let fl := n / d in
  let r2 := 2 * (n mod d) in
  if r2 <? d then fl
  else if d <? r2 then fl + 1
  else if Z.even fl then fl else fl + 1.

Fixpoint group_thousands (fuel : nat) (n : Z) : string :=
  match fuel with
  | O => Str.of_nonneg n
  | S fuel' =>
      if n <? 1000 then Str.of_nonneg n
      else group_thousands fuel' (n / 1000) +:+ "," +:+ Str.zfill 3 (n mod 1000)
  end.

Definition money (q : Q) : string :=
  let cents := round_half_even (Qabs q * 100) in
  (if Qnum q <? 0 then "-" else EmptyString)
  +:+ group_thousands (Z.to_nat (Z.log2 cents)) (cents / 100)
  +:+ "." +:+ Str.zfill 2 (cents mod 100).

(** [str(d)] for an optional date *)
Definition date_or_none (d : option date) : string :=
  match d with Some d => Date.isoformat d | None => "None" end.

End Fmt.

Definition dq : string := String (ascii_of_nat 34) EmptyString.

Definition nl : string := String (ascii_of_nat 10) EmptyString.

Fixpoint unlines (l : list string) : string :=
  match l with
  | [] => EmptyString
  | [x] => x
  | x :: l' => x +:+ nl +:+ unlines l'
  end.

(** ** The extraction adapter and the dialogue engine *)

Section Engine.

(** The language model: the text of its answer, or [None] when the call
    fails or the answer has no text. *)
Variable llm : string -> option string.

(** [json.loads]; [None] stands for the exception it raises. *)
Variable json_loads : string -> option pyval.

(** [dt.date.today()] *)
Variable today : date.

(** [float(s)] for a string [s]; [None] stands for the [ValueError]. *)
Variable float_of_str : string -> option Q.

(** [str(v)] for a value [v] that is not a string. *)
Variable str_of_value : pyval -> string.

(** The least integer whose nearest double is beyond the largest one:
    half way between [(2^53 - 1) * 2^971] and [2^1024]. *)
Definition float_overflow : Z := 2 ^ 1024 - 2 ^ 970.

(** [float(v)].  An integer out of the range of a double raises
    [OverflowError]. *)
Definition py_float (v : pyval) : result Q :=
  match v with
  | VInt z =>
      if Z.abs z <? float_overflow then Ok (inject_Z z) else Raise OverflowError
  | VFloat q => Ok q
  | VBool b => Ok (if b then 1%Q else 0%Q)
  | VStr s =>
      match float_of_str s with Some q => Ok q | None => Raise ValueError end
  | VNone | VList _ | VDict _ => Raise TypeError
  end.

(** [str(v)], as an f-string renders a value *)
Definition py_str (v : pyval) : string :=
  match v with VStr s => s | _ => str_of_value v end.

Definition user_info_prompt (text : string) : string :=
  unlines
    ["Extract personal information from this text: ";
     "    " +:+ dq +:+ text +:+ dq;
     "    ";
     "    Rules:";
     "    - First name and last name must be separated";
     "    - Date of birth must be in YYYY-MM-DD format (convert if needed)";
     "    - Email must be valid format";
     "    ";
     "    Return JSON with these exact fields:";
     "    {";
     "        " +:+ dq +:+ "first_name" +:+ dq +:+ ": " +:+ dq +:+ "string (required)" +:+ dq +:+ ",";
     "        " +:+ dq +:+ "last_name" +:+ dq +:+ ": " +:+ dq +:+ "string (required)" +:+ dq +:+ ",";
     "        " +:+ dq +:+ "date_of_birth" +:+ dq +:+ ": " +:+ dq +:+ "string as YYYY-MM-DD (required)" +:+ dq +:+ ",";
     "        " +:+ dq +:+ "email" +:+ dq +:+ ": " +:+ dq +:+ "string (required)" +:+ dq;
     "    }";
     "    "].

Definition new_home_prompt (text : string) : string :=
  unlines
    ["Extract home purchase details from:";
     "        " +:+ dq +:+ text +:+ dq;
     "        ";
     "        Return JSON with:";
     "        - location";
     "        - house_price (number)";
     "        - deposit_amount (number)";
     "        - purchase_date (YYYY-MM-DD format)";
     "        ";
     "        Rules:";
     "        - Convert amounts to numbers (e.g. " +:+ dq +:+ "1.5M" +:+ dq +:+ " → 1500000)";
     "        - For relative dates like " +:+ dq +:+ "in 3 years" +:+ dq +:+ ", calculate the exact date from today (" +:+ Date.isoformat today +:+ ")";
     "        - For month names, use full month name (e.g. " +:+ dq +:+ "January" +:+ dq +:+ ")";
     "        "].

Definition new_car_prompt (text : string) : string :=
  unlines
    ["Extract car purchase details from:";
     "        " +:+ dq +:+ text +:+ dq;
     "        ";
     "        Return JSON with:";
     "        - car_type (make + model)";
     "        - car_price (number)";
     "        - purchase_date (YYYY-MM-DD format)";
     "        ";
     "        Rules:";
     "        - Convert amounts to numbers (e.g. " +:+ dq +:+ "20k" +:+ dq +:+ " → 20000)";
     "        - For relative dates like " +:+ dq +:+ "next month" +:+ dq +:+ ", calculate the exact date from today (" +:+ Date.isoformat today +:+ ")";
     "        "].

Definition other_goal_prompt (text : string) : string :=
  unlines
    ["Extract financial goal details from:";
     "        " +:+ dq +:+ text +:+ dq;
     "        ";
     "        Return JSON with:";
     "        - description";
     "        - amount_required (number)";
     "        - target_date (YYYY-MM-DD format)";
     "        ";
     "        Rules:";
     "        - Convert amounts to numbers";
     "        - For relative dates like " +:+ dq +:+ "by next year" +:+ dq +:+ ", calculate the exact date from today (" +:+ Date.isoformat today +:+ ")";
     "        "].

(** The fence markers of a Markdown code block. *)
Definition fence : string := "```".
Definition json_fence : string := "```json".

(** [response.split('```json')[1].split('```')[0]] when the response has
    a [```json] marker, the response itself otherwise. *)
Definition strip_fence (response : string) : string :=
  if Str.contains json_fence response then
    match Str.split json_fence response with
    | _ :: inner :: _ =>
        match Str.split fence inner with
        | body :: _ => body
        | [] => inner
        end
    | _ => response
    end
  else response.

(** [extract_user_info]: whatever value the answer parses to, or the
    empty dict. *)
Definition extract_user_info (text : string) : pyval :=
  match llm (user_info_prompt text) with
  | None => VDict []
  | Some response =>
      if string_dec response EmptyString then VDict []
      else
        match json_loads (Str.strip (strip_fence response)) with
        | Some v => v
        | None => VDict []
        end
  end.

Definition goal_prompt (text : string) (goal_type : GoalType) : string :=
  match goal_type with
  | NEW_HOME => new_home_prompt text
  | NEW_CAR => new_car_prompt text
  | OTHER => other_goal_prompt text
  end.

(** The date check of [extract_goal_details] on the parsed answer; every
    exception is caught by the enclosing [try] and gives [None]. *)
Definition validate_dates (data : pyval) : option pyval :=
  match Dyn.contains_key "purchase_date" data with
  | Raise _ => None
  | Ok has_purchase =>
      match (if has_purchase then Ok true
             else Dyn.contains_key "target_date" data) with
      | Raise _ => None
      | Ok false => Some data
      | Ok true =>
          let date_key :=
            if has_purchase then "purchase_date" else "target_date" in
          match Dyn.getitem date_key data with
          | Raise _ => None
          | Ok date_str =>
              match parse_date today date_str with
              | Ok (Some parsed_date) =>
                  match Dyn.setitem date_key
                          (VStr (Date.isoformat parsed_date)) data with
                  | Ok data' => Some data'
                  | Raise _ => None
                  end
              | Ok None => None
              | Raise _ => None
              end
          end
      end
  end.

Definition extract_goal_details (text : string) (goal_type : GoalType)
  : option pyval :=
  match llm (goal_prompt text goal_type) with
  | None => None
  | Some response =>
      if string_dec response EmptyString then None
      else
        match json_loads (Str.strip (strip_fence response)) with
        | Some data => validate_dates data
        | None => None
        end
  end.

Definition ai (t : string) : Message := mkMessage t AI.

Definition closing_text : string :=
  "Thank you for providing your financial goals information.".

Definition ask_goal_type_text : string :=
  "Thank you! What financial goal would you like to discuss? (new home/new car/other)".

Definition ask_user_info_text : string :=
  "Please provide your full name, date of birth (YYYY-MM-DD), and email".

Definition ask_home_text : string :=
  "Please tell me about the home you want to buy (location, price, deposit, and timeline)".

Definition ask_car_text : string :=
  "Please tell me about the car you want to buy (make/model, price, and timeline)".

Definition ask_other_text : string :=
  "Please describe your financial goal (what you want to achieve, how much money you'll need, and by when)".

Definition retry_home_text : string :=
  "I couldn't understand those home details. Please provide: location, price, deposit, and timeline (e.g. 'Buy $1.5M home in London with 50k deposit in 3 years')".

Definition retry_car_text : string :=
  "I couldn't understand those car details. Please provide: make/model, price, and timeline (e.g. 'Buy a Tesla Model 3 for $40k in 6 months')".

Definition retry_other_text : string :=
  "I couldn't understand that goal. Please describe what you want to achieve, how much money you'll need, and by when (e.g. 'Start a business needing $50k by 2025')".

Definition goal_saved_text : string :=
  "Goal saved! Would you like to add another goal? (yes/no)".

Definition try_again_text : string :=
  "Okay, let's try again. What goal would you like to discuss? (new home/new car/other)".

Definition ask_next_goal_text : string :=
  "What other financial goal would you like to discuss? (new home/new car/other)".

(** The confirmation summary of each kind of goal. *)
Definition confirm_text (i : goal_info) : string :=
  match i with
  | NewHomeGoalInformation location house_price deposit_amount purchase_date =>
      "Confirm: Buy home in " +:+ py_str location +:+ " for $"
      +:+ Fmt.money house_price +:+ " with $" +:+ Fmt.money deposit_amount
      +:+ " deposit by " +:+ Fmt.date_or_none purchase_date +:+ "? (yes/no)"
  | NewCarInformation car_type car_price purchase_date =>
      "Confirm: Buy " +:+ py_str car_type +:+ " for $" +:+ Fmt.money car_price
      +:+ " by " +:+ Fmt.date_or_none purchase_date +:+ "? (yes/no)"
  | OtherGoalInformation description amount_required target_date =>
      "Confirm: " +:+ py_str description +:+ " requiring $"
      +:+ Fmt.money amount_required +:+ " by "
      +:+ Fmt.date_or_none target_date +:+ "? (yes/no)"
  end.

(** The re-prompt of each kind of goal. *)
Definition retry_text (t : GoalType) : string :=
  match t with
  | NEW_HOME => retry_home_text
  | NEW_CAR => retry_car_text
  | OTHER => retry_other_text
  end.

(** [state.messages[-1].text if state.messages else ""] *)
Definition last_message (state : ConversationState) : string :=
  match last (messages state) with
  | Some m => text m
  | None => EmptyString
  end.

(** [if goal_details:] *)
Definition some_truthy (v : option pyval) : bool :=
  match v with Some x => Py.truthy x | None => false end.

(** [x.attr] on an optional reference: [None] has no attributes. *)
Definition deref {A} (o : option A) : M A :=
  match o with Some a => ret a | None => raise AttributeError end.

(** The detail payload built from the extracted fields, in the order in
    which the constructor's arguments are evaluated. *)
Definition build_info (t : GoalType) (goal_details : pyval) : result goal_info :=
  let field k dflt := Dyn.get k dflt goal_details in
  match t with
  | NEW_HOME =>
      rbind (field "location" (VStr EmptyString)) (fun location =>
      rbind (rbind (field "house_price" (VInt 0)) py_float) (fun house_price =>
      rbind (rbind (field "deposit_amount" (VInt 0)) py_float) (fun deposit_amount =>
      rbind (rbind (field "purchase_date" (VStr EmptyString)) (parse_date today))
        (fun purchase_date =>
      Ok (NewHomeGoalInformation location house_price deposit_amount purchase_date)))))
  | NEW_CAR =>
      rbind (field "car_type" (VStr EmptyString)) (fun car_type =>
      rbind (rbind (field "car_price" (VInt 0)) py_float) (fun car_price =>
      rbind (rbind (field "purchase_date" (VStr EmptyString)) (parse_date today))
        (fun purchase_date =>
      Ok (NewCarInformation car_type car_price purchase_date))))
  | OTHER =>
      rbind (field "description" (VStr EmptyString)) (fun description =>
      rbind (rbind (field "amount_required" (VInt 0)) py_float) (fun amount_required =>
      rbind (rbind (field "target_date" (VStr EmptyString)) (parse_date today))
        (fun target_date =>
      Ok (OtherGoalInformation description amount_required target_date))))
  end.

Definition required_user_fields : list string :=
  ["first_name"; "last_name"; "date_of_birth"; "email"].

(** The branch of stage [GET_USER_INFO]. *)
Definition collect_user_info (extracted : loc) (last_message : string)
  : M (list Message) :=
  let user_info := extract_user_info last_message in
  complete <- lift (Dyn.all_in required_user_fields user_info) ;;
  if complete : bool then
    first <- lift (Dyn.getitem "first_name" user_info) ;;
    last <- lift (Dyn.getitem "last_name" user_info) ;;
    dob_text <- lift (Dyn.getitem "date_of_birth" user_info) ;;
    dob <- lift (parse_date today dob_text) ;;
    mail <- lift (Dyn.getitem "email" user_info) ;;
    u <- new_user (mkUser first last dob mail []) ;;
    set_user extracted (Some u) ;;;
    set_conversation_stage extracted GET_GOAL_TYPE ;;;
    ret [ai ask_goal_type_text]
  else
    ret [ai ask_user_info_text].

(** The branch of stage [GET_GOAL_TYPE]. *)
Definition select_goal_type (extracted : loc) (last_message : string)
  : M (list Message) :=
  let goal_type := Str.lower last_message in
  let start t name question :=
    g <- new_goal (mkGoal t name None) ;;
    set_pending_goal extracted (Some g) ;;;
    set_conversation_stage extracted GET_GOAL_DETAILS ;;;
    ret [ai question] in
  if Str.contains "home" goal_type then
    start NEW_HOME "Buy a new home" ask_home_text
  else if Str.contains "car" goal_type then
    start NEW_CAR "Buy a new car" ask_car_text
  else
    start OTHER "Other financial goal" ask_other_text.

(** The branch of stage [GET_GOAL_DETAILS]. *)
Definition collect_goal_details (extracted : loc) (last_message : string)
  : M (list Message) :=
  info <- get_info extracted ;;
  pending <- deref (pending_goal info) ;;
  goal <- get_goal pending ;;
  let goal_details := extract_goal_details last_message (goal_type goal) in
  if some_truthy goal_details then
    details <- lift (build_info (goal_type goal) (default VNone goal_details)) ;;
    set_goal_specific_information pending (Some details) ;;;
    set_conversation_stage extracted CONFIRM_GOAL ;;;
    ret [ai (confirm_text details)]
  else
    ret [ai (retry_text (goal_type goal))].

(** The branch of stage [CONFIRM_GOAL]. *)
Definition confirm_goal (extracted : loc) (last_message : string)
  : M (list Message) :=
  if Str.startswith "y" (Str.lower last_message) then
    info <- get_info extracted ;;
    u <- deref (user info) ;;
    append_goal u (pending_goal info) ;;;
    set_pending_goal extracted None ;;;
    set_conversation_stage extracted ADD_ANOTHER_GOAL ;;;
    ret [ai goal_saved_text]
  else
    set_pending_goal extracted None ;;;
    set_conversation_stage extracted GET_GOAL_TYPE ;;;
    ret [ai try_again_text].

(** The branch of stage [ADD_ANOTHER_GOAL]. *)
Definition add_another_goal (extracted : loc) (last_message : string)
  : M (list Message) :=
  if Str.startswith "y" (Str.lower last_message) then
    set_conversation_stage extracted GET_GOAL_TYPE ;;;
    ret [ai ask_next_goal_text]
  else
    set_conversation_stage extracted COMPLETED ;;;
    ret [ai closing_text].

(** [chat_response]: one turn of the dialogue.  The utterance is the text
    of the last message of the transcript. *)
Definition chat_response (state : ConversationState) : M ConversationState :=
  let extracted := extracted_information state in
  let last_message := last_message state in
  if is_stop_command (Str.strip (Str.lower last_message)) then
    set_conversation_stage extracted COMPLETED ;;;
    ret (mkState true (messages state ++ new_messages state)
                 [ai closing_text] extracted)
  else
    info <- get_info extracted ;;
    produced <-
      match conversation_stage info with
      | GET_USER_INFO => collect_user_info extracted last_message
      | GET_GOAL_TYPE => select_goal_type extracted last_message
      | GET_GOAL_DETAILS => collect_goal_details extracted last_message
      | CONFIRM_GOAL => confirm_goal extracted last_message
      | ADD_ANOTHER_GOAL => add_another_goal extracted last_message
      | COMPLETED => ret []
      end ;;
    info' <- get_info extracted ;;
    ret (mkState (bool_decide (conversation_stage info' = COMPLETED))
                 (messages state ++ new_messages state)
                 produced extracted).

(** Modelled from the spec: the turn interface [advance(state, utterance)].
    The caller, which is not among the sources, adds the utterance to the
    transcript and calls [chat_response]. *)
Definition with_utterance (state : ConversationState) (utterance : string)
  : ConversationState :=
  mkState (finished state) (messages state ++ [mkMessage utterance USER])
          (new_messages state) (extracted_information state).

Definition advance (state : ConversationState) (utterance : string)
  : M ConversationState :=
  chat_response (with_utterance state utterance).

End Engine.

(** ** Runs of the engine *)

(** The states a conversation can reach: a fresh state, then any number
    of turns.  Each turn may meet another behaviour of the language model
    and of the other library calls, and another day.  A turn that raises
    leaves the caller with the state it had. *)
Inductive reachable : heap -> ConversationState -> Prop :=
| reach_new h0 st h :
    new_conversation h0 = Some (Ok st, h) ->
    reachable h st
| reach_turn llm json_loads today float_of_str str_of_value
             h st utterance st' h' :
    reachable h st ->
    advance llm json_loads today float_of_str str_of_value st utterance h
    = Some (Ok st', h') ->
    reachable h' st'
| reach_raise llm json_loads today float_of_str str_of_value
              h st utterance e h' :
    reachable h st ->
    advance llm json_loads today float_of_str str_of_value st utterance h
    = Some (Raise e, h') ->
    reachable h' st.

(** The stages in which a goal is under construction. *)
Definition collecting_goal (s : ConversationStage) : bool :=
  match s with
  | GET_GOAL_DETAILS | CONFIRM_GOAL => true
  | _ => false
  end.

(** The pending goal is set exactly in the stages that build a goal. *)
Definition pending_iff_collecting (i : ExtractedInformation) : Prop :=
  is_Some (pending_goal i) <-> collecting_goal (conversation_stage i) = true.

(** The same, except that a pending goal may remain once the
    conversation is completed. *)
Definition pending_unless_completed (i : ExtractedInformation) : Prop :=
  conversation_stage i <> COMPLETED -> pending_iff_collecting i.

(** The utterance of a turn is a stop command. *)
Definition stops (state : ConversationState) : bool :=
  is_stop_command (Str.strip (Str.lower (last_message state))).

(** The objects that can be reached from a state are the same in two
    stores: its extracted information, its user and its pending goal. *)
Definition same_objects (state : ConversationState) (h h' : heap) : Prop :=
  let l := extracted_information state in
  infos h' !! l = infos h !! l
  /\ (forall i u, infos h !! l = Some i -> user i = Some u ->
        users h' !! u = users h !! u)
  /\ (forall i g, infos h !! l = Some i -> pending_goal i = Some g ->
        goal_objects h' !! g = goal_objects h !! g).

(** The answer to a prompt is unusable: the call fails, the answer is
    empty, or it does not parse as JSON. *)
Definition malformed (llm : string -> option string)
    (json_loads : string -> option pyval) (prompt : string) : Prop :=
  match llm prompt with
  | None => True
  | Some response =>
      response = EmptyString
      \/ json_loads (Str.strip (strip_fence response)) = None
  end.

(** The prompt a turn sends to the language model, if it sends one. *)
Definition prompt_of (today : date) (utterance : string)
    (stage : ConversationStage) (pending : option Goal) : option string :=
  match stage, pending with
  | GET_USER_INFO, _ => Some (user_info_prompt utterance)
  | GET_GOAL_DETAILS, Some g => Some (goal_prompt today utterance (goal_type g))
  | _, _ => None
  end.

(** The re-prompt of a stage that consults the language model. *)
Definition reprompt (stage : ConversationStage) (pending : option Goal)
  : list Message :=
  match stage, pending with
  | GET_USER_INFO, _ => [ai ask_user_info_text]
  | GET_GOAL_DETAILS, Some g => [ai (retry_text (goal_type g))]
  | _, _ => []
  end.

(** ** The scale of an amount, in the words of the specification

    "million", "billion", "thousand", else a bare "m", else a bare "b",
    else "k", else no scale. *)
Definition normalized_amount (amount : string) : string :=
  Str.strip (Str.remove_char "," (Str.lower amount)).

Definition numeric_part (amount : string) : option Q :=
  match Str.search_run Currency.is_digit_or_dot amount with
  | Some run => Currency.float_of_decimal run
  | None => None
  end.

Definition scale_by_priority (amount : string) : Q :=
  if Str.contains "million" amount then 1000000%Q
  else if Str.contains "billion" amount then 1000000000%Q
  else if Str.contains "thousand" amount then 1000%Q
  else if Str.contains "m" amount then 1000000%Q
  else if Str.contains "b" amount then 1000000000%Q
  else if Str.contains "k" amount then 1000%Q
  else 1%Q.

(** ** Checks used by the proof of the ISO round trip *)

(** The year is rendered as four digits that read back as the year. *)
Definition year_ok (y : Z) : bool :=
  match Str.zfill 4 y with
  | String a (String b (String c (String e EmptyString))) =>
      Str.is_digit a && Str.is_digit b && Str.is_digit c && Str.is_digit e
      && (Str.int_of_digits
            (String a (String b (String c (String e EmptyString)))) =? y)
  | _ => false
  end.

(** What follows the year in the format [%Y-%m-%d], and in an ISO date. *)
Definition iso_directives : list Strptime.directive :=
  [Strptime.DLit "-"; Strptime.Dm; Strptime.DLit "-"; Strptime.Dd].

Definition iso_tail (m d : Z) : string :=
  "-" +:+ Str.zfill 2 m +:+ "-" +:+ Str.zfill 2 d.

(** ** Statements about the engine *)

(** The object the pending goal refers to, if there is one. *)
Definition pending_object (h : heap) (i : ExtractedInformation) : option Goal :=
  match pending_goal i with
  | Some g => goal_objects h !! g
  | None => None
  end.

Definition date_keys : list string := ["purchase_date"; "target_date"].

(** The date field of a kind of goal: the one its prompt asks for and
    its details are built from. *)
Definition date_key_of (t : GoalType) : string :=
  match t with
  | NEW_HOME | NEW_CAR => "purchase_date"
  | OTHER => "target_date"
  end.

(** The extraction depends on the date field of the kind of goal: when
    the answer has that field, it gives nothing unless [parse_date]
    reads the field as a date, and then gives the object with the
    rendering of that date in the field. *)
Definition kind_date_guards_extraction : Prop :=
  forall llm json_loads today text t response d v,
    llm (goal_prompt today text t) = Some response ->
    response <> EmptyString ->
    json_loads (Str.strip (strip_fence response)) = Some (VDict d) ->
    Py.get (date_key_of t) d = Some v ->
    match parse_date today v with
    | Ok (Some parsed) =>
        exists d',
          extract_goal_details llm json_loads today text t = Some (VDict d')
          /\ Py.get (date_key_of t) d' = Some (VStr (Date.isoformat parsed))
    | Ok None | Raise _ =>
        extract_goal_details llm json_loads today text t = None
    end.

Definition amount_keys : list string :=
  ["house_price"; "deposit_amount"; "car_price"; "amount_required"].

(** In every reachable state the pending goal is set exactly in the
    stages that build a goal. *)
Definition pending_invariant : Prop :=
  forall h st, reachable h st ->
    exists i, infos h !! extracted_information st = Some i
              /\ pending_iff_collecting i.

(** A turn leaves every object that can be reached from its input state
    as it was. *)
Definition turn_is_pure : Prop :=
  forall llm json_loads today float_of_str str_of_value st h st' h',
    chat_response llm json_loads today float_of_str str_of_value st h
    = Some (Ok st', h') ->
    same_objects st h h'.

(** With a language model whose answers are all unusable, every turn
    from every state returns, keeps the stage and produces one message
    of the assistant. *)
Definition malformed_always_reprompts : Prop :=
  forall llm json_loads today float_of_str str_of_value,
    (forall prompt, malformed llm json_loads prompt) ->
    forall st h i,
      infos h !! extracted_information st = Some i ->
      exists st' h' i' m,
        chat_response llm json_loads today float_of_str str_of_value st h
        = Some (Ok st', h')
        /\ infos h' !! extracted_information st' = Some i'
        /\ conversation_stage i' = conversation_stage i
        /\ new_messages st' = [m]
        /\ sender m = AI.

(** ** A sample conversation *)

Module Sample.

Definition day : date := mkDate 2026 11 3.

(** A language model that fails, and one that always gives one answer. *)
Definition silent : string -> option string := fun _ => None.

Definition answers (r : string) : string -> option string := fun _ => Some r.

(** A parser for which every text reads as one value. *)
Definition parses_to (v : pyval) : string -> option pyval := fun _ => Some v.

Definition no_float : string -> option Q := fun _ => None.

Definition show : pyval -> string := fun _ => "?".

Definition identity : pyval :=
  VDict [("first_name", VStr "John"); ("last_name", VStr "Smith");
         ("date_of_birth", VStr "1990-05-01");
         ("email", VStr "john@example.com")].

Definition john : User :=
  mkUser (VStr "John") (VStr "Smith") (Some (mkDate 1990 5 1))
         (VStr "john@example.com") [].

Definition home : Goal := mkGoal NEW_HOME "Buy a new home" None.

Definition utterance1 : string := "John Smith, born 1990-05-01, john@example.com".

Definition empty : heap := mkHeap ∅ ∅ ∅.

(** A new conversation. *)
Definition h0 : heap := with_info 1%positive (mkInfo None None GET_USER_INFO) empty.

Definition st0 : ConversationState := mkState false [] [] 1%positive.

(** After the identity has been given. *)
Definition h1 : heap :=
  with_info 1%positive (mkInfo (Some 1%positive) None GET_GOAL_TYPE)
            (with_user 1%positive john h0).

Definition st1 : ConversationState :=
  mkState false [mkMessage utterance1 USER] [ai ask_goal_type_text] 1%positive.

(** After "home": a pending goal, whose details are awaited. *)
Definition h2 : heap :=
  with_info 1%positive (mkInfo (Some 1%positive) (Some 1%positive) GET_GOAL_DETAILS)
            (with_goal 1%positive home h1).

Definition st2 : ConversationState :=
  mkState false
          [mkMessage utterance1 USER; mkMessage "home" USER; ai ask_goal_type_text]
          [ai ask_home_text] 1%positive.

(** After "stop", said instead of the details. *)
Definition h3 : heap :=
  with_info 1%positive (mkInfo (Some 1%positive) (Some 1%positive) COMPLETED) h2.

Definition st3 : ConversationState :=
  mkState true
          [mkMessage utterance1 USER; mkMessage "home" USER; ai ask_goal_type_text;
           mkMessage "stop" USER; ai ask_home_text]
          [ai closing_text] 1%positive.

(** An answer with a location and nothing else, and one whose date
    cannot be read. *)
Definition only_location : list (string * pyval) := [("location", VStr "London")].

Definition vague_date : list (string * pyval) :=
  [("location", VStr "London"); ("house_price", VInt 500000);
   ("purchase_date", VStr "soon")].

(** An answer about a home with a relative date, and an answer about a
    goal of the kind other that has both date fields, of which only the
    one of a purchase can be read. *)
Definition in_two_years : list (string * pyval) :=
  [("location", VStr "London"); ("house_price", VInt 500000);
   ("deposit_amount", VInt 50000); ("purchase_date", VStr "in 2 years")].

Definition both_dates : list (string * pyval) :=
  [("description", VStr "a boat"); ("amount_required", VInt 20000);
   ("purchase_date", VStr "2025-03-01"); ("target_date", VStr "soon")].

(** The details of the home once confirmed, and the states around the
    confirmation. *)
Definition london : goal_info :=
  NewHomeGoalInformation (VStr "London") 500000 50000 (Some (mkDate 2028 11 2)).

Definition h_confirm : heap :=
  with_info 1%positive (mkInfo (Some 1%positive) (Some 1%positive) CONFIRM_GOAL)
            (with_goal 1%positive (mkGoal NEW_HOME "Buy a new home" (Some london)) h1).

Definition st_confirm (answer : string) : ConversationState :=
  mkState false [mkMessage answer USER] [] 1%positive.

Definition h_done : heap :=
  with_info 1%positive (mkInfo (Some 1%positive) None COMPLETED) h_confirm.

End Sample.

(** * Definitions for the further properties *)

(** ** The stage graph and the shape of a well-formed store *)

(** The stage that may follow a stage in one turn.  The stop command
    leads to [COMPLETED] from everywhere. *)
Definition may_follow (stop : bool) (s s' : ConversationStage) : bool :=
  if stop then bool_decide (s' = COMPLETED)
  else
    match s, s' with
    | GET_USER_INFO, (GET_USER_INFO | GET_GOAL_TYPE) => true
    | GET_GOAL_TYPE, GET_GOAL_DETAILS => true
    | GET_GOAL_DETAILS, (GET_GOAL_DETAILS | CONFIRM_GOAL) => true
    | CONFIRM_GOAL, (ADD_ANOTHER_GOAL | GET_GOAL_TYPE) => true
    | ADD_ANOTHER_GOAL, (GET_GOAL_TYPE | COMPLETED) => true
    | COMPLETED, COMPLETED => true
    | _, _ => false
    end.

(** A reference to a goal object that has its details. *)
Definition detailed_goal (h : heap) (x : option loc) : Prop :=
  exists g G d, x = Some g /\ goal_objects h !! g = Some G
                /\ goal_specific_information G = Some d.

(** What holds of the extracted information along a conversation: the
    user is absent exactly until the identity is collected (or the
    conversation was stopped before), the references lead to objects,
    every saved goal has its details, and so has the pending goal once
    it awaits confirmation. *)
Record consistent (h : heap) (i : ExtractedInformation) : Prop := {
  cons_no_user :
    user i = None ->
    conversation_stage i = GET_USER_INFO \/ conversation_stage i = COMPLETED;
  cons_first_stage :
    conversation_stage i = GET_USER_INFO ->
    user i = None /\ pending_goal i = None;
  cons_user :
    forall u, user i = Some u ->
      exists U, users h !! u = Some U /\ Forall (detailed_goal h) (goals U);
  cons_pending :
    forall g, pending_goal i = Some g ->
      exists G, goal_objects h !! g = Some G
                /\ (conversation_stage i = CONFIRM_GOAL ->
                    is_Some (goal_specific_information G));
  cons_collecting :
    collecting_goal (conversation_stage i) = true -> is_Some (pending_goal i)
}.

(** ** Character classes used in the statements *)

Definition not_digit (c : ascii) : bool := negb (Str.is_digit c).

Definition not_backtick (c : ascii) : bool :=
  if ascii_dec c "`" then false else true.

Definition not_comma (c : ascii) : bool :=
  if ascii_dec c "," then false else true.

(** The first character of a string is not a backtick. *)
Definition starts_plain (s : string) : bool :=
  match s with
  | EmptyString => true
  | String c _ => not_backtick c
  end.

(** ** Unit words of relative dates *)

(** The unit words, in the order in which [parse_date] looks for them,
    with the number of days each stands for. *)
Definition unit_days : list (string * Z) :=
  [("day", 1); ("week", 7); ("month", 30); ("year", 365)].

(** ["in N <unit>s"] *)
Definition in_units (n : Z) (unit : string) : string :=
  "in " +:+ Str.of_nonneg n +:+ " " +:+ unit +:+ "s".

(** ** Dates written with slashes *)

(** [dd/mm/yyyy] and [mm/dd/yyyy] *)
Definition slashed (first second y : Z) : string :=
  Str.zfill 2 first +:+ "/" +:+ Str.zfill 2 second +:+ "/" +:+ Str.zfill 4 y.

Definition day_first (d : date) : string := slashed (day d) (month d) (year d).

Definition month_first (d : date) : string := slashed (month d) (day d) (year d).

(** The part of a slashed date before the year. *)
Definition slash_head (first second : Z) : string :=
  Str.zfill 2 first +:+ "/" +:+ Str.zfill 2 second +:+ "/".

Definition up_to_31 : list Z :=
  [1; 2; 3; 4; 5; 6; 7; 8; 9; 10; 11; 12; 13; 14; 15; 16; 17; 18; 19; 20;
   21; 22; 23; 24; 25; 26; 27; 28; 29; 30; 31].

(** ** Years and month names *)

Definition string_eqb (a b : string) : bool :=
  if string_dec a b then true else false.

Definition bare_year_result (y : Z) : option date :=
  if (2000 <=? y) && (y <=? 2099) then Some (mkDate y 1 1) else None.

(** ["<month name> yyyy"] *)
Definition month_and_year (name : string) (y : Z) : string :=
  name +:+ " " +:+ Str.zfill 4 y.

Definition month_names : list (string * Z) :=
  Strptime.full_months ++ Strptime.abbr_months.

(** Whether a month name is one of the full names. *)
Definition is_full_name (name : string) : bool :=
  existsb (fun '(n, _) => string_eqb n name) Strptime.full_months.

(** ["<month name> <day>, yyyy"] *)
Definition long_date (name day_text : string) (y : Z) : string :=
  name +:+ " " +:+ day_text +:+ ", " +:+ Str.zfill 4 y.

(** ** The details of a goal *)

(** The key under which the details of a kind of goal keep their first
    amount. *)
Definition price_key_of (t : GoalType) : string :=
  match t with
  | NEW_HOME => "house_price"
  | NEW_CAR => "car_price"
  | OTHER => "amount_required"
  end.

(** An answer that is not a JSON object gives no details: either of the
    date keys is found in it, the search for them fails, or it is a false
    value. *)
Definition gives_nothing (data : pyval) : bool :=
  match Dyn.contains_key "purchase_date" data,
        Dyn.contains_key "target_date" data with
  | Ok false, Ok false => negb (Py.truthy data)
  | _, _ => true
  end.

(** ** More sample data *)

Module Example.

(** An answer whose price was left as the user wrote it. *)
Definition price_as_text : list (string * pyval) :=
  [("location", VStr "London"); ("house_price", VStr "1.5M")].

(** An answer with the first name only. *)
Definition first_name_only : list (string * pyval) := [("first_name", VStr "John")].

Definition identity_fields : list (string * pyval) :=
  [("first_name", VStr "John"); ("last_name", VStr "Smith");
   ("date_of_birth", VStr "1990-05-01");
   ("email", VStr "john@example.com")].

(** A goal has been saved and the engine asks for another one. *)
Definition h_saved : heap :=
  with_info 1%positive (mkInfo (Some 1%positive) None ADD_ANOTHER_GOAL)
    (with_user 1%positive
       (mkUser (VStr "John") (VStr "Smith") (Some (mkDate 1990 5 1))
               (VStr "john@example.com") [Some 1%positive])
       Sample.h_confirm).

End Example.

(** * Properties *)

(** ** Digits, case and white space *)

Lemma digit_code c : Str.is_digit c = true -> 48 <= Str.code c <= 57.
Proof.
  unfold Str.is_digit. intros H. apply andb_true_iff in H as [H1 H2]. lia.
Qed.

Lemma digit_lower c : Str.is_digit c = true -> Str.lower_char c = c.
Proof.
  intros H. apply digit_code in H. unfold Str.lower_char, Str.is_upper.
  destruct (65 <=? Str.code c) eqn:E; [lia | reflexivity].
Qed.

Lemma digit_not_space c : Str.is_digit c = true -> Str.is_space c = false.
Proof.
  intros H. apply digit_code in H. unfold Str.is_space.
  apply orb_false_iff. split; apply andb_false_iff; lia.
Qed.

Lemma rstrip_cons a s :
  Str.rstrip s = s -> s <> EmptyString -> Str.rstrip (String a s) = String a s.
Proof.
  intros H Hne. simpl. rewrite H. destruct s; [congruence | reflexivity].
Qed.

(** ** The ISO rendering of a date *)

Lemma years_ok_all :
  forallb year_ok (map Z.of_nat (seq 1 (Z.to_nat 9999))) = true.
Proof. vm_compute. reflexivity. Qed.

Lemma year_ok_range y : 1 <= y <= 9999 -> year_ok y = true.
Proof.
  intros Hy. pose proof years_ok_all as H.
  rewrite forallb_forall in H. apply H.
  apply in_map_iff. exists (Z.to_nat y). split; [lia |].
  apply in_seq. lia.
Qed.

(** What follows the year is in lower case, ends with a digit and reads
    back as the month and the day, whatever was matched before it. *)
Lemma iso_tail_facts f m d :
  1 <= m <= 12 -> 1 <= d <= 31 ->
  Str.lower (iso_tail m d) = iso_tail m d /\
  Str.rstrip (iso_tail m d) = iso_tail m d /\
  iso_tail m d <> EmptyString /\
  hd_error (Strptime.run iso_directives f (iso_tail m d))
  = Some (Strptime.mkFields (Strptime.fY f) (Some m) (Some d), EmptyString).
Proof.
  intros Hm Hd.
  destruct m as [| p | p]; try lia.
  destruct d as [| q | q]; try lia.
  do 4 (try (destruct p as [p | p |]; try lia));
  do 5 (try (destruct q as [q | q |]; try lia));
  (vm_compute; repeat split; congruence).
Qed.

Lemma match_Y_digits a b c e rest :
  Str.is_digit a = true -> Str.is_digit b = true ->
  Str.is_digit c = true -> Str.is_digit e = true ->
  Strptime.match_Y (String a (String b (String c (String e rest))))
  = [(Str.int_of_digits (String a (String b (String c (String e EmptyString)))),
      rest)].
Proof.
  intros Ha Hb Hc He. unfold Strptime.match_Y.
  rewrite Ha, Hb, Hc, He. reflexivity.
Qed.

Lemma strptime_iso a b c e m d :
  Str.is_digit a = true -> Str.is_digit b = true ->
  Str.is_digit c = true -> Str.is_digit e = true ->
  1 <= m <= 12 -> 1 <= d <= 31 ->
  Strptime.strptime (String a (String b (String c (String e (iso_tail m d)))))
                    "%Y-%m-%d"
  = Date.make
      (Str.int_of_digits (String a (String b (String c (String e EmptyString)))))
      m d.
Proof.
  intros Ha Hb Hc He Hm Hd. unfold Strptime.strptime.
  change (Strptime.compile false "%Y-%m-%d") with (Strptime.DY :: iso_directives).
  cbn [Strptime.run Strptime.step].
  rewrite match_Y_digits by assumption.
  cbn [map flat_map]. rewrite app_nil_r.
  destruct (iso_tail_facts
              (Strptime.mkFields
                 (Some (Str.int_of_digits
                          (String a (String b (String c (String e EmptyString))))))
                 (Strptime.fM Strptime.no_fields) (Strptime.fD Strptime.no_fields))
              m d Hm Hd) as (_ & _ & _ & Hrun).
  destruct (Strptime.run iso_directives _ (iso_tail m d)) as [| [f r] l];
    [discriminate |].
  cbn in Hrun. injection Hrun as -> ->. reflexivity.
Qed.

Lemma parse_date_str_iso today a b c e m d :
  Str.is_digit a = true -> Str.is_digit b = true ->
  Str.is_digit c = true -> Str.is_digit e = true ->
  1 <= m <= 12 -> 1 <= d <= 31 ->
  forall D,
  Date.make
    (Str.int_of_digits (String a (String b (String c (String e EmptyString)))))
    m d = Some D ->
  parse_date_str today (String a (String b (String c (String e (iso_tail m d)))))
  = Ok (Some D).
Proof.
  intros Ha Hb Hc He Hm Hd D HD.
  destruct (iso_tail_facts Strptime.no_fields m d Hm Hd) as (Hlow & Hrs & Hne & _).
  unfold parse_date_str.
  assert (Hl : Str.lower (String a (String b (String c (String e (iso_tail m d)))))
               = String a (String b (String c (String e (iso_tail m d))))).
  { cbn [Str.lower]. rewrite !digit_lower, Hlow by assumption. reflexivity. }
  rewrite Hl.
  assert (Hs : Str.strip (String a (String b (String c (String e (iso_tail m d)))))
               = String a (String b (String c (String e (iso_tail m d))))).
  { unfold Str.strip. cbn [Str.lstrip]. rewrite (digit_not_space a Ha).
    do 3 (apply rstrip_cons; [| discriminate]).
    apply rstrip_cons; assumption. }
  rewrite Hs.
  assert (Hin : Str.startswith "in "
                  (String a (String b (String c (String e (iso_tail m d)))))
                = false).
  { cbn [Str.startswith].
    destruct (ascii_dec "i" a) as [E | _];
      [subst a; vm_compute in Ha; discriminate Ha | reflexivity]. }
  rewrite Hin.
  destruct (string_dec _ "next month") as [E | _].
  { injection E as E _. subst a. vm_compute in Ha. discriminate Ha. }
  destruct (string_dec _ "next year") as [E | _].
  { injection E as E _. subst a. vm_compute in Ha. discriminate Ha. }
  unfold standard_formats. cbn [try_formats].
  rewrite strptime_iso, HD by assumption. reflexivity.
Qed.

(** C6. [parse_date] reads the ISO rendering of every valid calendar date
    back as that date, whatever the current day is: none of the rules
    for relative dates, "next ..." or a bare year applies to it. *)
Theorem parse_date_iso_roundtrip today D :
  Date.valid D = true ->
  parse_date today (VStr (Date.isoformat D)) = Ok (Some D).
Proof.
  intros HV. destruct D as [y m d].
  pose proof HV as HV'. unfold Date.valid in HV'. cbn [year month day] in HV'.
  repeat (apply andb_true_iff in HV' as [HV' ?]).
  assert (Hy : 1 <= y <= 9999) by (unfold Date.MINYEAR, Date.MAXYEAR in *; lia).
  assert (Hm : 1 <= m <= 12) by lia.
  assert (Hd : 1 <= d <= 31).
  { assert (Date.days_in_month y m <= 31).
    { unfold Date.days_in_month. destruct (_ && _); [lia |].
      unfold Date.days_in_month_table.
      destruct m as [| p | p]; try lia.
      repeat (first [ lia | reflexivity | destruct p as [p | p |] ]). }
    lia. }
  pose proof (year_ok_range y Hy) as Hyk. unfold year_ok in Hyk.
  unfold Date.isoformat. cbn [year month day].
  destruct (Str.zfill 4 y) as [| a [| b [| c [| e [| ? ?]]]]]; try discriminate.
  apply andb_true_iff in Hyk as [Hyk Hv].
  apply andb_true_iff in Hyk as [Hyk He].
  apply andb_true_iff in Hyk as [Hyk Hc].
  apply andb_true_iff in Hyk as [Ha Hb].
  assert (Hval : Str.int_of_digits
                   (String a (String b (String c (String e EmptyString)))) = y)
    by lia.
  change (String a (String b (String c (String e EmptyString))) +:+ "-"
          +:+ Str.zfill 2 m +:+ "-" +:+ Str.zfill 2 d)
    with (String a (String b (String c (String e (iso_tail m d))))).
  unfold parse_date.
  change (Py.truthy (VStr (String a (String b (String c (String e (iso_tail m d)))))))
    with true.
  cbn [negb].
  apply parse_date_str_iso; try assumption.
  rewrite Hval. unfold Date.make. rewrite HV. reflexivity.
Qed.

Lemma parse_date_iso_roundtrip_leap_day :
  parse_date (mkDate 2026 11 3) (VStr "2024-02-29")
  = Ok (Some (mkDate 2024 2 29)).
Proof.
  apply (parse_date_iso_roundtrip (mkDate 2026 11 3) (mkDate 2024 2 29)).
  vm_compute. reflexivity.
Defined.

(** ** The currency normaliser *)

Lemma numeric_part_reduced amount x :
  numeric_part amount = Some x -> Qred x = x.
Proof.
  unfold numeric_part, Currency.float_of_decimal.
  destruct (Str.search_run _ _) as [run |]; [| discriminate].
  destruct (Currency.decimal_parts false run) as [ds k].
  destruct (_ && _); [| discriminate].
  intros [= <-]. apply Qred_complete, Qred_correct.
Qed.

Lemma fmul_one x : Qred x = x -> Currency.fmul x 1 = x.
Proof.
  intros H. unfold Currency.fmul. rewrite <- H at 2.
  apply Qred_complete. apply Qmult_1_r.
Qed.

(** C7. [parse_currency] gives 1500000 for "1.5M", 20000 for "20k", 500
    for "$500" and nothing for the empty string; in general it is the
    number found in the normalised text times the scale found by looking,
    in this order, for "million", "billion", "thousand", a bare "m", a
    bare "b", "k", and 1 when none occurs. *)
Theorem parse_currency_examples_and_scale :
  parse_currency "1.5M" = Some 1500000%Q /\
  parse_currency "20k" = Some 20000%Q /\
  parse_currency "$500" = Some 500%Q /\
  parse_currency EmptyString = None /\
  forall amount : string,
    parse_currency amount =
    if string_dec amount EmptyString then None
    else option_map
           (fun x => Currency.fmul x (scale_by_priority (normalized_amount amount)))
           (numeric_part (normalized_amount amount)).
Proof.
  split; [vm_compute; reflexivity |].
  split; [vm_compute; reflexivity |].
  split; [vm_compute; reflexivity |].
  split; [reflexivity |].
  intros amount. unfold parse_currency.
  destruct (string_dec amount EmptyString) as [_ | _]; [reflexivity |].
  fold (normalized_amount amount). fold (numeric_part (normalized_amount amount)).
  destruct (numeric_part (normalized_amount amount)) as [x |] eqn:Hx;
    [| reflexivity].
  cbn [option_map]. unfold scale_by_priority.
  destruct (Str.contains "million" _); [reflexivity |].
  destruct (Str.contains "billion" _); [reflexivity |].
  destruct (Str.contains "thousand" _); [reflexivity |].
  cbn [negb andb].
  destruct (Str.contains "m" _); [reflexivity |].
  destruct (Str.contains "b" _); [reflexivity |].
  destruct (Str.contains "k" _); [reflexivity |].
  cbn [andb].
  rewrite (fmul_one x (numeric_part_reduced _ _ Hx)).
  destruct (existsb _ _); reflexivity.
Qed.

(** ** Computations over the store *)

Lemma bind_inv {A B} (m : M A) (k : A -> M B) h r h' :
  bind m k h = Some (r, h') ->
  (exists a h1, m h = Some (Ok a, h1) /\ k a h1 = Some (r, h'))
  \/ (exists e, m h = Some (Raise e, h') /\ r = Raise e).
Proof.
  unfold bind. destruct (m h) as [[[a | e] h1] |]; [eauto | | discriminate].
  intros [= <- <-]. eauto.
Qed.

Lemma infos_with_info l i h : infos (with_info l i h) !! l = Some i.
Proof. unfold with_info. cbn. apply lookup_insert_eq. Qed.

Lemma fresh_user_ne (h : heap) u U :
  users h !! u = Some U -> fresh (dom (users h)) <> u.
Proof.
  intros HU E. apply (is_fresh (dom (users h))). rewrite E.
  apply elem_of_dom. eauto.
Qed.

Lemma fresh_goal_ne (h : heap) g G :
  goal_objects h !! g = Some G -> fresh (dom (goal_objects h)) <> g.
Proof.
  intros HG E. apply (is_fresh (dom (goal_objects h))). rewrite E.
  apply elem_of_dom. eauto.
Qed.

(** Running a computation forwards, when the objects it reads are known. *)
Ltac munfold :=
  unfold collect_user_info, select_goal_type, collect_goal_details,
    confirm_goal, add_another_goal, set_conversation_stage, set_pending_goal,
    set_user, set_goal_specific_information, append_goal, deref, bind, ret,
    raise, lift, get_info, put_info, get_user, put_user, get_goal, put_goal,
    new_user, new_goal in *.

Ltac heap_simpl_in H :=
  cbn [infos users goal_objects with_info with_user with_goal] in H;
  rewrite ?lookup_insert_eq in H.

Ltac heap_simpl_all :=
  repeat match goal with
         | H : _ |- _ => progress heap_simpl_in H
         end;
  simplify_eq.

Ltac destruct_scrutinee H :=
  match type of H with
  | match ?x with _ => _ end = _ => destruct x eqn:?
  end.

(** Taking a finished computation apart, one step at a time. *)
Ltac minv_step :=
  match goal with
  | H : bind _ _ _ = Some _ |- _ =>
      apply bind_inv in H as [(? & ? & ? & H) | (? & H & ?)]; cbv beta in *
  | H : ret _ _ = Some _ |- _ => unfold ret in H; simplify_eq
  | H : raise _ _ = Some _ |- _ => unfold raise in H; simplify_eq
  | H : lift _ _ = Some _ |- _ => unfold lift in H; simplify_eq
  | H : deref ?o _ = Some _ |- _ => unfold deref in H; destruct o eqn:?
  | H : get_info ?l ?h = Some _ |- _ =>
      unfold get_info in H; heap_simpl_in H;
      destruct_scrutinee H; simplify_eq
  | H : get_user ?l ?h = Some _ |- _ =>
      unfold get_user in H; heap_simpl_in H;
      destruct_scrutinee H; simplify_eq
  | H : get_goal ?l ?h = Some _ |- _ =>
      unfold get_goal in H; heap_simpl_in H;
      destruct_scrutinee H; simplify_eq
  | H : put_info _ _ _ = Some _ |- _ => unfold put_info in H; simplify_eq
  | H : put_user _ _ _ = Some _ |- _ => unfold put_user in H; simplify_eq
  | H : put_goal _ _ _ = Some _ |- _ => unfold put_goal in H; simplify_eq
  | H : new_user _ _ = Some _ |- _ =>
      unfold new_user in H; cbv zeta in H; simplify_eq
  | H : new_goal _ _ = Some _ |- _ =>
      unfold new_goal in H; cbv zeta in H; simplify_eq
  | H : (if ?b then _ else _) _ = Some _ |- _ => destruct b eqn:?
  | H : (match ?x with _ => _ end) _ = Some _ |- _ => destruct x eqn:?
  end.

Ltac minv :=
  unfold collect_user_info, select_goal_type, collect_goal_details,
    confirm_goal, add_another_goal, set_conversation_stage, set_pending_goal,
    set_user, set_goal_specific_information, append_goal in *;
  cbv zeta in *;
  repeat minv_step.

Ltac turn_cases H :=
  unfold chat_response in H;
  match type of H with
  | (if ?b then _ else _) _ = _ => destruct b eqn:?
  end; minv.

(** ** One turn of the dialogue *)

Section Turn.

Variable llm : string -> option string.
Variable json_loads : string -> option pyval.
Variable today : date.
Variable float_of_str : string -> option Q.
Variable str_of_value : pyval -> string.

Local Abbreviation turn :=
  (chat_response llm json_loads today float_of_str str_of_value).

(** *** The effect of a turn on the store *)

Lemma turn_infos_frame st h r h' :
  turn st h = Some (r, h') ->
  forall l', l' <> extracted_information st -> infos h' !! l' = infos h !! l'.
Proof.
  intros H l' Hl'. turn_cases H.
  all: cbn; rewrite ?lookup_insert_ne by congruence; reflexivity.
Qed.

Lemma turn_result st h st' h' :
  turn st h = Some (Ok st', h') ->
  extracted_information st' = extracted_information st
  /\ messages st' = messages st ++ new_messages st.
Proof.
  intros H. turn_cases H. all: split; reflexivity.
Qed.

Lemma turn_raise st h e h' :
  turn st h = Some (Raise e, h') -> h' = h.
Proof.
  intros H. turn_cases H. all: reflexivity.
Qed.

Lemma turn_users_frame st h r h' i :
  infos h !! extracted_information st = Some i ->
  turn st h = Some (r, h') ->
  forall u U, users h !! u = Some U ->
    (user i <> Some u -> users h' !! u = Some U)
    /\ exists gs, users h' !! u
         = Some (mkUser (first_name U) (last_name U) (date_of_birth U)
                        (email U) (goals U ++ gs)).
Proof.
  intros Hi H u [fn ln dob em gs] HU. turn_cases H.
  all: cbn [infos users goal_objects with_info with_user with_goal
            first_name last_name date_of_birth email goals].
  all: try (rewrite lookup_insert_ne by (eapply fresh_user_ne; eassumption)).
  all: try (split; [intros _; assumption
                   | exists []; rewrite app_nil_r; assumption ]).
  match goal with
  | |- context [ <[?l := _]> _ !! u ] =>
      destruct (decide (l = u)) as [-> | Hne]
  end.
  - rewrite lookup_insert_eq. simplify_eq. split; [congruence |].
    eexists. reflexivity.
  - rewrite lookup_insert_ne by assumption.
    split; [intros _; assumption | exists []; rewrite app_nil_r; assumption ].
Qed.

Lemma turn_goals_frame st h r h' i :
  infos h !! extracted_information st = Some i ->
  turn st h = Some (r, h') ->
  forall g G, goal_objects h !! g = Some G ->
    (pending_goal i <> Some g -> goal_objects h' !! g = Some G)
    /\ exists d, goal_objects h' !! g
         = Some (mkGoal (goal_type G) (goal_name G) d).
Proof.
  intros Hi H g [gt gn gi] HG. turn_cases H.
  all: cbn [infos users goal_objects with_info with_user with_goal
            goal_type goal_name goal_specific_information].
  all: try (rewrite lookup_insert_ne by (eapply fresh_goal_ne; eassumption)).
  all: try (split; [intros _; assumption | eexists; eassumption ]).
  match goal with
  | |- context [ <[?l := _]> _ !! g ] =>
      destruct (decide (l = g)) as [-> | Hne]
  end.
  - rewrite lookup_insert_eq. simplify_eq. split; [congruence |].
    eexists. reflexivity.
  - rewrite lookup_insert_ne by assumption.
    split; [intros _; assumption | eexists; eassumption ].
Qed.

(** The extracted information before and after a turn, whatever its
    outcome: the stop command apart, a turn keeps the pending goal in
    step with the stage. *)
Lemma turn_info st h r h' :
  turn st h = Some (r, h') ->
  exists i i',
    infos h !! extracted_information st = Some i
    /\ infos h' !! extracted_information st = Some i'
    /\ (stops st = false -> pending_iff_collecting i -> pending_iff_collecting i')
    /\ (pending_unless_completed i -> pending_unless_completed i').
Proof.
  intros H. unfold stops. turn_cases H. all: heap_simpl_all.
  all: eexists _, _; (split; [first [eassumption | reflexivity] |]).
  all: cbn [infos users goal_objects with_info with_user with_goal];
       rewrite ?lookup_insert_eq.
  all: (split; [first [eassumption | reflexivity] |]).
  all: unfold pending_unless_completed, pending_iff_collecting;
       cbn [user pending_goal conversation_stage].
  all: repeat match goal with
              | H : conversation_stage _ = _ |- _ => rewrite H in *; clear H
              | H : pending_goal _ = _ |- _ => rewrite H in *; clear H
              end.
  all: cbn [collecting_goal]; rewrite ?is_Some_alt.
  all: try (destruct (pending_goal _)); try tauto;
       try (intuition (congruence || discriminate)).
Qed.

(** *** The stop command and the completed stage *)

Lemma turn_stop st h i :
  infos h !! extracted_information st = Some i ->
  stops st = true ->
  turn st h
  = Some (Ok (mkState true (messages st ++ new_messages st) [ai closing_text]
                      (extracted_information st)),
          with_info (extracted_information st)
                    (mkInfo (user i) (pending_goal i) COMPLETED) h).
Proof.
  intros Hi Hs. unfold stops in Hs. unfold chat_response. rewrite Hs.
  munfold. rewrite Hi. reflexivity.
Qed.

Lemma turn_completed st h i :
  infos h !! extracted_information st = Some i ->
  conversation_stage i = COMPLETED ->
  stops st = false ->
  turn st h
  = Some (Ok (mkState true (messages st ++ new_messages st) []
                      (extracted_information st)), h).
Proof.
  intros Hi Hc Hs. unfold stops in Hs. unfold chat_response. rewrite Hs.
  munfold. rewrite Hi, Hc, Hi, Hc. reflexivity.
Qed.

(** C3. Whatever the stage, a turn whose utterance is a stop command
    (after lower-casing and stripping) returns a finished state in stage
    [COMPLETED], with the closing message as its only new message. *)
Theorem stop_command_completes st h i :
  infos h !! extracted_information st = Some i ->
  In (Str.strip (Str.lower (last_message st))) STOP_COMMANDS ->
  exists st' h' i',
    chat_response llm json_loads today float_of_str str_of_value st h
    = Some (Ok st', h')
    /\ finished st' = true
    /\ infos h' !! extracted_information st' = Some i'
    /\ conversation_stage i' = COMPLETED
    /\ new_messages st' = [ai closing_text].
Proof.
  intros Hi Hin.
  assert (Hs : stops st = true).
  { unfold stops, is_stop_command. apply existsb_exists.
    exists (Str.strip (Str.lower (last_message st))). split; [assumption |].
    destruct (string_dec _ _); congruence. }
  eexists _, _, _. rewrite (turn_stop _ _ _ Hi Hs).
  split; [reflexivity |]. cbn [finished new_messages extracted_information].
  rewrite infos_with_info. auto.
Qed.

(** C10. [COMPLETED] is absorbing: a turn from it returns a finished
    state that is still in [COMPLETED], and it produces no message unless
    the utterance is a stop command. *)
Theorem completed_is_absorbing st h i :
  infos h !! extracted_information st = Some i ->
  conversation_stage i = COMPLETED ->
  exists st' h' i',
    chat_response llm json_loads today float_of_str str_of_value st h
    = Some (Ok st', h')
    /\ infos h' !! extracted_information st' = Some i'
    /\ conversation_stage i' = COMPLETED
    /\ finished st' = true
    /\ (stops st = false -> new_messages st' = []).
Proof.
  intros Hi Hc. destruct (stops st) eqn:Hs.
  - eexists _, _, _. rewrite (turn_stop _ _ _ Hi Hs).
    split; [reflexivity |]. cbn [finished new_messages extracted_information].
    rewrite infos_with_info. repeat split; discriminate.
  - eexists _, _, _. rewrite (turn_completed _ _ _ Hi Hc Hs).
    split; [reflexivity |]. cbn. rewrite Hi. auto.
Qed.

(** *** Confirming a goal *)

Lemma turn_confirm st h i u g U :
  infos h !! extracted_information st = Some i ->
  conversation_stage i = CONFIRM_GOAL ->
  pending_goal i = Some g ->
  user i = Some u ->
  users h !! u = Some U ->
  stops st = false ->
  turn st h
  = if Str.startswith "y" (Str.lower (last_message st)) then
      Some (Ok (mkState false (messages st ++ new_messages st)
                        [ai goal_saved_text] (extracted_information st)),
            with_info (extracted_information st)
                      (mkInfo (Some u) None ADD_ANOTHER_GOAL)
              (with_user u (mkUser (first_name U) (last_name U)
                                   (date_of_birth U) (email U)
                                   (goals U ++ [Some g])) h))
    else
      Some (Ok (mkState false (messages st ++ new_messages st)
                        [ai try_again_text] (extracted_information st)),
            with_info (extracted_information st)
                      (mkInfo (Some u) None GET_GOAL_TYPE) h).
Proof.
  intros Hi Hc Hp Hu HU Hs. unfold stops in Hs. unfold chat_response.
  rewrite Hs. munfold. rewrite Hi, Hc.
  destruct (Str.startswith "y" _).
  - rewrite Hi, Hu, HU, Hp. cbn. rewrite Hi. cbn.
    rewrite !lookup_insert_eq. cbn. rewrite !lookup_insert_eq. cbn.
    unfold with_info, with_user. cbn. rewrite Hu, insert_insert_eq. reflexivity.
  - rewrite Hi. cbn. rewrite !lookup_insert_eq. cbn.
    rewrite !lookup_insert_eq. cbn.
    unfold with_info. cbn. rewrite Hu, insert_insert_eq. reflexivity.
Qed.

(** C4. In stage [CONFIRM_GOAL], with a pending goal and a user, on an
    utterance that is not a stop command: if the utterance in lower case
    starts with "y", the pending goal is appended to the goals of the
    user, the pending goal is cleared and the stage becomes
    [ADD_ANOTHER_GOAL]; otherwise the pending goal is dropped, the users
    are as before and the stage becomes [GET_GOAL_TYPE].  No goal object
    changes in either case. *)
Theorem confirm_goal_saves_or_discards st h i u g U :
  infos h !! extracted_information st = Some i ->
  conversation_stage i = CONFIRM_GOAL ->
  pending_goal i = Some g ->
  user i = Some u ->
  users h !! u = Some U ->
  stops st = false ->
  exists st' h',
    chat_response llm json_loads today float_of_str str_of_value st h
    = Some (Ok st', h')
    /\ goal_objects h' = goal_objects h
    /\ if Str.startswith "y" (Str.lower (last_message st)) then
         users h' !! u
         = Some (mkUser (first_name U) (last_name U) (date_of_birth U)
                        (email U) (goals U ++ [Some g]))
         /\ infos h' !! extracted_information st'
            = Some (mkInfo (Some u) None ADD_ANOTHER_GOAL)
       else
         users h' = users h
         /\ infos h' !! extracted_information st'
            = Some (mkInfo (Some u) None GET_GOAL_TYPE).
Proof.
  intros Hi Hc Hp Hu HU Hs.
  rewrite (turn_confirm _ _ _ _ _ _ Hi Hc Hp Hu HU Hs).
  destruct (Str.startswith "y" _); eexists _, _; (split; [reflexivity |]).
  - split; [reflexivity |]. cbn. rewrite !lookup_insert_eq. auto.
  - split; [reflexivity |]. cbn. rewrite !lookup_insert_eq. auto.
Qed.

(** *** The extraction of goal details *)

Lemma extract_goal_details_parsed text t response data :
  llm (goal_prompt today text t) = Some response ->
  response <> EmptyString ->
  json_loads (Str.strip (strip_fence response)) = Some data ->
  extract_goal_details llm json_loads today text t = validate_dates today data.
Proof.
  intros Hl Hne Hj. unfold extract_goal_details. rewrite Hl.
  destruct (string_dec response EmptyString); [contradiction |].
  rewrite Hj. reflexivity.
Qed.

Lemma mem_get k d : Py.mem k d = true -> exists v, Py.get k d = Some v.
Proof. unfold Py.mem. destruct (Py.get k d); [eauto | discriminate]. Qed.

Lemma mem_false_get k d : Py.mem k d = false -> Py.get k d = None.
Proof. unfold Py.mem. destruct (Py.get k d); [discriminate | reflexivity]. Qed.

Lemma get_set_eq k v d : Py.get k (Py.set k v d) = Some v.
Proof.
  induction d as [| [k' v'] d IH]; cbn.
  - destruct (string_dec k k); [reflexivity | contradiction].
  - destruct (string_dec k k') as [E | NE]; cbn.
    + destruct (string_dec k k); [reflexivity | contradiction].
    + destruct (string_dec k k'); [contradiction | exact IH].
Qed.

Lemma get_set_ne k k0 v d : k0 <> k -> Py.get k0 (Py.set k v d) = Py.get k0 d.
Proof.
  intros Hne. induction d as [| [k' v'] d IH]; cbn.
  - destruct (string_dec k0 k); [contradiction | reflexivity].
  - destruct (string_dec k k') as [E | NE]; cbn.
    + subst k'. destruct (string_dec k0 k); [contradiction | reflexivity].
    + destruct (string_dec k0 k'); [reflexivity | exact IH].
Qed.

Lemma set_keeps_keys k v d :
  Py.mem k d = true -> map fst (Py.set k v d) = map fst d.
Proof.
  unfold Py.mem. induction d as [| [k' v'] d IH]; cbn; [discriminate |].
  destruct (string_dec k k') as [E | NE]; cbn.
  - intros _. rewrite E. reflexivity.
  - intros H. rewrite (IH H). reflexivity.
Qed.

(** C5, as amended.  For every kind of goal and every answer that parses
    to a JSON object with a date field, the field that is read again is
    [purchase_date] when the object has one and [target_date] otherwise,
    whatever the kind of goal: it is the date field of the kind whenever
    the object has that field, except for a goal of the kind other whose
    answer has a [purchase_date].  When [parse_date] gives no date for
    the value of that field, or raises, [extract_goal_details] returns
    nothing, whatever the other fields are.  When it gives a date,
    [extract_goal_details] returns the object in which that field holds
    the ISO rendering of the date, with the same keys in the same order
    and every other field as it was. *)
Theorem goal_details_need_a_parsed_date text t response d :
  llm (goal_prompt today text t) = Some response ->
  response <> EmptyString ->
  json_loads (Str.strip (strip_fence response)) = Some (VDict d) ->
  Py.mem "purchase_date" d || Py.mem "target_date" d = true ->
  let date_key :=
    if Py.mem "purchase_date" d then "purchase_date" else "target_date" in
  (Py.mem (date_key_of t) d = true ->
   (t = OTHER -> Py.mem "purchase_date" d = false) ->
   date_key = date_key_of t)
  /\ exists v,
       Py.get date_key d = Some v
       /\ match parse_date today v with
          | Ok (Some parsed) =>
              exists d',
                extract_goal_details llm json_loads today text t = Some (VDict d')
                /\ Py.get date_key d' = Some (VStr (Date.isoformat parsed))
                /\ (forall k, k <> date_key -> Py.get k d' = Py.get k d)
                /\ map fst d' = map fst d
          | Ok None | Raise _ =>
              extract_goal_details llm json_loads today text t = None
          end.
Proof.
  intros Hl Hne Hj Hmem date_key.
  assert (Hkey : Py.mem date_key d = true).
  { unfold date_key. destruct (Py.mem "purchase_date" d) eqn:Hp; [exact Hp |].
    exact Hmem. }
  split.
  { unfold date_key. intros Hk Hother.
    destruct t; cbn [date_key_of] in *.
    - rewrite Hk. reflexivity.
    - rewrite Hk. reflexivity.
    - rewrite (Hother eq_refl). reflexivity. }
  destruct (mem_get _ _ Hkey) as [v Hv]. exists v. split; [exact Hv |].
  assert (He : extract_goal_details llm json_loads today text t
               = match parse_date today v with
                 | Ok (Some parsed) =>
                     Some (VDict (Py.set date_key (VStr (Date.isoformat parsed)) d))
                 | Ok None | Raise _ => None
                 end).
  { rewrite (extract_goal_details_parsed _ _ _ _ Hl Hne Hj).
    unfold validate_dates, date_key in *. cbn [Dyn.contains_key].
    destruct (Py.mem "purchase_date" d) eqn:Hp.
    - cbn [Dyn.getitem]. rewrite Hv.
      destruct (parse_date today v) as [[parsed |] | e]; reflexivity.
    - cbn [orb] in Hmem. rewrite Hmem. cbn [Dyn.getitem]. rewrite Hv.
      destruct (parse_date today v) as [[parsed |] | e]; reflexivity. }
  rewrite He.
  destruct (parse_date today v) as [[parsed |] | e]; try reflexivity.
  exists (Py.set date_key (VStr (Date.isoformat parsed)) d).
  split; [reflexivity |]. split; [apply get_set_eq |].
  split; [intros k Hk; apply get_set_ne, Hk | apply set_keeps_keys, Hkey].
Qed.

(** *** Answers without a date *)

Lemma build_info_defaults t d :
  (forall k, In k (date_keys ++ amount_keys) -> Py.mem k d = false) ->
  exists details,
    build_info today float_of_str t (VDict d) = Ok details
    /\ info_date details = None
    /\ Forall (fun a => a = 0%Q) (info_amounts details).
Proof.
  intros Hk.
  assert (Hget : forall k, In k (date_keys ++ amount_keys) -> Py.get k d = None).
  { intros k Hin. apply mem_false_get, Hk, Hin. }
  unfold build_info, Dyn.get, Py.get_default.
  destruct t; cbn [rbind].
  all: rewrite ?Hget by (cbn; tauto); cbn.
  all: eexists; split; [reflexivity |]; split; [reflexivity |].
  all: repeat constructor.
Qed.

(** C9. An answer that parses to a non-empty JSON object with neither
    date key is returned as it is by [extract_goal_details]; and when it
    has none of the amount keys either, the turn in stage
    [GET_GOAL_DETAILS] moves to [CONFIRM_GOAL] and gives the pending goal
    details whose date is [None] and whose amounts are all 0. *)
Theorem goal_without_date_is_accepted st h i g G response d :
  infos h !! extracted_information st = Some i ->
  conversation_stage i = GET_GOAL_DETAILS ->
  pending_goal i = Some g ->
  goal_objects h !! g = Some G ->
  stops st = false ->
  llm (goal_prompt today (last_message st) (goal_type G)) = Some response ->
  response <> EmptyString ->
  json_loads (Str.strip (strip_fence response)) = Some (VDict d) ->
  d <> [] ->
  (forall k, In k (date_keys ++ amount_keys) -> Py.mem k d = false) ->
  extract_goal_details llm json_loads today (last_message st) (goal_type G)
  = Some (VDict d)
  /\ exists st' details,
       chat_response llm json_loads today float_of_str str_of_value st h
       = Some (Ok st',
               with_info (extracted_information st)
                 (mkInfo (user i) (Some g) CONFIRM_GOAL)
                 (with_goal g (mkGoal (goal_type G) (goal_name G) (Some details)) h))
       /\ info_date details = None
       /\ Forall (fun a => a = 0%Q) (info_amounts details).
Proof.
  intros Hi Hc Hp HG Hs Hl Hne Hj Hd Hk.
  assert (He : extract_goal_details llm json_loads today (last_message st)
                 (goal_type G) = Some (VDict d)).
  { rewrite (extract_goal_details_parsed _ _ _ _ Hl Hne Hj).
    unfold validate_dates. cbn [Dyn.contains_key].
    rewrite !Hk by (cbn; tauto). reflexivity. }
  split; [assumption |].
  destruct (build_info_defaults (goal_type G) d Hk) as (details & Hb & Hdate & Ham).
  exists (mkState false (messages st ++ new_messages st)
                  [ai (confirm_text str_of_value details)]
                  (extracted_information st)), details.
  split; [| split; assumption].
  unfold stops in Hs. unfold chat_response. rewrite Hs.
  munfold. rewrite Hi, Hc, Hi, Hp, HG, He.
  assert (Ht : some_truthy (Some (VDict d)) = true)
    by (destruct d; [congruence | reflexivity]).
  rewrite Ht. change (default VNone (Some (VDict d))) with (VDict d).
  rewrite Hb, HG.
  cbn. rewrite Hi. cbn. rewrite ?lookup_insert_eq. cbn.
  unfold with_info, with_goal. cbn. rewrite ?Hp. reflexivity.
Qed.

(** *** Unusable answers *)

Lemma extract_user_info_malformed text :
  malformed llm json_loads (user_info_prompt text) ->
  extract_user_info llm json_loads text = VDict [].
Proof.
  unfold malformed, extract_user_info.
  destruct (llm _) as [response |]; [| reflexivity].
  destruct (string_dec response EmptyString); [reflexivity |].
  intros [? | ->]; [contradiction | reflexivity].
Qed.

Lemma extract_goal_details_malformed text t :
  malformed llm json_loads (goal_prompt today text t) ->
  extract_goal_details llm json_loads today text t = None.
Proof.
  unfold malformed, extract_goal_details.
  destruct (llm _) as [response |]; [| reflexivity].
  destruct (string_dec response EmptyString); [reflexivity |].
  intros [? | ->]; [contradiction | reflexivity].
Qed.

(** C8, as amended.  In a stage that consults the language model
    ([GET_USER_INFO], or [GET_GOAL_DETAILS] with a pending goal), on an
    utterance that is not a stop command, an unusable answer (failed
    call, empty answer, or text that does not parse) makes the turn
    return without raising, leave the store, hence the stage, as it was,
    and produce exactly one message, the re-prompt of the stage. *)
Theorem malformed_answer_reprompts st h i prompt :
  infos h !! extracted_information st = Some i ->
  stops st = false ->
  prompt_of today (last_message st) (conversation_stage i) (pending_object h i)
  = Some prompt ->
  malformed llm json_loads prompt ->
  exists st' m,
    chat_response llm json_loads today float_of_str str_of_value st h
    = Some (Ok st', h)
    /\ extracted_information st' = extracted_information st
    /\ finished st' = false
    /\ new_messages st' = [m]
    /\ [m] = reprompt (conversation_stage i) (pending_object h i)
    /\ sender m = AI.
Proof.
  intros Hi Hs Hp Hm. unfold stops in Hs.
  unfold prompt_of, pending_object in *.
  destruct (conversation_stage i) eqn:Hc; try discriminate.
  - injection Hp as <-.
    eexists _, _. split.
    + unfold chat_response. rewrite Hs. munfold. rewrite Hi, Hc.
      rewrite (extract_user_info_malformed _ Hm). cbn. rewrite Hi, Hc.
      reflexivity.
    + cbn. auto.
  - destruct (pending_goal i) as [g |] eqn:Hg; [| discriminate].
    destruct (goal_objects h !! g) as [G |] eqn:HG; [| discriminate].
    injection Hp as <-.
    eexists _, _. split.
    + unfold chat_response. rewrite Hs. munfold. rewrite Hi, Hc, Hi, Hg, HG.
      rewrite (extract_goal_details_malformed _ _ Hm). cbn. rewrite Hi, Hc.
      reflexivity.
    + cbn. auto.
Qed.

(** *** What a turn changes *)

(** C2, as amended.  A turn updates in place the extracted information of
    its input state, and the state it returns refers to that same
    object, with a transcript built from the lists of the input state.
    Every other [ExtractedInformation] of the store is left as it was;
    a user can only change by goals appended to its list, and only if it
    is the user of the state; a goal can only change in its details, and
    only if it is the pending goal.  A turn that raises changes nothing. *)
Theorem turn_updates_in_place st h i r h' :
  infos h !! extracted_information st = Some i ->
  chat_response llm json_loads today float_of_str str_of_value st h
    = Some (r, h') ->
  (forall l', l' <> extracted_information st -> infos h' !! l' = infos h !! l')
  /\ (forall u U, users h !! u = Some U ->
        (user i <> Some u -> users h' !! u = Some U)
        /\ exists gs, users h' !! u
             = Some (mkUser (first_name U) (last_name U) (date_of_birth U)
                            (email U) (goals U ++ gs)))
  /\ (forall g G, goal_objects h !! g = Some G ->
        (pending_goal i <> Some g -> goal_objects h' !! g = Some G)
        /\ exists d, goal_objects h' !! g
             = Some (mkGoal (goal_type G) (goal_name G) d))
  /\ match r with
     | Ok st' =>
         extracted_information st' = extracted_information st
         /\ messages st' = messages st ++ new_messages st
     | Raise _ => h' = h
     end.
Proof.
  intros Hi H.
  split; [exact (turn_infos_frame _ _ _ _ H) |].
  split; [exact (turn_users_frame _ _ _ _ _ Hi H) |].
  split; [exact (turn_goals_frame _ _ _ _ _ Hi H) |].
  destruct r as [st' | e].
  - exact (turn_result _ _ _ _ H).
  - exact (turn_raise _ _ _ _ H).
Qed.

End Turn.

(** ** The sample conversation *)

Lemma sample_start :
  new_conversation Sample.empty = Some (Ok Sample.st0, Sample.h0).
Proof. vm_compute. reflexivity. Qed.

Lemma sample_identity :
  advance (Sample.answers "ok") (Sample.parses_to Sample.identity) Sample.day
          Sample.no_float Sample.show Sample.st0 Sample.utterance1 Sample.h0
  = Some (Ok Sample.st1, Sample.h1).
Proof. vm_compute. reflexivity. Qed.

Lemma sample_home :
  chat_response Sample.silent (Sample.parses_to VNone) Sample.day
                Sample.no_float Sample.show
                (with_utterance Sample.st1 "home") Sample.h1
  = Some (Ok Sample.st2, Sample.h2).
Proof. vm_compute. reflexivity. Qed.

Lemma sample_stop :
  chat_response Sample.silent (Sample.parses_to VNone) Sample.day
                Sample.no_float Sample.show
                (with_utterance Sample.st2 "stop") Sample.h2
  = Some (Ok Sample.st3, Sample.h3).
Proof. vm_compute. reflexivity. Qed.

Lemma sample_reachable : reachable Sample.h3 Sample.st3.
Proof.
  eapply reach_turn; [| exact sample_stop].
  eapply reach_turn; [| exact sample_home].
  eapply reach_turn; [| exact sample_identity].
  eapply reach_new. exact sample_start.
Qed.

(** ** The pending goal along a conversation *)

Lemma new_conversation_info h0 st h :
  new_conversation h0 = Some (Ok st, h) ->
  infos h !! extracted_information st = Some (mkInfo None None GET_USER_INFO).
Proof.
  unfold new_conversation, bind, new_info, ret. intros [= <- <-].
  apply infos_with_info.
Qed.

(** C1, as amended.  In every state that a conversation reaches, as long
    as the stage is not [COMPLETED], the pending goal is set if and only
    if the stage is [GET_GOAL_DETAILS] or [CONFIRM_GOAL]; and every turn
    whose utterance is not a stop command keeps that equivalence,
    whatever its outcome. *)
Theorem pending_iff_collecting_until_completed :
  (forall h st, reachable h st ->
     exists i, infos h !! extracted_information st = Some i
               /\ pending_unless_completed i)
  /\ (forall llm json_loads today float_of_str str_of_value st h r h' i,
        infos h !! extracted_information st = Some i ->
        stops st = false ->
        pending_iff_collecting i ->
        chat_response llm json_loads today float_of_str str_of_value st h
        = Some (r, h') ->
        exists i', infos h' !! extracted_information st = Some i'
                   /\ pending_iff_collecting i').
Proof.
  split.
  - intros h st Hr. induction Hr as
      [h0 st h Hnew
      | llm json_loads today float_of_str str_of_value h st u st' h' Hr IH Hturn
      | llm json_loads today float_of_str str_of_value h st u e h' Hr IH Hturn].
    + exists (mkInfo None None GET_USER_INFO).
      split; [exact (new_conversation_info _ _ _ Hnew) |].
      intros _. unfold pending_iff_collecting. cbn.
      split; [intros [? ?]; discriminate | discriminate].
    + destruct IH as (i & Hi & Hinv). unfold advance in Hturn.
      destruct (turn_info _ _ _ _ _ _ _ _ _ Hturn) as (i0 & i' & Hi0 & Hi' & _ & Hkeep).
      destruct (turn_result _ _ _ _ _ _ _ _ _ Hturn) as [Hl _].
      cbn [with_utterance extracted_information] in *.
      rewrite Hi in Hi0. injection Hi0 as <-.
      exists i'. rewrite Hl. split; [assumption |].
      apply Hkeep. exact Hinv.
    + destruct IH as (i & Hi & Hinv). unfold advance in Hturn.
      destruct (turn_info _ _ _ _ _ _ _ _ _ Hturn) as (i0 & i' & Hi0 & Hi' & _ & Hkeep).
      cbn [with_utterance extracted_information] in *.
      rewrite Hi in Hi0. injection Hi0 as <-.
      exists i'. split; [assumption |].
      apply Hkeep. exact Hinv.
  - intros llm json_loads today float_of_str str_of_value st h r h' i Hi Hs Hinv Hturn.
    destruct (turn_info _ _ _ _ _ _ _ _ _ Hturn) as (i0 & i' & Hi0 & Hi' & Hkeep & _).
    rewrite Hi in Hi0. injection Hi0 as <-.
    exists i'. split; [assumption |]. apply Hkeep; assumption.
Qed.

(** C1, as stated, fails: the stop command, said while a goal is being
    built, completes the conversation and leaves the pending goal set. *)
Lemma pending_invariant_fails_after_stop : ~ pending_invariant.
Proof.
  intros H. destruct (H _ _ sample_reachable) as (i & Hi & Hiff).
  vm_compute in Hi. injection Hi as <-.
  destruct Hiff as [Hf _]. cbn in Hf.
  discriminate Hf. eexists. reflexivity.
Qed.

(** C2, as stated, fails: the turn that starts a goal changes the
    extracted information of its input state. *)
Lemma turn_is_not_pure : ~ turn_is_pure.
Proof.
  intros H. destruct (H _ _ _ _ _ _ _ _ _ sample_home) as [Hinfo _].
  vm_compute in Hinfo. discriminate Hinfo.
Qed.

(** C8, as stated, fails: in a stage that does not consult the language
    model the turn changes the stage, however unusable the answers are. *)
Lemma malformed_does_not_always_reprompt : ~ malformed_always_reprompts.
Proof.
  intros H.
  destruct (H Sample.silent (Sample.parses_to VNone) Sample.day
              Sample.no_float Sample.show (fun _ => I)
              (with_utterance Sample.st1 "home") Sample.h1
              (mkInfo (Some 1%positive) None GET_GOAL_TYPE) eq_refl)
    as (st' & h' & i' & m & Hturn & Hi' & Hstage & _).
  rewrite sample_home in Hturn. injection Hturn as <- <-.
  vm_compute in Hi'. injection Hi' as <-. discriminate Hstage.
Qed.

(** C5, as stated, fails: for a goal of the kind other whose answer has
    both date fields, only [purchase_date] is read again, and the answer
    is accepted although its [target_date] cannot be read. *)
Lemma unreadable_target_date_is_accepted : ~ kind_date_guards_extraction.
Proof.
  intros H.
  specialize (H (Sample.answers "ok") (Sample.parses_to (VDict Sample.both_dates))
                Sample.day "a boat, soon" OTHER "ok" Sample.both_dates
                (VStr "soon") eq_refl).
  assert (Hne : "ok" <> EmptyString) by discriminate.
  specialize (H Hne eq_refl eq_refl).
  vm_compute in H. discriminate H.
Qed.

(** ** The theorems at the sample conversation *)

Lemma stop_command_completes_sample :
  exists st' h' i',
    chat_response Sample.silent (Sample.parses_to VNone) Sample.day
                  Sample.no_float Sample.show
                  (with_utterance Sample.st2 " Stop ") Sample.h2
    = Some (Ok st', h')
    /\ finished st' = true
    /\ infos h' !! extracted_information st' = Some i'
    /\ conversation_stage i' = COMPLETED
    /\ new_messages st' = [ai closing_text].
Proof.
  apply (stop_command_completes
           Sample.silent (Sample.parses_to VNone) Sample.day
           Sample.no_float Sample.show
           (with_utterance Sample.st2 " Stop ") Sample.h2
           (mkInfo (Some 1%positive) (Some 1%positive) GET_GOAL_DETAILS)).
  - vm_compute. reflexivity.
  - vm_compute. right; right; left; reflexivity.
Defined.

Lemma completed_is_absorbing_sample :
  exists st' h' i',
    chat_response Sample.silent (Sample.parses_to VNone) Sample.day
                  Sample.no_float Sample.show
                  (with_utterance Sample.st3 "one more thing") Sample.h3
    = Some (Ok st', h')
    /\ infos h' !! extracted_information st' = Some i'
    /\ conversation_stage i' = COMPLETED
    /\ finished st' = true
    /\ (stops (with_utterance Sample.st3 "one more thing") = false ->
        new_messages st' = []).
Proof.
  apply (completed_is_absorbing
           Sample.silent (Sample.parses_to VNone) Sample.day
           Sample.no_float Sample.show
           (with_utterance Sample.st3 "one more thing") Sample.h3
           (mkInfo (Some 1%positive) (Some 1%positive) COMPLETED)).
  - vm_compute. reflexivity.
  - reflexivity.
Defined.

Lemma confirm_goal_saves_sample :
  exists st' h',
    chat_response Sample.silent (Sample.parses_to VNone) Sample.day
                  Sample.no_float Sample.show
                  (Sample.st_confirm "Yes please") Sample.h_confirm
    = Some (Ok st', h')
    /\ goal_objects h' = goal_objects Sample.h_confirm
    /\ users h' !! 1%positive
       = Some (mkUser (VStr "John") (VStr "Smith") (Some (mkDate 1990 5 1))
                      (VStr "john@example.com") [Some 1%positive])
    /\ infos h' !! extracted_information st'
       = Some (mkInfo (Some 1%positive) None ADD_ANOTHER_GOAL).
Proof.
  apply (confirm_goal_saves_or_discards
           Sample.silent (Sample.parses_to VNone) Sample.day
           Sample.no_float Sample.show
           (Sample.st_confirm "Yes please") Sample.h_confirm
           (mkInfo (Some 1%positive) (Some 1%positive) CONFIRM_GOAL)
           1%positive 1%positive Sample.john).
  - vm_compute. reflexivity.
  - reflexivity.
  - reflexivity.
  - reflexivity.
  - vm_compute. reflexivity.
  - vm_compute. reflexivity.
Defined.

Lemma goal_details_need_a_parsed_date_sample :
  (exists d',
     extract_goal_details (Sample.answers "ok")
       (Sample.parses_to (VDict Sample.in_two_years)) Sample.day
       "a flat in London, in 2 years" NEW_HOME
     = Some (VDict d')
     /\ Py.get "purchase_date" d' = Some (VStr "2028-11-02")
     /\ (forall k, k <> "purchase_date" ->
          Py.get k d' = Py.get k Sample.in_two_years)
     /\ map fst d' = map fst Sample.in_two_years)
  /\ extract_goal_details (Sample.answers "ok")
       (Sample.parses_to (VDict Sample.vague_date)) Sample.day
       "a flat in London, soon" NEW_HOME
     = None.
Proof.
  split.
  - destruct (goal_details_need_a_parsed_date
                (Sample.answers "ok") (Sample.parses_to (VDict Sample.in_two_years))
                Sample.day "a flat in London, in 2 years" NEW_HOME "ok"
                Sample.in_two_years eq_refl ltac:(discriminate) eq_refl eq_refl)
      as [_ [v [Hv H]]].
    injection Hv as <-. exact H.
  - destruct (goal_details_need_a_parsed_date
                (Sample.answers "ok") (Sample.parses_to (VDict Sample.vague_date))
                Sample.day "a flat in London, soon" NEW_HOME "ok"
                Sample.vague_date eq_refl ltac:(discriminate) eq_refl eq_refl)
      as [_ [v [Hv H]]].
    injection Hv as <-. exact H.
Defined.

Lemma goal_without_date_is_accepted_sample :
  extract_goal_details (Sample.answers "ok")
    (Sample.parses_to (VDict Sample.only_location)) Sample.day
    "in London" NEW_HOME
  = Some (VDict Sample.only_location)
  /\ exists st' details,
       chat_response (Sample.answers "ok")
         (Sample.parses_to (VDict Sample.only_location)) Sample.day
         Sample.no_float Sample.show
         (with_utterance Sample.st2 "in London") Sample.h2
       = Some (Ok st',
               with_info 1%positive
                 (mkInfo (Some 1%positive) (Some 1%positive) CONFIRM_GOAL)
                 (with_goal 1%positive
                    (mkGoal NEW_HOME "Buy a new home" (Some details)) Sample.h2))
       /\ info_date details = None
       /\ Forall (fun a => a = 0%Q) (info_amounts details).
Proof.
  apply (goal_without_date_is_accepted
           (Sample.answers "ok") (Sample.parses_to (VDict Sample.only_location))
           Sample.day Sample.no_float Sample.show
           (with_utterance Sample.st2 "in London") Sample.h2
           (mkInfo (Some 1%positive) (Some 1%positive) GET_GOAL_DETAILS)
           1%positive Sample.home "ok" Sample.only_location).
  - vm_compute. reflexivity.
  - reflexivity.
  - reflexivity.
  - vm_compute. reflexivity.
  - vm_compute. reflexivity.
  - reflexivity.
  - discriminate.
  - reflexivity.
  - discriminate.
  - intros k Hin. cbn in Hin.
    repeat (destruct Hin as [<- | Hin]; [reflexivity |]). contradiction.
Defined.

Lemma malformed_answer_reprompts_sample :
  exists st' m,
    chat_response Sample.silent (Sample.parses_to VNone) Sample.day
                  Sample.no_float Sample.show
                  (with_utterance Sample.st0 "hello") Sample.h0
    = Some (Ok st', Sample.h0)
    /\ extracted_information st' = 1%positive
    /\ finished st' = false
    /\ new_messages st' = [m]
    /\ [m] = [ai ask_user_info_text]
    /\ sender m = AI.
Proof.
  apply (malformed_answer_reprompts
           Sample.silent (Sample.parses_to VNone) Sample.day
           Sample.no_float Sample.show
           (with_utterance Sample.st0 "hello") Sample.h0
           (mkInfo None None GET_USER_INFO) (user_info_prompt "hello")).
  - vm_compute. reflexivity.
  - vm_compute. reflexivity.
  - reflexivity.
  - vm_compute. exact I.
Defined.

Lemma turn_updates_in_place_sample :
  (forall l', l' <> 1%positive ->
     infos Sample.h2 !! l' = infos Sample.h1 !! l')
  /\ (forall u U, users Sample.h1 !! u = Some U ->
        (Some 1%positive <> Some u -> users Sample.h2 !! u = Some U)
        /\ exists gs, users Sample.h2 !! u
             = Some (mkUser (first_name U) (last_name U) (date_of_birth U)
                            (email U) (goals U ++ gs)))
  /\ (forall g G, goal_objects Sample.h1 !! g = Some G ->
        (None <> Some g -> goal_objects Sample.h2 !! g = Some G)
        /\ exists d, goal_objects Sample.h2 !! g
             = Some (mkGoal (goal_type G) (goal_name G) d))
  /\ extracted_information Sample.st2 = 1%positive
  /\ messages Sample.st2
     = messages (with_utterance Sample.st1 "home")
       ++ new_messages (with_utterance Sample.st1 "home").
Proof.
  apply (turn_updates_in_place
           Sample.silent (Sample.parses_to VNone) Sample.day
           Sample.no_float Sample.show
           (with_utterance Sample.st1 "home") Sample.h1
           (mkInfo (Some 1%positive) None GET_GOAL_TYPE)
           (Ok Sample.st2) Sample.h2).
  - vm_compute. reflexivity.
  - exact sample_home.
Defined.

Lemma pending_iff_collecting_sample :
  (exists i, infos Sample.h3 !! extracted_information Sample.st3 = Some i
             /\ pending_unless_completed i)
  /\ (exists i', infos Sample.h2 !! 1%positive = Some i'
                 /\ pending_iff_collecting i').
Proof.
  split.
  - apply (proj1 pending_iff_collecting_until_completed).
    exact sample_reachable.
  - apply (proj2 pending_iff_collecting_until_completed
             Sample.silent (Sample.parses_to VNone) Sample.day
             Sample.no_float Sample.show
             (with_utterance Sample.st1 "home") Sample.h1
             (Ok Sample.st2) Sample.h2
             (mkInfo (Some 1%positive) None GET_GOAL_TYPE)).
    + vm_compute. reflexivity.
    + vm_compute. reflexivity.
    + unfold pending_iff_collecting. cbn.
      split; [intros [? ?]; discriminate | discriminate].
    + exact sample_home.
Defined.

(** * Further properties *)

(** ** Concatenation *)

Lemma app_cons c a b : String c a +:+ b = String c (a +:+ b).
Proof. reflexivity. Qed.

Lemma app_empty b : EmptyString +:+ b = b.
Proof. reflexivity. Qed.

Lemma app_assoc_s a b c : (a +:+ b) +:+ c = a +:+ (b +:+ c).
Proof. induction a as [| x a IH]; [reflexivity |]. rewrite !app_cons, IH. reflexivity. Qed.

Lemma app_empty_r a : a +:+ EmptyString = a.
Proof. induction a as [| x a IH]; [reflexivity |]. rewrite app_cons, IH. reflexivity. Qed.

(** ** Case and white space *)

Lemma lower_char_space c : Str.is_space (Str.lower_char c) = Str.is_space c.
Proof. destruct c as [[] [] [] [] [] [] [] []]; reflexivity. Qed.

Lemma lower_char_idem c : Str.lower_char (Str.lower_char c) = Str.lower_char c.
Proof. destruct c as [[] [] [] [] [] [] [] []]; reflexivity. Qed.

Lemma lower_idem s : Str.lower (Str.lower s) = Str.lower s.
Proof.
  induction s as [| c s IH]; [reflexivity |]. cbn.
  rewrite lower_char_idem, IH. reflexivity.
Qed.

Lemma lower_lstrip s : Str.lower (Str.lstrip s) = Str.lstrip (Str.lower s).
Proof.
  induction s as [| c s IH]; [reflexivity |]. cbn.
  rewrite lower_char_space. destruct (Str.is_space c); [exact IH | reflexivity].
Qed.

Lemma lower_rstrip s : Str.lower (Str.rstrip s) = Str.rstrip (Str.lower s).
Proof.
  induction s as [| c s IH]; [reflexivity |]. cbn.
  rewrite <- IH. destruct (Str.rstrip s) as [| d r]; cbn.
  - rewrite lower_char_space. destruct (Str.is_space c); reflexivity.
  - reflexivity.
Qed.

Lemma lower_strip s : Str.lower (Str.strip s) = Str.strip (Str.lower s).
Proof. unfold Str.strip. rewrite lower_rstrip, lower_lstrip. reflexivity. Qed.

Lemma rstrip_idem s : Str.rstrip (Str.rstrip s) = Str.rstrip s.
Proof.
  induction s as [| c s IH]; [reflexivity |]. cbn.
  destruct (Str.rstrip s) as [| d r] eqn:E.
  - destruct (Str.is_space c) eqn:Hc; [reflexivity |]. cbn. rewrite Hc. reflexivity.
  - change (Str.rstrip (String c (String d r)))
      with (match Str.rstrip (String d r) with
            | EmptyString =>
                if Str.is_space c then EmptyString else String c EmptyString
            | x => String c x
            end).
    rewrite IH. reflexivity.
Qed.

Lemma lstrip_rstrip_lstrip s :
  Str.lstrip (Str.rstrip (Str.lstrip s)) = Str.rstrip (Str.lstrip s).
Proof.
  induction s as [| c s IH]; [reflexivity |]. cbn [Str.lstrip].
  destruct (Str.is_space c) eqn:Hc; [exact IH |].
  cbn [Str.rstrip]. destruct (Str.rstrip s); rewrite ?Hc; cbn [Str.lstrip];
    rewrite Hc; reflexivity.
Qed.

Lemma strip_idem s : Str.strip (Str.strip s) = Str.strip s.
Proof.
  unfold Str.strip. rewrite lstrip_rstrip_lstrip. apply rstrip_idem.
Qed.

Lemma normal_form_idem s :
  Str.strip (Str.lower (Str.strip (Str.lower s))) = Str.strip (Str.lower s).
Proof. rewrite lower_strip, lower_idem. apply strip_idem. Qed.

Section ParseDateFacts.

Variable today : date.

Lemma parse_date_str_normal s1 s2 :
  Str.strip (Str.lower s1) = Str.strip (Str.lower s2) ->
  parse_date_str today s1 = parse_date_str today s2.
Proof. intros H. unfold parse_date_str. rewrite H. reflexivity. Qed.

Lemma parse_date_str_blank s :
  Str.strip (Str.lower s) = EmptyString -> parse_date_str today s = Ok None.
Proof. intros H. unfold parse_date_str. rewrite H. reflexivity. Qed.

(** X1. [parse_date] reads a text as it reads the same text in lower
    case and without the white space around it: neither the case of the
    letters nor white space at either end changes the result. *)
Theorem parse_date_ignores_case_and_margins s :
  parse_date today (VStr s) = parse_date today (VStr (Str.strip (Str.lower s))).
Proof.
  unfold parse_date. cbn [Py.truthy].
  destruct (string_dec s EmptyString) as [-> | Hs]; [reflexivity |].
  destruct (string_dec (Str.strip (Str.lower s)) EmptyString) as [E | Hn]; cbn [negb].
  - apply parse_date_str_blank, E.
  - apply parse_date_str_normal. symmetry. apply normal_form_idem.
Qed.

End ParseDateFacts.

(** ** Decimal numerals *)

Lemma code_chr z : 0 <= z < 256 -> Str.code (Str.chr z) = z.
Proof.
  intros Hz. unfold Str.code, Str.chr.
  rewrite N_ascii_embedding; [lia |]. lia.
Qed.

Lemma digit_char_digit k : 0 <= k <= 9 -> Str.is_digit (Str.digit_char k) = true.
Proof.
  intros Hk. unfold Str.is_digit, Str.digit_char. rewrite code_chr by lia.
  apply andb_true_iff. lia.
Qed.

Lemma digit_val_char k : 0 <= k <= 9 -> Str.digit_val (Str.digit_char k) = k.
Proof.
  intros Hk. unfold Str.digit_val, Str.digit_char. rewrite code_chr by lia. lia.
Qed.

Lemma digits_val_app acc a b :
  Str.digits_val acc (a +:+ b) = Str.digits_val (Str.digits_val acc a) b.
Proof.
  revert acc. induction a as [| c a IH]; intros acc; [reflexivity |].
  rewrite app_cons. cbn. apply IH.
Qed.

Lemma all_chars_app p a b :
  Str.all_chars p (a +:+ b) = Str.all_chars p a && Str.all_chars p b.
Proof.
  induction a as [| c a IH]; [reflexivity |]. rewrite app_cons. cbn.
  rewrite IH, andb_assoc. reflexivity.
Qed.

Lemma digits_of_pos_spec f :
  forall n acc,
    0 <= n < 10 ^ Z.of_nat (S f) ->
    exists D W,
      Str.digits_of_pos (S f) n acc = D +:+ acc
      /\ Str.all_chars Str.is_digit D = true
      /\ D <> EmptyString
      /\ forall a, Str.digits_val a D = a * W + n.
Proof.
  induction f as [| f IH]; intros n acc Hn.
  - assert (Hlt : (n <? 10) = true) by (apply Z.ltb_lt; cbn in Hn; lia).
    cbn [Str.digits_of_pos]. rewrite Hlt.
    exists (String (Str.digit_char (n mod 10)) EmptyString), 10.
    apply Z.ltb_lt in Hlt.
    split; [reflexivity |].
    split; [cbn; rewrite digit_char_digit by (rewrite Z.mod_small; lia); reflexivity |].
    split; [discriminate |]. intros a. cbn.
    rewrite digit_val_char by (rewrite Z.mod_small; lia).
    rewrite Z.mod_small by lia. lia.
  - assert (Hmod : 0 <= n mod 10 <= 9)
      by (pose proof (Z.mod_pos_bound n 10 ltac:(lia)); lia).
    change (Str.digits_of_pos (S (S f)) n acc)
      with (let acc' := String (Str.digit_char (n mod 10)) acc in
            if n <? 10 then acc' else Str.digits_of_pos (S f) (n / 10) acc').
    cbv zeta.
    destruct (n <? 10) eqn:Hlt.
    + apply Z.ltb_lt in Hlt.
      exists (String (Str.digit_char (n mod 10)) EmptyString), 10.
      split; [reflexivity |].
      split; [cbn; rewrite digit_char_digit by lia; reflexivity |].
      split; [discriminate |]. intros a. cbn.
      rewrite digit_val_char by lia. rewrite Z.mod_small by lia. lia.
    + assert (Hdiv : 0 <= n / 10 < 10 ^ Z.of_nat (S f)).
      { split; [apply Z.div_pos; lia |].
        apply Z.div_lt_upper_bound; [lia |].
        replace (10 * 10 ^ Z.of_nat (S f)) with (10 ^ Z.of_nat (S (S f))); [lia |].
        rewrite (Nat2Z.inj_succ (S f)), Z.pow_succ_r by lia. reflexivity. }
      destruct (IH (n / 10) (String (Str.digit_char (n mod 10)) acc) Hdiv)
        as (D & W & HD & Hall & Hne & Hval).
      exists (D +:+ String (Str.digit_char (n mod 10)) EmptyString), (10 * W).
      split; [rewrite HD, app_assoc_s; reflexivity |].
      split; [rewrite all_chars_app, Hall; cbn; rewrite digit_char_digit by lia;
              reflexivity |].
      split; [destruct D; [congruence | discriminate] |].
      intros a. rewrite digits_val_app, Hval. cbn.
      rewrite digit_val_char by lia.
      pose proof (Z.div_mod n 10 ltac:(lia)). lia.
Qed.

(** [int(str(n)) == n], and [str(n)] is a non-empty run of digits. *)
Lemma of_nonneg_spec n :
  0 <= n ->
  Str.all_chars Str.is_digit (Str.of_nonneg n) = true
  /\ Str.of_nonneg n <> EmptyString
  /\ Str.int_of_digits (Str.of_nonneg n) = n.
Proof.
  intros Hn. unfold Str.of_nonneg.
  assert (Hb : 0 <= n < 10 ^ Z.of_nat (S (Z.to_nat (Z.log2 n)))).
  { split; [assumption |].
    rewrite Nat2Z.inj_succ, Z2Nat.id by apply Z.log2_nonneg.
    destruct (Z.eq_dec n 0) as [-> | Hnz]; [reflexivity |].
    pose proof (Z.log2_spec n ltac:(lia)) as [_ Hup].
    eapply Z.lt_le_trans; [exact Hup |].
    apply Z.pow_le_mono_l. pose proof (Z.log2_nonneg n). lia. }
  destruct (digits_of_pos_spec _ n EmptyString Hb) as (D & W & HD & Hall & Hne & Hval).
  rewrite HD, app_empty_r. split; [assumption |]. split; [assumption |].
  unfold Str.int_of_digits. rewrite Hval. lia.
Qed.

(** ** Relative dates *)

Lemma lower_app a b : Str.lower (a +:+ b) = Str.lower a +:+ Str.lower b.
Proof.
  induction a as [| c a IH]; [reflexivity |]. rewrite app_cons. cbn.
  rewrite IH. reflexivity.
Qed.

Lemma lower_digits s :
  Str.all_chars Str.is_digit s = true -> Str.lower s = s.
Proof.
  induction s as [| c s IH]; [reflexivity |]. cbn. intros H.
  apply andb_true_iff in H as [Hc Hs]. rewrite (digit_lower c Hc), (IH Hs).
  reflexivity.
Qed.

Lemma rstrip_app a b :
  Str.rstrip b = b -> b <> EmptyString -> Str.rstrip (a +:+ b) = a +:+ b.
Proof.
  intros Hb Hne. induction a as [| c a IH]; [exact Hb |].
  rewrite app_cons. apply rstrip_cons; [exact IH |].
  destruct a; [exact Hne | discriminate].
Qed.

Lemma span_run p a r :
  Str.all_chars p a = true ->
  match r with EmptyString => true | String c _ => negb (p c) end = true ->
  Str.span p (a +:+ r) = (a, r).
Proof.
  intros Ha Hr. induction a as [| c a IH].
  - rewrite app_empty. destruct r as [| c r]; [reflexivity |].
    cbn [Str.span]. destruct (p c); [discriminate | reflexivity].
  - cbn in Ha. apply andb_true_iff in Ha as [Hc Ha].
    rewrite app_cons. cbn. rewrite Hc, (IH Ha). reflexivity.
Qed.

Lemma search_run_at p a r :
  Str.all_chars p a = true -> a <> EmptyString ->
  match r with EmptyString => true | String c _ => negb (p c) end = true ->
  Str.search_run p (a +:+ r) = Some a.
Proof.
  intros Ha Hne Hr. destruct a as [| c a]; [congruence |].
  pose proof (span_run p (String c a) r Ha Hr) as Hs.
  cbn in Ha. apply andb_true_iff in Ha as [Hc _].
  rewrite app_cons in *. cbn [Str.search_run]. rewrite Hc, Hs. reflexivity.
Qed.

(** A word that starts with a letter is not found inside a numeral. *)
Lemma contains_after_digits c sub a r :
  Str.is_digit c = false ->
  Str.all_chars Str.is_digit a = true ->
  Str.contains (String c sub) (a +:+ r) = Str.contains (String c sub) r.
Proof.
  intros Hc Ha. induction a as [| x a IH]; [reflexivity |].
  cbn in Ha. apply andb_true_iff in Ha as [Hx Ha].
  rewrite app_cons. cbn [Str.contains Str.startswith].
  destruct (ascii_dec c x) as [-> | _]; [congruence |].
  cbn. apply IH, Ha.
Qed.

Section RelativeDates.

Variable today : date.

(** What is left of [parse_date] once the rule for relative dates has
    not returned, on a text that starts with "in " and a digit. *)
Lemma no_other_rule_for_in d0 T :
  Str.is_digit d0 = true ->
  let s := String "i" (String "n" (String " " (String d0 T))) in
  s <> "next month" /\ s <> "next year"
  /\ try_formats s standard_formats = None
  /\ month_year_shape s = false
  /\ year_shape s = false.
Proof.
  intros Hd s. subst s.
  split; [discriminate |]. split; [discriminate |].
  split; [| split; reflexivity].
  unfold standard_formats. cbn [try_formats].
  assert (H : forall fmt, In fmt ["%Y-%m-%d"; "%d/%m/%Y"; "%m/%d/%Y"; "%B %d, %Y"; "%b %d, %Y"] ->
              Strptime.strptime (String "i" (String "n" (String " " (String d0 T)))) fmt = None).
  { intros fmt Hin. cbn in Hin.
    repeat (destruct Hin as [<- | Hin]; [reflexivity |]). contradiction. }
  rewrite !H by (cbn; tauto). reflexivity.
Qed.

(** X2. For every number [n >= 0] and each of the unit words day, week,
    month and year, [parse_date] reads "in n <unit>s" as the current day
    plus [n] times 1, 7, 30 or 365 days.  When that day lies beyond the
    last date the library supports, the overflow is swallowed and the
    text reads as no date. *)
Theorem parse_date_in_units n unit k :
  In (unit, k) unit_days ->
  0 <= n ->
  parse_date today (VStr (in_units n unit)) = Ok (Date.add_days today (k * n)).
Proof.
  intros Hin Hn.
  destruct (of_nonneg_spec n Hn) as (Hall & Hne & Hval).
  unfold in_units.
  destruct (Str.of_nonneg n) as [| d0 D] eqn:ED; [congruence |].
  assert (Hd0 : Str.is_digit d0 = true)
    by (cbn in Hall; apply andb_true_iff in Hall; tauto).
  set (N := String d0 D) in *.
  assert (Hunit : exists tail,
             tail = " " +:+ unit +:+ "s"
             /\ Str.lower tail = tail /\ Str.rstrip tail = tail
             /\ tail <> EmptyString
             /\ (exists c t, tail = String c t /\ Str.is_digit c = false)
             /\ forall u j, In (u, j) unit_days ->
                  Str.contains u tail
                  = if string_dec u unit then true else false).
  { eexists. split; [reflexivity |].
    cbn in Hin.
    destruct Hin as [[= <- <-] | [[= <- <-] | [[= <- <-] | [[= <- <-] | []]]]].
    all: (split; [reflexivity |]; split; [reflexivity |]; split; [discriminate |];
          split; [eexists _, _; split; reflexivity |]).
    all: intros u j Hu; cbn in Hu;
      destruct Hu as [[= <- <-] | [[= <- <-] | [[= <- <-] | [[= <- <-] | []]]]];
      reflexivity. }
  destruct Hunit as (tail & Etail & Hlow & Hrs & Htne & (c & t & Ect & Hc) & Hcont).
  rewrite <- Etail.
  set (s := "in " +:+ N +:+ tail).
  assert (Hs_lower : Str.lower s = s).
  { unfold s. rewrite !lower_app, (lower_digits N Hall), Hlow. reflexivity. }
  assert (Hs_strip : Str.strip s = s).
  { unfold Str.strip, s. change (Str.lstrip ("in " +:+ N +:+ tail))
      with ("in " +:+ N +:+ tail).
    rewrite <- app_assoc_s. apply rstrip_app; assumption. }
  assert (Hsearch : Str.search_run Str.is_digit s = Some N).
  { unfold s. change (Str.search_run Str.is_digit ("in " +:+ N +:+ tail))
      with (Str.search_run Str.is_digit (N +:+ tail)).
    apply search_run_at; [assumption | discriminate |].
    rewrite Ect, Hc. reflexivity. }
  assert (Hcontains : forall u j, In (u, j) unit_days ->
            Str.contains u s = if string_dec u unit then true else false).
  { intros u j Hu. rewrite <- (Hcont u j Hu). unfold s.
    cbn in Hu.
    destruct Hu as [[= <- <-] | [[= <- <-] | [[= <- <-] | [[= <- <-] | []]]]].
    all: change ("in " +:+ N +:+ tail)
           with (String "i" (String "n" (String " " (N +:+ tail))));
         cbn [Str.contains Str.startswith];
         repeat (destruct (ascii_dec _ _) as [? | _]; [discriminate |]);
         cbn [orb]; apply contains_after_digits; [reflexivity | assumption]. }
  unfold parse_date. change (Py.truthy (VStr s)) with true. cbn [negb].
  unfold parse_date_str. rewrite Hs_lower, Hs_strip.
  change (Str.startswith "in " s) with true. cbv iota.
  unfold relative_date. rewrite Hsearch.
  fold N in Hval. rewrite Hval.
  rewrite (Hcontains "day" 1), (Hcontains "week" 7), (Hcontains "month" 30),
    (Hcontains "year" 365) by (cbn; tauto).
  destruct (no_other_rule_for_in d0 (D +:+ tail) Hd0) as (Hnm & Hny & Hfm & Hmy & Hys).
  change (String "i" (String "n" (String " " (String d0 (D +:+ tail))))) with s in *.
  assert (Hfall :
    (if string_dec s "next month"
     then
      let next_month := if month today <? 12 then month today + 1 else 1 in
      let next_year := if month today <? 12 then year today else year today + 1 in
      match Date.make next_year next_month 1 with
      | Some d => Ok (Some d)
      | None => Raise ValueError
      end
     else
      if string_dec s "next year"
      then
       match Date.make (year today + 1) 1 1 with
       | Some d => Ok (Some d)
       | None => Raise ValueError
       end
      else
       match try_formats s standard_formats with
       | Some d => Ok (Some d)
       | None =>
           match
             (if month_year_shape s
              then
               match Strptime.strptime s "%B %Y" with
               | Some d => Some d
               | None => Strptime.strptime s "%b %Y"
               end
              else None)
           with
           | Some d => Ok (Some d)
           | None =>
               if year_shape s
               then
                match Date.make (Str.int_of_digits (Str.strip s)) 1 1 with
                | Some d => Ok (Some d)
                | None => Raise ValueError
                end
               else Ok None
           end
       end) = Ok None).
  { destruct (string_dec s "next month"); [contradiction |].
    destruct (string_dec s "next year"); [contradiction |].
    rewrite Hfm, Hmy, Hys. reflexivity. }
  cbn in Hin.
  destruct Hin as [[= <- <-] | [[= <- <-] | [[= <- <-] | [[= <- <-] | []]]]].
  all: cbn [string_dec]; repeat (destruct (string_dec _ _) as [? | ?];
                                 try discriminate; try congruence).
  all: try rewrite Z.mul_1_l.
  all: destruct (Date.add_days today _); [reflexivity | exact Hfall].
Qed.

End RelativeDates.

(** ** Dates written with slashes *)

Lemma in_up_to_31 p : 1 <= p <= 31 -> In p up_to_31.
Proof.
  intros Hp. assert (H : In (Z.to_nat p) (seq 1 31)) by (apply in_seq; lia).
  apply (in_map Z.of_nat) in H. rewrite Z2Nat.id in H by lia. exact H.
Qed.

Lemma rstrip_digits s :
  Str.all_chars Str.is_digit s = true -> Str.rstrip s = s.
Proof.
  induction s as [| c s IH]; [reflexivity |]. cbn. intros H.
  apply andb_true_iff in H as [Hc Hs]. rewrite (IH Hs).
  destruct s; [rewrite (digit_not_space c Hc) |]; reflexivity.
Qed.

Lemma run_app ds1 ds2 f s :
  Strptime.run (ds1 ++ ds2) f s
  = flat_map (fun '(f', r) => Strptime.run ds2 f' r) (Strptime.run ds1 f s).
Proof.
  revert f s. induction ds1 as [| d ds1 IH]; intros f s.
  - cbn. rewrite app_nil_r. reflexivity.
  - cbn [Strptime.run app]. induction (Strptime.step d f s) as [| [f' r] l IHl].
    + reflexivity.
    + cbn [flat_map]. rewrite flat_map_app, IH, IHl. reflexivity.
Qed.

(** Everything [parse_date] asks of the part before the year, whatever
    follows it. *)
Lemma slash_head_facts p q :
  In p up_to_31 -> In q up_to_31 ->
  forall Y f,
    let s := slash_head p q +:+ Y in
    Str.lower (slash_head p q) = slash_head p q
    /\ Str.lstrip s = s
    /\ Str.startswith "in " s = false
    /\ s <> "next month" /\ s <> "next year"
    /\ Strptime.strptime s "%Y-%m-%d" = None
    /\ Strptime.run [Strptime.Dd; Strptime.DLit "/"; Strptime.Dm; Strptime.DLit "/"] f s
       = (if q <=? 12
          then [(Strptime.mkFields (Strptime.fY f) (Some q) (Some p), Y)] else [])
    /\ Strptime.run [Strptime.Dm; Strptime.DLit "/"; Strptime.Dd; Strptime.DLit "/"] f s
       = (if p <=? 12
          then [(Strptime.mkFields (Strptime.fY f) (Some p) (Some q), Y)] else [])
    /\ Strptime.strptime s "%B %d, %Y" = None
    /\ Strptime.strptime s "%b %d, %Y" = None
    /\ month_year_shape s = false
    /\ year_shape s = false.
Proof.
  intros Hp Hq Y f. cbn in Hp, Hq.
  repeat (destruct Hp as [<- | Hp]; [| try contradiction]);
  repeat (destruct Hq as [<- | Hq]; [| try contradiction]);
  (vm_compute; repeat split; congruence).
Qed.

Section SlashDates.

Variable today : date.

Lemma parse_date_str_slashed p q a b c e :
  1 <= p <= 31 -> 1 <= q <= 31 ->
  Str.is_digit a = true -> Str.is_digit b = true ->
  Str.is_digit c = true -> Str.is_digit e = true ->
  let Y := String a (String b (String c (String e EmptyString))) in
  let y := Str.int_of_digits Y in
  parse_date_str today (slash_head p q +:+ Y)
  = Ok (match (if q <=? 12 then Date.make y q p else None) with
        | Some d => Some d
        | None => if p <=? 12 then Date.make y p q else None
        end).
Proof.
  intros Hp Hq Ha Hb Hc He Y y.
  assert (HY : Str.all_chars Str.is_digit Y = true)
    by (cbn; rewrite Ha, Hb, Hc, He; reflexivity).
  pose proof (slash_head_facts p q (in_up_to_31 p Hp) (in_up_to_31 q Hq) Y) as F.
  destruct (F Strptime.no_fields)
    as (Hlow & Hls & Hin & Hnm & Hny & Hiso & Hdm & Hmd & HB & Hb' & Hmy & Hys).
  cbv zeta in *.
  set (s := slash_head p q +:+ Y) in *.
  assert (Hs_lower : Str.lower s = s).
  { unfold s. rewrite lower_app, Hlow, (lower_digits Y HY). reflexivity. }
  assert (Hs_strip : Str.strip s = s).
  { unfold Str.strip. rewrite Hls. unfold s.
    apply rstrip_app; [apply rstrip_digits, HY | discriminate]. }
  assert (HrunY : forall f, Strptime.run [Strptime.DY] f Y
                            = [(Strptime.mkFields (Some y) (Strptime.fM f) (Strptime.fD f),
                                EmptyString)]).
  { intros f. cbn [Strptime.run Strptime.step]. unfold Y at 1.
    rewrite match_Y_digits by assumption. reflexivity. }
  assert (Hfmt1 : Strptime.strptime s "%d/%m/%Y"
                  = if q <=? 12 then Date.make y q p else None).
  { unfold Strptime.strptime.
    change (Strptime.compile false "%d/%m/%Y")
      with ([Strptime.Dd; Strptime.DLit "/"; Strptime.Dm; Strptime.DLit "/"]
            ++ [Strptime.DY]).
    rewrite run_app, Hdm. destruct (q <=? 12); [| reflexivity].
    cbn [flat_map]. rewrite HrunY. reflexivity. }
  assert (Hfmt2 : Strptime.strptime s "%m/%d/%Y"
                  = if p <=? 12 then Date.make y p q else None).
  { unfold Strptime.strptime.
    change (Strptime.compile false "%m/%d/%Y")
      with ([Strptime.Dm; Strptime.DLit "/"; Strptime.Dd; Strptime.DLit "/"]
            ++ [Strptime.DY]).
    rewrite run_app, Hmd. destruct (p <=? 12); [| reflexivity].
    cbn [flat_map]. rewrite HrunY. reflexivity. }
  unfold parse_date_str. rewrite Hs_lower, Hs_strip, Hin.
  destruct (string_dec s "next month"); [contradiction |].
  destruct (string_dec s "next year"); [contradiction |].
  unfold standard_formats. cbn [try_formats].
  rewrite Hiso, Hfmt1.
  destruct (if q <=? 12 then Date.make y q p else None); [reflexivity |].
  rewrite Hfmt2.
  destruct (if p <=? 12 then Date.make y p q else None); [reflexivity |].
  rewrite HB, Hb', Hmy, Hys. reflexivity.
Qed.

Lemma slashed_head first second y :
  slashed first second y = slash_head first second +:+ Str.zfill 4 y.
Proof. unfold slashed, slash_head. rewrite !app_assoc_s. reflexivity. Qed.

Lemma valid_bounds D :
  Date.valid D = true ->
  1 <= year D <= 9999 /\ 1 <= month D <= 12
  /\ 1 <= day D <= Date.days_in_month (year D) (month D)
  /\ 28 <= Date.days_in_month (year D) (month D) <= 31.
Proof.
  intros HV. unfold Date.valid in HV.
  repeat (apply andb_true_iff in HV as [HV ?]).
  unfold Date.MINYEAR, Date.MAXYEAR in *.
  assert (Hm : 1 <= month D <= 12) by lia.
  split; [lia |]. split; [lia |]. split; [lia |].
  unfold Date.days_in_month. destruct (_ && _); [lia |].
  unfold Date.days_in_month_table.
  destruct (month D) as [| p | p]; try lia.
  repeat (first [ lia | destruct p as [p | p |] ]).
Qed.

Lemma days_in_month_at_least y m :
  1 <= m <= 12 -> 28 <= Date.days_in_month y m.
Proof.
  intros Hm. unfold Date.days_in_month. destruct (_ && _); [lia |].
  unfold Date.days_in_month_table.
  destruct m as [| p | p]; try lia.
  repeat (first [ lia | destruct p as [p | p |] ]).
Qed.

Lemma truthy_ends_with a c r : Py.truthy (VStr (a +:+ String c r)) = true.
Proof.
  cbn [Py.truthy]. destruct (string_dec _ _) as [E | _]; [| reflexivity].
  destruct a; discriminate E.
Qed.

(** X3. A valid date written [dd/mm/yyyy] reads back as that date.
    Written [mm/dd/yyyy] it is tried day first as well: whenever its day
    is at most 12 it reads as the date with day and month exchanged, and
    only otherwise as itself. *)
Theorem parse_date_slashed_day_first D :
  Date.valid D = true ->
  parse_date today (VStr (day_first D)) = Ok (Some D)
  /\ parse_date today (VStr (month_first D))
     = Ok (Some (if day D <=? 12 then mkDate (year D) (day D) (month D) else D)).
Proof.
  intros HV. destruct (valid_bounds D HV) as (Hy & Hm & Hd & Hdim).
  destruct D as [y m d]. cbn [year month day] in *.
  pose proof (year_ok_range y Hy) as Hyk. unfold year_ok in Hyk.
  unfold day_first, month_first. cbn [year month day].
  rewrite !slashed_head.
  destruct (Str.zfill 4 y) as [| a [| b [| c [| e [| ? ?]]]]]; try discriminate.
  apply andb_true_iff in Hyk as [Hyk Hv].
  apply andb_true_iff in Hyk as [Hyk He].
  apply andb_true_iff in Hyk as [Hyk Hc].
  apply andb_true_iff in Hyk as [Ha Hb].
  apply Z.eqb_eq in Hv.
  assert (Hmake : Date.make y m d = Some (mkDate y m d))
    by (unfold Date.make; rewrite HV; reflexivity).
  unfold parse_date.
  split.
  - rewrite truthy_ends_with. cbn [negb].
    rewrite parse_date_str_slashed by (assumption || lia).
    rewrite Hv. assert (Hm12 : (m <=? 12) = true) by (apply Z.leb_le; lia).
    rewrite Hm12, Hmake. reflexivity.
  - rewrite truthy_ends_with. cbn [negb].
    rewrite parse_date_str_slashed by (assumption || lia).
    rewrite Hv. assert (Hm12 : (m <=? 12) = true) by (apply Z.leb_le; lia).
    rewrite Hm12, Hmake.
    destruct (d <=? 12) eqn:Hd12; [| reflexivity].
    apply Z.leb_le in Hd12.
    assert (Hswap : Date.make y d m = Some (mkDate y d m)).
    { unfold Date.make, Date.valid. cbn [year month day].
      pose proof (days_in_month_at_least y d ltac:(lia)).
      unfold Date.MINYEAR, Date.MAXYEAR.
      replace (_ && _ && _ && _ && _ && _) with true; [reflexivity |].
      symmetry. repeat (apply andb_true_iff; split); apply Z.leb_le; lia. }
    rewrite Hswap. reflexivity.
Qed.

End SlashDates.

(** ** A month name and a year *)

Lemma month_name_facts name m :
  In (name, m) month_names ->
  forall Y f,
    let s := name +:+ String " " Y in
    let F := Strptime.mkFields (Strptime.fY f) (Some m) (Strptime.fD f) in
    Str.lower name = name
    /\ Str.lstrip s = s
    /\ Str.startswith "in " s = false
    /\ s <> "next month" /\ s <> "next year"
    /\ Strptime.strptime s "%Y-%m-%d" = None
    /\ Strptime.strptime s "%d/%m/%Y" = None
    /\ Strptime.strptime s "%m/%d/%Y" = None
    /\ Strptime.run [Strptime.DB] f s
       = (if is_full_name name then [(F, String " " Y)] else [])
    /\ Strptime.run [Strptime.Db] f s
       = [(F, Strptime.drop 3 name +:+ String " " Y)]
    /\ (if string_eqb (Strptime.drop 3 name) EmptyString then True
        else Strptime.run [Strptime.DSpace] F
               (Strptime.drop 3 name +:+ String " " Y) = [])
    /\ existsb (fun '(n, _) => Str.startswith n (Str.lower s)) Strptime.abbr_months = true
    /\ snd (Str.span Str.is_alpha (Strptime.drop 3 s)) = String " " Y
    /\ 1 <= m <= 12
    /\ is_full_name name || string_eqb (Strptime.drop 3 name) EmptyString = true.
Proof.
  intros Hn Y f. cbn in Hn.
  repeat (destruct Hn as [Hn | Hn]; [injection Hn as <- <- | try contradiction]);
  (vm_compute; repeat split; congruence).
Qed.

Lemma space_then_digit a r f :
  Str.is_digit a = true ->
  Strptime.run [Strptime.DSpace] f (String " " (String a r)) = [(f, String a r)].
Proof.
  intros Ha. cbn [Strptime.run Strptime.step Strptime.match_space].
  change (Str.is_space " ") with true. cbv iota.
  rewrite (digit_not_space a Ha). reflexivity.
Qed.

Lemma digit_not_literal l a :
  Str.is_digit (Str.lower_char l) = false -> Str.is_digit a = true ->
  forall f r, Strptime.step (Strptime.DLit l) f (String a r) = [].
Proof.
  intros Hl Ha f r. cbn [Strptime.step]. rewrite (digit_lower a Ha).
  destruct (ascii_dec a _) as [E | _]; [congruence | reflexivity].
Qed.

(** Four digits are no day of the month followed by a character that is
    not a digit, and no month followed by one. *)
Lemma no_day_in_four_digits l ds a b c e f :
  Str.is_digit (Str.lower_char l) = false ->
  Str.is_digit a = true -> Str.is_digit b = true ->
  Str.is_digit c = true -> Str.is_digit e = true ->
  Strptime.run (Strptime.Dd :: Strptime.DLit l :: ds) f
    (String a (String b (String c (String e EmptyString)))) = [].
Proof.
  intros Hl Ha Hb Hc He.
  change (Strptime.Dd :: Strptime.DLit l :: ds)
    with ([Strptime.Dd] ++ Strptime.DLit l :: ds).
  rewrite run_app.
  set (k := fun '(f', r) => Strptime.run (Strptime.DLit l :: ds) f' r).
  assert (Hk : forall f' x r, Str.is_digit x = true -> k (f', String x r) = []).
  { intros f' x r Hx. unfold k. cbn [Strptime.run].
    rewrite (digit_not_literal l x Hl Hx). reflexivity. }
  clearbody k.
  cbn [Strptime.run Strptime.step]. unfold Strptime.match_d, Strptime.two, Strptime.one.
  assert (Hsp : Strptime.is_char " " a = false).
  { unfold Strptime.is_char. destruct (ascii_dec a " ") as [-> | _];
      [discriminate Ha | reflexivity]. }
  rewrite Hsp.
  destruct (_ && _), (_ && _), (_ && _), (Strptime.in_range 49 57 a);
    cbn [app map flat_map]; rewrite ?Hk by assumption; reflexivity.
Qed.

Lemma no_month_in_four_digits l ds a b c e f :
  Str.is_digit (Str.lower_char l) = false ->
  Str.is_digit a = true -> Str.is_digit b = true ->
  Str.is_digit c = true -> Str.is_digit e = true ->
  Strptime.run (Strptime.Dm :: Strptime.DLit l :: ds) f
    (String a (String b (String c (String e EmptyString)))) = [].
Proof.
  intros Hl Ha Hb Hc He.
  change (Strptime.Dm :: Strptime.DLit l :: ds)
    with ([Strptime.Dm] ++ Strptime.DLit l :: ds).
  rewrite run_app.
  set (k := fun '(f', r) => Strptime.run (Strptime.DLit l :: ds) f' r).
  assert (Hk : forall f' x r, Str.is_digit x = true -> k (f', String x r) = []).
  { intros f' x r Hx. unfold k. cbn [Strptime.run].
    rewrite (digit_not_literal l x Hl Hx). reflexivity. }
  clearbody k.
  cbn [Strptime.run Strptime.step]. unfold Strptime.match_m, Strptime.two, Strptime.one.
  destruct (_ && _), (_ && _), (Strptime.in_range 49 57 a);
    cbn [app map flat_map]; rewrite ?Hk by assumption; reflexivity.
Qed.

Lemma month_year_shape_split s :
  month_year_shape s
  = existsb (fun '(n, _) => Str.startswith n (Str.lower s)) Strptime.abbr_months
    && match snd (Str.span Str.is_alpha (Strptime.drop 3 s)) with
       | String sp (String a (String b (String c (String d rest)))) =>
           (if ascii_dec sp " " then true else false)
           && Str.is_digit a && Str.is_digit b && Str.is_digit c
           && Str.is_digit d && at_end rest
       | _ => false
       end.
Proof.
  unfold month_year_shape. generalize Strptime.abbr_months as l.
  induction l as [| [n k] l IH]; [reflexivity |].
  cbn [existsb]. rewrite IH. clear IH.
  match goal with
  | |- context [Str.startswith n (Str.lower s) && ?B] => generalize B
  end.
  intros shape.
  destruct (Str.startswith n (Str.lower s)), (existsb _ l), shape; reflexivity.
Qed.

Lemma first_of_month y m :
  1 <= y <= 9999 -> 1 <= m <= 12 -> Date.make y m 1 = Some (mkDate y m 1).
Proof.
  intros Hy Hm. unfold Date.make, Date.valid. cbn [year month day].
  pose proof (days_in_month_at_least y m Hm).
  unfold Date.MINYEAR, Date.MAXYEAR.
  replace (_ && _ && _ && _ && _ && _) with true; [reflexivity |].
  symmetry. repeat (apply andb_true_iff; split); apply Z.leb_le; lia.
Qed.

Section MonthAndYear.

Variable today : date.

Lemma parse_date_str_month_year name m a b c e :
  In (name, m) month_names ->
  Str.is_digit a = true -> Str.is_digit b = true ->
  Str.is_digit c = true -> Str.is_digit e = true ->
  let Y := String a (String b (String c (String e EmptyString))) in
  1 <= Str.int_of_digits Y <= 9999 ->
  parse_date_str today (name +:+ String " " Y)
  = Ok (Some (mkDate (Str.int_of_digits Y) m 1)).
Proof.
  intros Hn Ha Hb Hc He Y Hy.
  assert (HY : Str.all_chars Str.is_digit Y = true)
    by (cbn; rewrite Ha, Hb, Hc, He; reflexivity).
  pose proof (month_name_facts name m Hn Y) as F.
  destruct (F Strptime.no_fields)
    as (Hlow & Hls & Hin & Hnm & Hny & Hiso & Hdm & Hmd & HB & Hb' & Hsp & Hex
        & Hspan & Hm & Hkind).
  cbv zeta in *.
  set (s := name +:+ String " " Y) in *.
  set (F0 := Strptime.mkFields (Strptime.fY Strptime.no_fields) (Some m)
               (Strptime.fD Strptime.no_fields)) in *.
  assert (Hs_lower : Str.lower s = s).
  { unfold s. rewrite lower_app, Hlow. cbn [Str.lower].
    rewrite (lower_digits Y HY). reflexivity. }
  assert (Hs_strip : Str.strip s = s).
  { unfold Str.strip. rewrite Hls. unfold s.
    change (String " " Y) with (" " +:+ Y). rewrite <- app_assoc_s.
    apply rstrip_app; [apply rstrip_digits, HY | discriminate]. }
  assert (HrunY : Strptime.run [Strptime.DY] F0 Y
                  = [(Strptime.mkFields (Some (Str.int_of_digits Y)) (Some m) None,
                      EmptyString)]).
  { cbn [Strptime.run Strptime.step]. unfold Y at 1.
    rewrite match_Y_digits by assumption. reflexivity. }
  assert (Hday : Strptime.run
                   ([Strptime.DSpace]
                    ++ [Strptime.Dd; Strptime.DLit ","; Strptime.DSpace; Strptime.DY])
                   F0 (String " " Y) = []).
  { rewrite run_app. unfold Y at 1. rewrite space_then_digit by exact Ha.
    cbn [flat_map].
    rewrite (no_day_in_four_digits "," [Strptime.DSpace; Strptime.DY])
      by (assumption || reflexivity).
    reflexivity. }
  assert (Hyear : Strptime.run ([Strptime.DSpace] ++ [Strptime.DY]) F0 (String " " Y)
                  = [(Strptime.mkFields (Some (Str.int_of_digits Y)) (Some m) None,
                      EmptyString)]).
  { rewrite run_app. unfold Y at 1. rewrite space_then_digit by exact Ha.
    cbn [flat_map]. fold Y. rewrite HrunY. reflexivity. }
  assert (HfmtB : Strptime.strptime s "%B %d, %Y" = None).
  { unfold Strptime.strptime.
    change (Strptime.compile false "%B %d, %Y")
      with ([Strptime.DB] ++ [Strptime.DSpace]
            ++ [Strptime.Dd; Strptime.DLit ","; Strptime.DSpace; Strptime.DY]).
    rewrite run_app, HB. destruct (is_full_name name); [| reflexivity].
    cbn [flat_map]. rewrite Hday. reflexivity. }
  assert (Hfmtb : Strptime.strptime s "%b %d, %Y" = None).
  { unfold Strptime.strptime.
    change (Strptime.compile false "%b %d, %Y")
      with ([Strptime.Db] ++ [Strptime.DSpace]
            ++ [Strptime.Dd; Strptime.DLit ","; Strptime.DSpace; Strptime.DY]).
    rewrite run_app, Hb'. cbn [flat_map]. unfold string_eqb in Hsp.
    destruct (string_dec (Strptime.drop 3 name) EmptyString) as [E | _].
    - rewrite E, app_empty, Hday. reflexivity.
    - rewrite run_app, Hsp. reflexivity. }
  assert (Hshape : month_year_shape s = true).
  { rewrite month_year_shape_split, Hex, Hspan. unfold Y.
    rewrite Ha, Hb, Hc, He. reflexivity. }
  assert (Hmake := first_of_month _ m Hy Hm).
  unfold parse_date_str. rewrite Hs_lower, Hs_strip, Hin.
  destruct (string_dec s "next month"); [contradiction |].
  destruct (string_dec s "next year"); [contradiction |].
  unfold standard_formats. cbn [try_formats].
  rewrite Hiso, Hdm, Hmd, HfmtB, Hfmtb, Hshape.
  unfold Strptime.strptime.
  change (Strptime.compile false "%B %Y")
    with ([Strptime.DB] ++ [Strptime.DSpace] ++ [Strptime.DY]).
  change (Strptime.compile false "%b %Y")
    with ([Strptime.Db] ++ [Strptime.DSpace] ++ [Strptime.DY]).
  rewrite !run_app, HB, Hb'.
  destruct (is_full_name name).
  - cbn [flat_map]. rewrite Hyear.
    cbv [app default from_option id Strptime.fY Strptime.fM Strptime.fD].
    rewrite Hmake. reflexivity.
  - cbn [orb] in Hkind. unfold string_eqb in Hkind.
    destruct (string_dec (Strptime.drop 3 name) EmptyString) as [E | _];
      [| discriminate Hkind].
    cbn [flat_map]. rewrite E, app_empty, Hyear.
    cbv [app default from_option id Strptime.fY Strptime.fM Strptime.fD].
    rewrite Hmake. reflexivity.
Qed.

(** X4. A month name, in full or abbreviated to three letters, followed
    by a space and a year of four digits (1 to 9999) reads as the first
    day of that month, whatever the current day is. *)
Theorem parse_date_month_and_year name m y :
  In (name, m) month_names -> 1 <= y <= 9999 ->
  parse_date today (VStr (month_and_year name y)) = Ok (Some (mkDate y m 1)).
Proof.
  intros Hn Hy.
  pose proof (year_ok_range y Hy) as Hyk. unfold year_ok in Hyk.
  unfold month_and_year.
  destruct (Str.zfill 4 y) as [| a [| b [| c [| e [| ? ?]]]]]; try discriminate.
  apply andb_true_iff in Hyk as [Hyk Hv].
  apply andb_true_iff in Hyk as [Hyk He].
  apply andb_true_iff in Hyk as [Hyk Hc].
  apply andb_true_iff in Hyk as [Ha Hb].
  apply Z.eqb_eq in Hv.
  unfold parse_date.
  change (" " +:+ String a (String b (String c (String e EmptyString))))
    with (String " " (String a (String b (String c (String e EmptyString))))).
  rewrite truthy_ends_with. cbn [negb].
  rewrite (parse_date_str_month_year name m a b c e Hn Ha Hb Hc He)
    by (rewrite Hv; exact Hy).
  rewrite Hv. reflexivity.
Qed.

End MonthAndYear.

(** ** A month name, a day and a year *)

Lemma day_text_facts d :
  In d up_to_31 ->
  forall T, T = Str.zfill 2 d \/ T = Str.of_nonneg d ->
  forall R f,
    Str.all_chars Str.is_digit T = true
    /\ T <> EmptyString
    /\ Strptime.run [Strptime.Dd; Strptime.DLit ","] f (T +:+ String "," R)
       = [(Strptime.mkFields (Strptime.fY f) (Strptime.fM f) (Some d), R)].
Proof.
  intros Hd T HT R f. cbn in Hd.
  repeat (destruct Hd as [<- | Hd]; [| try contradiction]);
  (destruct HT as [-> | ->]; vm_compute; repeat split; congruence).
Qed.

Section LongDates.

Variable today : date.

Lemma parse_date_str_long name m d T a b c e :
  In (name, m) month_names ->
  1 <= d <= 31 ->
  T = Str.zfill 2 d \/ T = Str.of_nonneg d ->
  Str.is_digit a = true -> Str.is_digit b = true ->
  Str.is_digit c = true -> Str.is_digit e = true ->
  let Y := String a (String b (String c (String e EmptyString))) in
  forall D, Date.make (Str.int_of_digits Y) m d = Some D ->
  parse_date_str today (name +:+ String " " (T +:+ String "," (String " " Y)))
  = Ok (Some D).
Proof.
  intros Hn Hd HT Ha Hb Hc He Y D HD.
  assert (HY : Str.all_chars Str.is_digit Y = true)
    by (cbn; rewrite Ha, Hb, Hc, He; reflexivity).
  set (tail := T +:+ String "," (String " " Y)).
  pose proof (month_name_facts name m Hn tail) as F.
  destruct (F Strptime.no_fields)
    as (Hlow & Hls & Hin & Hnm & Hny & Hiso & Hdm & Hmd & HB & Hb' & Hsp & Hex
        & Hspan & Hm & Hkind).
  cbv zeta in *. clear F.
  set (s := name +:+ String " " tail) in *.
  set (F0 := Strptime.mkFields (Strptime.fY Strptime.no_fields) (Some m)
               (Strptime.fD Strptime.no_fields)) in *.
  destruct (day_text_facts d (in_up_to_31 d Hd) T HT (String " " Y) F0)
    as (HTd & HTne & Hday).
  fold tail in Hday.
  destruct T as [| t0 T']; [contradiction |].
  assert (Ht0 : Str.is_digit t0 = true).
  { cbn in HTd. apply andb_true_iff in HTd as [? _]. assumption. }
  assert (Hs_lower : Str.lower s = s).
  { unfold s, tail. rewrite lower_app, Hlow. cbn [Str.lower].
    rewrite lower_app, (lower_digits _ HTd). cbn [Str.lower].
    rewrite (lower_digits Y HY). reflexivity. }
  assert (Hs_strip : Str.strip s = s).
  { unfold Str.strip. rewrite Hls. unfold s, tail.
    change (String " " (String t0 T' +:+ String "," (String " " Y)))
      with (" " +:+ (String t0 T' +:+ (", " +:+ Y))).
    rewrite <- !app_assoc_s.
    apply rstrip_app; [apply rstrip_digits, HY | discriminate]. }
  assert (Hchain : Strptime.run
                     ([Strptime.DSpace] ++ [Strptime.Dd; Strptime.DLit ","]
                      ++ [Strptime.DSpace] ++ [Strptime.DY]) F0 (String " " tail)
                   = [(Strptime.mkFields (Some (Str.int_of_digits Y)) (Some m) (Some d),
                       EmptyString)]).
  { rewrite run_app. unfold tail at 1. rewrite app_cons.
    rewrite space_then_digit by exact Ht0. cbn [flat_map]. rewrite app_nil_r.
    rewrite <- app_cons. fold tail.
    rewrite run_app, Hday. cbn [flat_map]. rewrite app_nil_r.
    rewrite run_app. unfold Y at 1. rewrite space_then_digit by exact Ha.
    cbn [flat_map]. rewrite app_nil_r.
    cbn [Strptime.run Strptime.step]. rewrite match_Y_digits by assumption.
    reflexivity. }
  unfold parse_date_str. rewrite Hs_lower, Hs_strip, Hin.
  destruct (string_dec s "next month"); [contradiction |].
  destruct (string_dec s "next year"); [contradiction |].
  unfold standard_formats. cbn [try_formats].
  rewrite Hiso, Hdm, Hmd.
  unfold Strptime.strptime.
  change (Strptime.compile false "%B %d, %Y")
    with ([Strptime.DB] ++ [Strptime.DSpace] ++ [Strptime.Dd; Strptime.DLit ","]
          ++ [Strptime.DSpace] ++ [Strptime.DY]).
  change (Strptime.compile false "%b %d, %Y")
    with ([Strptime.Db] ++ [Strptime.DSpace] ++ [Strptime.Dd; Strptime.DLit ","]
          ++ [Strptime.DSpace] ++ [Strptime.DY]).
  rewrite (run_app [Strptime.DB]), (run_app [Strptime.Db]), HB, Hb'.
  destruct (is_full_name name).
  - cbn [flat_map]. rewrite Hchain.
    cbv [app default from_option id Strptime.fY Strptime.fM Strptime.fD].
    rewrite HD. reflexivity.
  - cbn [orb] in Hkind. unfold string_eqb in Hkind.
    destruct (string_dec (Strptime.drop 3 name) EmptyString) as [E | _];
      [| discriminate Hkind].
    cbn [flat_map]. rewrite E, app_empty, Hchain.
    cbv [app default from_option id Strptime.fY Strptime.fM Strptime.fD].
    rewrite HD. reflexivity.
Qed.

(** X5. A valid date written as a month name (full or abbreviated), its
    day with or without a leading zero, a comma and its year of four
    digits reads back as that date. *)
Theorem parse_date_long name m day_text D :
  In (name, m) month_names ->
  Date.valid D = true ->
  month D = m ->
  day_text = Str.zfill 2 (day D) \/ day_text = Str.of_nonneg (day D) ->
  parse_date today (VStr (long_date name day_text (year D))) = Ok (Some D).
Proof.
  intros Hn HV Hmonth HT.
  destruct (valid_bounds D HV) as (Hy & Hm & Hd & Hdim).
  destruct D as [y m' d]. cbn [year month day] in *. subst m'.
  pose proof (year_ok_range y Hy) as Hyk. unfold year_ok in Hyk.
  unfold long_date.
  destruct (Str.zfill 4 y) as [| a [| b [| c [| e [| ? ?]]]]]; try discriminate.
  apply andb_true_iff in Hyk as [Hyk Hv].
  apply andb_true_iff in Hyk as [Hyk He].
  apply andb_true_iff in Hyk as [Hyk Hc].
  apply andb_true_iff in Hyk as [Ha Hb].
  apply Z.eqb_eq in Hv.
  unfold parse_date.
  change (" " +:+ day_text +:+ ", "
          +:+ String a (String b (String c (String e EmptyString))))
    with (String " " (day_text +:+ String ","
            (String " " (String a (String b (String c (String e EmptyString))))))).
  rewrite truthy_ends_with. cbn [negb].
  apply (parse_date_str_long name m d day_text a b c e); try assumption; try lia.
  rewrite Hv. unfold Date.make. rewrite HV. reflexivity.
Qed.

End LongDates.

(** ** "next month" and "next year" *)

(** X6. "next month" and "next year", in any case and with any white
    space around them, read as the first day of the month after the
    current one and as the first of January of the year after the
    current one.  Where that year would be 10000 the date cannot be
    built and [parse_date] raises [ValueError]. *)
Theorem parse_date_next today s :
  Date.valid today = true ->
  Str.strip (Str.lower s) = "next month" \/ Str.strip (Str.lower s) = "next year" ->
  parse_date today (VStr s)
  = if string_eqb (Str.strip (Str.lower s)) "next month" && (month today <? 12)
    then Ok (Some (mkDate (year today) (month today + 1) 1))
    else if year today <? 9999
         then Ok (Some (mkDate (year today + 1) 1 1))
         else Raise ValueError.
Proof.
  intros HV Hs. destruct (valid_bounds today HV) as (Hy & Hm & _ & _).
  assert (Hfar : Date.make (year today + 1) 1 1
                 = if year today <? 9999
                   then Some (mkDate (year today + 1) 1 1) else None).
  { destruct (year today <? 9999) eqn:E.
    - apply Z.ltb_lt in E. apply first_of_month; lia.
    - apply Z.ltb_ge in E. unfold Date.make, Date.valid, Date.MAXYEAR.
      cbn [year month day].
      replace (year today + 1 <=? 9999) with false by (symmetry; apply Z.leb_gt; lia).
      rewrite andb_false_r. reflexivity. }
  assert (Ht : Py.truthy (VStr s) = true)
    by (destruct s; [destruct Hs as [Hs | Hs]; discriminate Hs | reflexivity]).
  unfold parse_date. rewrite Ht. cbn [negb].
  unfold parse_date_str, string_eqb.
  destruct Hs as [Hs | Hs]; rewrite Hs.
  - change (Str.startswith "in " "next month") with false. cbv iota.
    destruct (string_dec "next month" "next month"); [| contradiction].
    cbn [andb].
    destruct (month today <? 12) eqn:E.
    + apply Z.ltb_lt in E. rewrite first_of_month by lia. reflexivity.
    + rewrite Hfar. destruct (year today <? 9999); reflexivity.
  - change (Str.startswith "in " "next year") with false. cbv iota.
    destruct (string_dec "next year" "next month"); [discriminate |].
    destruct (string_dec "next year" "next year"); [| contradiction].
    cbn [andb].
    rewrite Hfar. destruct (year today <? 9999); reflexivity.
Qed.

(** ** A bare year *)

Lemma code_inj a b : Str.code a = Str.code b -> a = b.
Proof.
  unfold Str.code. intros H. apply N2Z.inj in H.
  rewrite <- (ascii_N_embedding a), <- (ascii_N_embedding b), H. reflexivity.
Qed.

(** No month name starts with a digit. *)
Lemma no_name_in_digits a r :
  Str.is_digit a = true ->
  Strptime.match_names Strptime.full_months (String a r) = []
  /\ Strptime.match_names Strptime.abbr_months (String a r) = []
  /\ existsb (fun '(n, _) => Str.startswith n (Str.lower (String a r)))
             Strptime.abbr_months = false.
Proof.
  intros Ha. unfold Strptime.match_names.
  cbn [Strptime.full_months Strptime.abbr_months flat_map existsb Str.lower
       Str.startswith app].
  rewrite (digit_lower a Ha).
  repeat match goal with
         | |- context [ascii_dec ?x a] =>
             destruct (ascii_dec x a) as [E | _];
             [subst a; vm_compute in Ha; discriminate Ha |]
         end.
  repeat split.
Qed.

Section BareYear.

Variable today : date.

Lemma parse_date_str_four_digits a b c e :
  Str.is_digit a = true -> Str.is_digit b = true ->
  Str.is_digit c = true -> Str.is_digit e = true ->
  let Y := String a (String b (String c (String e EmptyString))) in
  parse_date_str today Y = Ok (bare_year_result (Str.int_of_digits Y)).
Proof.
  intros Ha Hb Hc He Y.
  assert (HY : Str.all_chars Str.is_digit Y = true)
    by (cbn; rewrite Ha, Hb, Hc, He; reflexivity).
  destruct (no_name_in_digits a (String b (String c (String e EmptyString))) Ha)
    as (HnB & Hnb & Hshape). fold Y in HnB, Hnb, Hshape.
  assert (Hs_lower : Str.lower Y = Y) by (apply lower_digits, HY).
  assert (Hs_strip : Str.strip Y = Y).
  { unfold Str.strip. unfold Y at 1. cbn [Str.lstrip].
    rewrite (digit_not_space a Ha). apply rstrip_digits, HY. }
  assert (Hin : Str.startswith "in " Y = false).
  { unfold Y. cbn [Str.startswith].
    destruct (ascii_dec "i" a) as [E | _];
      [subst a; vm_compute in Ha; discriminate Ha | reflexivity]. }
  assert (Hiso : Strptime.strptime Y "%Y-%m-%d" = None).
  { unfold Strptime.strptime.
    change (Strptime.compile false "%Y-%m-%d") with (Strptime.DY :: iso_directives).
    cbn [Strptime.run Strptime.step]. unfold Y at 1.
    rewrite match_Y_digits by assumption. reflexivity. }
  assert (Hdm : Strptime.strptime Y "%d/%m/%Y" = None).
  { unfold Strptime.strptime.
    change (Strptime.compile false "%d/%m/%Y")
      with (Strptime.Dd :: Strptime.DLit "/"
            :: [Strptime.Dm; Strptime.DLit "/"; Strptime.DY]).
    unfold Y. rewrite no_day_in_four_digits by (assumption || reflexivity).
    reflexivity. }
  assert (Hmd : Strptime.strptime Y "%m/%d/%Y" = None).
  { unfold Strptime.strptime.
    change (Strptime.compile false "%m/%d/%Y")
      with (Strptime.Dm :: Strptime.DLit "/"
            :: [Strptime.Dd; Strptime.DLit "/"; Strptime.DY]).
    unfold Y. rewrite no_month_in_four_digits by (assumption || reflexivity).
    reflexivity. }
  assert (HfB : Strptime.strptime Y "%B %d, %Y" = None).
  { unfold Strptime.strptime.
    change (Strptime.compile false "%B %d, %Y")
      with ([Strptime.DB] ++ [Strptime.DSpace; Strptime.Dd; Strptime.DLit ",";
                              Strptime.DSpace; Strptime.DY]).
    rewrite run_app. cbn [Strptime.run Strptime.step]. rewrite HnB. reflexivity. }
  assert (Hfb : Strptime.strptime Y "%b %d, %Y" = None).
  { unfold Strptime.strptime.
    change (Strptime.compile false "%b %d, %Y")
      with ([Strptime.Db] ++ [Strptime.DSpace; Strptime.Dd; Strptime.DLit ",";
                              Strptime.DSpace; Strptime.DY]).
    rewrite run_app. cbn [Strptime.run Strptime.step]. rewrite Hnb. reflexivity. }
  assert (Hmy : month_year_shape Y = false).
  { rewrite month_year_shape_split, Hshape. reflexivity. }
  pose proof (digit_code a Ha) as Ca. pose proof (digit_code b Hb) as Cb.
  pose proof (digit_code c Hc) as Cc. pose proof (digit_code e He) as Ce.
  assert (Hval : Str.int_of_digits Y
                 = 1000 * (Str.code a - 48) + 100 * (Str.code b - 48)
                   + 10 * (Str.code c - 48) + (Str.code e - 48)).
  { unfold Y, Str.int_of_digits. cbn [Str.digits_val]. unfold Str.digit_val. lia. }
  unfold parse_date_str. rewrite Hs_lower, Hs_strip, Hin.
  destruct (string_dec Y "next month") as [E | _].
  { injection E as E _. subst a. vm_compute in Ha. discriminate Ha. }
  destruct (string_dec Y "next year") as [E | _].
  { injection E as E _. subst a. vm_compute in Ha. discriminate Ha. }
  unfold standard_formats. cbn [try_formats].
  rewrite Hiso, Hdm, Hmd, HfB, Hfb, Hmy, Hs_strip.
  unfold year_shape, Y at 1. rewrite Hc, He. cbn [at_end andb].
  unfold bare_year_result.
  destruct (ascii_dec a "2") as [Ea | Na]; [destruct (ascii_dec b "0") as [Eb | Nb] |].
  - subst a b. change (Str.code "2") with 50 in Hval.
    change (Str.code "0") with 48 in Hval.
    assert (Hr : (2000 <=? Str.int_of_digits Y) && (Str.int_of_digits Y <=? 2099) = true).
    { apply andb_true_iff. split; apply Z.leb_le; lia. }
    rewrite Hr. cbn [andb]. rewrite first_of_month by lia. reflexivity.
  - assert (Hr : (2000 <=? Str.int_of_digits Y) && (Str.int_of_digits Y <=? 2099) = false).
    { apply andb_false_iff.
      assert (Str.code b <> 48).
      { intros Hcb. apply Nb. apply code_inj. rewrite Hcb. reflexivity. }
      subst a. change (Str.code "2") with 50 in Hval.
      right. apply Z.leb_gt. lia. }
    rewrite Hr. destruct (ascii_dec a "2"); reflexivity.
  - assert (Hr : (2000 <=? Str.int_of_digits Y) && (Str.int_of_digits Y <=? 2099) = false).
    { assert (Str.code a <> 50).
      { intros Hca. apply Na. apply code_inj. rewrite Hca. reflexivity. }
      apply andb_false_iff.
      destruct (Z_lt_le_dec (Str.code a) 50).
      - left. apply Z.leb_gt. lia.
      - right. apply Z.leb_gt. lia. }
    rewrite Hr. reflexivity.
Qed.

(** X7. Four digits alone read as the first of January of that year
    exactly when the year is between 2000 and 2099; every other number
    of four digits reads as no date. *)
Theorem parse_date_bare_year (y : Z) :
  0 <= y <= 9999 ->
  parse_date today (VStr (Str.zfill 4 y)) = Ok (bare_year_result y).
Proof.
  intros Hy.
  destruct (Z.eq_dec y 0) as [-> | Hy0]; [vm_compute; reflexivity |].
  pose proof (year_ok_range y ltac:(lia)) as Hyk. unfold year_ok in Hyk.
  destruct (Str.zfill 4 y) as [| a [| b [| c [| e [| ? ?]]]]]; try discriminate.
  apply andb_true_iff in Hyk as [Hyk Hv].
  apply andb_true_iff in Hyk as [Hyk He].
  apply andb_true_iff in Hyk as [Hyk Hc].
  apply andb_true_iff in Hyk as [Ha Hb].
  apply Z.eqb_eq in Hv.
  unfold parse_date.
  change (Py.truthy (VStr (String a (String b (String c (String e EmptyString))))))
    with true.
  cbn [negb].
  rewrite (parse_date_str_four_digits a b c e Ha Hb Hc He), Hv. reflexivity.
Qed.

End BareYear.

(** ** Amounts *)

(** Characters of a run found by a search. *)
Lemma span_all p s : Str.all_chars p (fst (Str.span p s)) = true.
Proof.
  induction s as [| c s IH]; [reflexivity |]. cbn.
  destruct (p c) eqn:Hc; [| reflexivity].
  destruct (Str.span p s) as [a b]. cbn in *. rewrite Hc, IH. reflexivity.
Qed.

Lemma span_sub q p s :
  Str.all_chars q s = true -> Str.all_chars q (fst (Str.span p s)) = true.
Proof.
  induction s as [| c s IH]; [reflexivity |]. cbn. intros H.
  apply andb_true_iff in H as [Hc Hs].
  destruct (p c); [| reflexivity].
  destruct (Str.span p s) as [a b]. cbn in *. rewrite Hc, (IH Hs). reflexivity.
Qed.

Lemma search_run_all p s r :
  Str.search_run p s = Some r -> Str.all_chars p r = true.
Proof.
  revert r. induction s as [| c s IH]; [discriminate |]. intros r.
  pose proof (span_all p (String c s)) as X. revert X.
  cbn. destruct (p c); [| intros _; apply IH]. intros X [= <-]. exact X.
Qed.

Lemma search_run_sub q p s r :
  Str.all_chars q s = true ->
  Str.search_run p s = Some r -> Str.all_chars q r = true.
Proof.
  revert r. induction s as [| c s IH]; [discriminate |]. intros r H.
  pose proof (span_sub q p (String c s) H) as X. revert X.
  cbn. destruct (p c).
  - intros X [= <-]. exact X.
  - intros _. cbn in H. apply andb_true_iff in H as [_ Hs]. apply IH, Hs.
Qed.

Lemma digits_val_nonneg s :
  Str.all_chars Str.is_digit s = true ->
  forall acc, 0 <= acc -> 0 <= Str.digits_val acc s.
Proof.
  induction s as [| c s IH]; cbn; [auto |]. intros H acc Hacc.
  apply andb_true_iff in H as [Hc Hs]. apply IH; [assumption |].
  apply digit_code in Hc. unfold Str.digit_val. lia.
Qed.

Lemma decimal_parts_digits s seen :
  Str.all_chars Currency.is_digit_or_dot s = true ->
  Str.all_chars Str.is_digit (fst (Currency.decimal_parts seen s)) = true.
Proof.
  revert seen. induction s as [| c s IH]; [reflexivity |]. intros seen H.
  cbn in *. apply andb_true_iff in H as [Hc Hs].
  destruct (ascii_dec c ".") as [-> | Hne]; [apply IH, Hs |].
  specialize (IH seen Hs). destruct (Currency.decimal_parts seen s) as [ds k].
  cbn in *. rewrite IH.
  unfold Currency.is_digit_or_dot in Hc.
  destruct (ascii_dec c "."); [contradiction |]. rewrite orb_false_r in Hc.
  rewrite Hc. reflexivity.
Qed.

Lemma float_of_decimal_nonneg s x :
  Str.all_chars Currency.is_digit_or_dot s = true ->
  Currency.float_of_decimal s = Some x -> (0 <= x)%Q.
Proof.
  intros Hs. unfold Currency.float_of_decimal.
  pose proof (decimal_parts_digits s false Hs) as Hd.
  destruct (Currency.decimal_parts false s) as [ds k]. cbn in Hd.
  destruct (_ && _); [| discriminate]. intros [= <-].
  rewrite Qred_correct. unfold Qle. cbn. rewrite Z.mul_1_r.
  apply digits_val_nonneg; [assumption | lia].
Qed.

Lemma fmul_nonneg x k : (0 <= x)%Q -> (0 <= k)%Q -> (0 <= Currency.fmul x k)%Q.
Proof.
  intros Hx Hk. unfold Currency.fmul. rewrite Qred_correct.
  apply Qmult_le_0_compat; assumption.
Qed.

(** X8. [parse_currency] never returns a negative amount: the number it
    reads is a run of digits and dots, and a sign before it is ignored. *)
Theorem parse_currency_nonneg amount x :
  parse_currency amount = Some x -> (0 <= x)%Q.
Proof.
  unfold parse_currency.
  destruct (string_dec amount EmptyString); [discriminate |].
  destruct (Str.search_run _ _) as [run |] eqn:Hrun; [| discriminate].
  destruct (Currency.float_of_decimal run) as [num |] eqn:Hn; [| discriminate].
  pose proof (float_of_decimal_nonneg _ _ (search_run_all _ _ _ Hrun) Hn) as H0.
  repeat (match goal with
          | |- (if ?b then _ else _) = _ -> _ => destruct b
          end);
    intros [= <-]; try assumption; apply fmul_nonneg; try assumption;
    unfold Qle; cbn; lia.
Qed.

(** Without a digit there is no amount. *)
Lemma lower_char_digit c : Str.is_digit (Str.lower_char c) = Str.is_digit c.
Proof. destruct c as [[] [] [] [] [] [] [] []]; reflexivity. Qed.

Lemma all_chars_lower_not_digit s :
  Str.all_chars not_digit s = true ->
  Str.all_chars not_digit (Str.lower s) = true.
Proof.
  induction s as [| c s IH]; [reflexivity |]. cbn. intros H.
  apply andb_true_iff in H as [Hc Hs]. rewrite (IH Hs).
  unfold not_digit in *. rewrite lower_char_digit, Hc. reflexivity.
Qed.

Lemma all_chars_remove_char p c s :
  Str.all_chars p s = true -> Str.all_chars p (Str.remove_char c s) = true.
Proof.
  induction s as [| a s IH]; [reflexivity |]. cbn. intros H.
  apply andb_true_iff in H as [Ha Hs].
  destruct (ascii_dec a c); [apply IH, Hs |]. cbn. rewrite Ha, (IH Hs). reflexivity.
Qed.

Lemma all_chars_lstrip p s :
  Str.all_chars p s = true -> Str.all_chars p (Str.lstrip s) = true.
Proof.
  induction s as [| a s IH]; [reflexivity |]. cbn. intros H.
  destruct (Str.is_space a); [| exact H].
  apply andb_true_iff in H as [_ Hs]. apply IH, Hs.
Qed.

Lemma all_chars_rstrip p s :
  Str.all_chars p s = true -> Str.all_chars p (Str.rstrip s) = true.
Proof.
  induction s as [| a s IH]; [reflexivity |]. cbn. intros H.
  apply andb_true_iff in H as [Ha Hs]. specialize (IH Hs).
  destruct (Str.rstrip s); [destruct (Str.is_space a); cbn; rewrite ?Ha; reflexivity |].
  cbn in *. rewrite Ha, IH. reflexivity.
Qed.

Lemma all_chars_strip p s :
  Str.all_chars p s = true -> Str.all_chars p (Str.strip s) = true.
Proof. intros H. apply all_chars_rstrip, all_chars_lstrip, H. Qed.

Lemma decimal_parts_dots s seen :
  Str.all_chars Currency.is_digit_or_dot s = true ->
  Str.all_chars not_digit s = true ->
  fst (Currency.decimal_parts seen s) = EmptyString.
Proof.
  revert seen. induction s as [| c s IH]; [reflexivity |]. intros seen H1 H2.
  cbn in *. apply andb_true_iff in H1 as [Hc1 Hs1].
  apply andb_true_iff in H2 as [Hc2 Hs2].
  destruct (ascii_dec c ".") as [-> | Hne]; [apply IH; assumption |].
  exfalso. unfold Currency.is_digit_or_dot, not_digit in *.
  destruct (ascii_dec c "."); [contradiction |].
  destruct (Str.is_digit c); discriminate.
Qed.

(** X9. A text without any digit gives no amount, whatever scale words
    or currency symbols it has. *)
Theorem parse_currency_needs_a_digit amount :
  Str.all_chars not_digit amount = true ->
  parse_currency amount = None.
Proof.
  intros H. unfold parse_currency.
  destruct (string_dec amount EmptyString); [reflexivity |].
  destruct (Str.search_run _ _) as [run |] eqn:Hrun; [| reflexivity].
  assert (Hnd : Str.all_chars not_digit run = true).
  { eapply search_run_sub; [| exact Hrun].
    apply all_chars_strip, all_chars_remove_char, all_chars_lower_not_digit, H. }
  pose proof (search_run_all _ _ _ Hrun) as Hdd.
  unfold Currency.float_of_decimal.
  pose proof (decimal_parts_dots run false Hdd Hnd) as He.
  destruct (Currency.decimal_parts false run) as [ds k]. cbn in He. subst ds.
  rewrite andb_false_r. reflexivity.
Qed.

(** ** The normal form of an amount *)

Lemma lower_char_comma c :
  (if ascii_dec (Str.lower_char c) "," then true else false)
  = (if ascii_dec c "," then true else false).
Proof. destruct c as [[] [] [] [] [] [] [] []]; reflexivity. Qed.

Lemma lower_remove_comma s :
  Str.lower (Str.remove_char "," s) = Str.remove_char "," (Str.lower s).
Proof.
  induction s as [| c s IH]; [reflexivity |]. cbn.
  pose proof (lower_char_comma c) as Hc.
  destruct (ascii_dec c ","), (ascii_dec (Str.lower_char c) ",");
    try discriminate Hc; [exact IH |].
  cbn. rewrite IH. reflexivity.
Qed.

Lemma remove_char_all s : Str.all_chars not_comma (Str.remove_char "," s) = true.
Proof.
  induction s as [| c s IH]; [reflexivity |]. cbn.
  destruct (ascii_dec c ",") as [E | NE]; [exact IH |].
  cbn. rewrite IH. unfold not_comma.
  destruct (ascii_dec c ","); [contradiction | reflexivity].
Qed.

Lemma remove_char_none s :
  Str.all_chars not_comma s = true -> Str.remove_char "," s = s.
Proof.
  induction s as [| c s IH]; [reflexivity |]. cbn. intros H.
  apply andb_true_iff in H as [Hc Hs]. unfold not_comma in Hc.
  destruct (ascii_dec c ","); [discriminate Hc |]. rewrite (IH Hs). reflexivity.
Qed.

Lemma normalized_amount_idem s :
  normalized_amount (normalized_amount s) = normalized_amount s.
Proof.
  unfold normalized_amount.
  rewrite lower_strip, lower_remove_comma, lower_idem.
  rewrite (remove_char_none (Str.strip _))
    by (apply all_chars_strip, remove_char_all).
  apply strip_idem.
Qed.

(** X10. [parse_currency] reads an amount as it reads the same text in
    lower case, without commas and without the white space around it:
    thousands separators, letter case and margins never change the
    result. *)
Theorem parse_currency_ignores_commas_and_case amount :
  parse_currency amount = parse_currency (normalized_amount amount).
Proof.
  unfold parse_currency at 2.
  destruct (string_dec (normalized_amount amount) EmptyString) as [E | NE].
  - unfold parse_currency.
    destruct (string_dec amount EmptyString); [reflexivity |].
    fold (normalized_amount amount). rewrite E. reflexivity.
  - fold (normalized_amount (normalized_amount amount)).
    rewrite normalized_amount_idem.
    unfold parse_currency.
    destruct (string_dec amount EmptyString) as [-> | _];
      [exfalso; apply NE; reflexivity | reflexivity].
Qed.

(** ** Fenced answers *)

Lemma split_aux_nonempty sep k s : Str.split_aux sep k s <> [].
Proof.
  revert k. induction s as [| c s IH]; intros k; cbn; [discriminate |].
  destruct k; [| apply IH].
  destruct (Str.startswith sep _); [discriminate |].
  destruct (Str.split_aux sep 0 s); discriminate.
Qed.

(** Before the first backtick nothing is split off. *)
Lemma split_plain_prefix sep a r p ps :
  Str.all_chars not_backtick a = true ->
  Str.split_aux (String "`" sep) 0 r = p :: ps ->
  Str.split_aux (String "`" sep) 0 (a +:+ r) = (a +:+ p) :: ps.
Proof.
  intros H Hr. induction a as [| c a IH]; [exact Hr |].
  cbn in H. apply andb_true_iff in H as [Hc Ha].
  rewrite app_cons. cbn [Str.split_aux Str.startswith].
  unfold not_backtick in Hc.
  destruct (ascii_dec "`" c) as [<- | _]; [discriminate Hc |].
  rewrite (IH Ha). reflexivity.
Qed.

Lemma contains_plain_prefix sep a r :
  Str.all_chars not_backtick a = true ->
  Str.contains (String "`" sep) (a +:+ r) = Str.contains (String "`" sep) r.
Proof.
  induction a as [| c a IH]; intros H; [reflexivity |].
  cbn in H. apply andb_true_iff in H as [Hc Ha].
  rewrite app_cons. cbn [Str.contains Str.startswith].
  unfold not_backtick in Hc.
  destruct (ascii_dec "`" c) as [<- | _]; [discriminate Hc |].
  cbn. apply IH, Ha.
Qed.

Lemma contains_json_fence_plain a r :
  Str.all_chars not_backtick a = true ->
  Str.contains json_fence (a +:+ r) = Str.contains json_fence r.
Proof. exact (contains_plain_prefix _ a r). Qed.

Lemma split_json_fence_plain a r p ps :
  Str.all_chars not_backtick a = true ->
  Str.split_aux json_fence 0 r = p :: ps ->
  Str.split_aux json_fence 0 (a +:+ r) = (a +:+ p) :: ps.
Proof. exact (split_plain_prefix _ a r p ps). Qed.

Lemma split_fence_plain a r p ps :
  Str.all_chars not_backtick a = true ->
  Str.split_aux fence 0 r = p :: ps ->
  Str.split_aux fence 0 (a +:+ r) = (a +:+ p) :: ps.
Proof. exact (split_plain_prefix _ a r p ps). Qed.

Lemma split_json_fence_at r :
  Str.split_aux json_fence 0 (json_fence +:+ r)
  = EmptyString :: Str.split_aux json_fence 0 r.
Proof. reflexivity. Qed.

Lemma split_fence_at r :
  hd EmptyString (Str.split_aux fence 0 (fence +:+ r)) = EmptyString.
Proof. reflexivity. Qed.

Lemma plain_char c post : starts_plain (String c post) = true -> "`"%char <> c.
Proof.
  unfold starts_plain, not_backtick. destruct (ascii_dec c "`"); congruence.
Qed.

(** The piece before the next [```json] of a text that starts with the
    closing fence: empty, or a text that starts with the fence. *)
Lemma first_piece_after_close post :
  starts_plain post = true ->
  let p := hd EmptyString (Str.split_aux json_fence 0 (fence +:+ post)) in
  p = EmptyString \/ exists q, p = fence +:+ q.
Proof.
  intros Hp. cbv zeta.
  change (fence +:+ post) with (String "`" (String "`" (String "`" post))).
  cbn [Str.split_aux].
  destruct (Str.startswith json_fence _); [left; reflexivity |].
  right.
  assert (H2 : Str.startswith json_fence (String "`" (String "`" post)) = false).
  { destruct post as [| c post]; [reflexivity |].
    apply plain_char in Hp. unfold json_fence. cbn [Str.startswith].
    repeat (destruct (ascii_dec _ _); try congruence; try reflexivity). }
  assert (H1 : Str.startswith json_fence (String "`" post) = false).
  { destruct post as [| c post]; [reflexivity |].
    apply plain_char in Hp. unfold json_fence. cbn [Str.startswith].
    repeat (destruct (ascii_dec _ _); try congruence; try reflexivity). }
  rewrite H2, H1.
  pose proof (split_aux_nonempty json_fence 0 post) as Hne.
  destruct (Str.split_aux json_fence 0 post) as [| q qs]; [contradiction |].
  exists q. reflexivity.
Qed.

Lemma strip_fence_inner pre x :
  Str.all_chars not_backtick pre = true ->
  strip_fence (pre +:+ json_fence +:+ x)
  = hd EmptyString
       (Str.split_aux fence 0 (hd EmptyString (Str.split_aux json_fence 0 x))).
Proof.
  intros Hpre. unfold strip_fence, Str.split.
  rewrite (contains_json_fence_plain pre _ Hpre).
  change (Str.contains json_fence (json_fence +:+ x)) with true. cbv iota.
  rewrite (split_json_fence_plain pre _ _ _ Hpre (split_json_fence_at x)).
  pose proof (split_aux_nonempty json_fence 0 x) as Hne.
  destruct (Str.split_aux json_fence 0 x) as [| inner rest]; [contradiction |].
  cbn [hd].
  pose proof (split_aux_nonempty fence 0 inner) as Hne'.
  destruct (Str.split_aux fence 0 inner) as [| body rest']; [contradiction |].
  reflexivity.
Qed.

(** X11. From an answer that wraps its JSON in a Markdown block, the
    extraction keeps the text between the opening [```json] and the
    closing fence, whatever plain prose stands before and after the
    block; when the closing fence is missing it keeps everything after
    the opening one. *)
Theorem strip_fence_takes_the_block pre body post :
  Str.all_chars not_backtick pre = true ->
  Str.all_chars not_backtick body = true ->
  starts_plain post = true ->
  strip_fence (pre +:+ json_fence +:+ body +:+ fence +:+ post) = body
  /\ strip_fence (pre +:+ json_fence +:+ body) = body.
Proof.
  intros Hpre Hbody Hpost. split.
  - rewrite (strip_fence_inner pre _ Hpre).
    pose proof (first_piece_after_close post Hpost) as Hp. cbv zeta in Hp.
    pose proof (split_aux_nonempty json_fence 0 (fence +:+ post)) as Hne.
    destruct (Str.split_aux json_fence 0 (fence +:+ post)) as [| p ps] eqn:E;
      [contradiction |].
    rewrite (split_json_fence_plain body _ _ _ Hbody E).
    cbn [hd] in *.
    destruct Hp as [-> | [q ->]].
    + rewrite (split_fence_plain body EmptyString EmptyString [] Hbody eq_refl).
      cbn. apply app_empty_r.
    + pose proof (split_fence_at q) as Hq.
      pose proof (split_aux_nonempty fence 0 (fence +:+ q)) as Hne'.
      destruct (Str.split_aux fence 0 (fence +:+ q)) as [| b bs] eqn:E';
        [contradiction |].
      rewrite (split_fence_plain body _ _ _ Hbody E').
      cbn in Hq |- *. rewrite Hq. apply app_empty_r.
  - rewrite (strip_fence_inner pre _ Hpre).
    rewrite <- (app_empty_r body) at 1.
    rewrite (split_json_fence_plain body EmptyString EmptyString [] Hbody eq_refl).
    cbn [hd]. rewrite app_empty_r.
    rewrite <- (app_empty_r body) at 1.
    rewrite (split_fence_plain body EmptyString EmptyString [] Hbody eq_refl).
    cbn. apply app_empty_r.
Qed.

(** ** The turns of the stages *)

Section MoreTurns.

Variable llm : string -> option string.
Variable json_loads : string -> option pyval.
Variable today : date.
Variable float_of_str : string -> option Q.
Variable str_of_value : pyval -> string.

Lemma extract_user_info_parsed text response v :
  llm (user_info_prompt text) = Some response ->
  response <> EmptyString ->
  json_loads (Str.strip (strip_fence response)) = Some v ->
  extract_user_info llm json_loads text = v.
Proof.
  intros Hl Hne Hj. unfold extract_user_info. rewrite Hl.
  destruct (string_dec response EmptyString); [contradiction |].
  rewrite Hj. reflexivity.
Qed.

(** X12. In stage [GET_USER_INFO], when the answer parses to a JSON
    object with the four required fields, the turn stores a new user
    with an empty list of goals, whose date of birth is what
    [parse_date] makes of the [date_of_birth] field ([None] when it
    cannot be read), links it to the extracted information, moves to
    [GET_GOAL_TYPE] and asks for the kind of goal.  When [parse_date]
    raises, the turn raises the same exception and changes nothing. *)
Theorem identity_turn_creates_user st h i response d first last dob_text mail :
  infos h !! extracted_information st = Some i ->
  conversation_stage i = GET_USER_INFO ->
  stops st = false ->
  llm (user_info_prompt (last_message st)) = Some response ->
  response <> EmptyString ->
  json_loads (Str.strip (strip_fence response)) = Some (VDict d) ->
  Py.get "first_name" d = Some first ->
  Py.get "last_name" d = Some last ->
  Py.get "date_of_birth" d = Some dob_text ->
  Py.get "email" d = Some mail ->
  let u := fresh (dom (users h)) in
  users h !! u = None
  /\ chat_response llm json_loads today float_of_str str_of_value st h
     = match parse_date today dob_text with
       | Ok dob =>
           Some (Ok (mkState false (messages st ++ new_messages st)
                             [ai ask_goal_type_text] (extracted_information st)),
                 with_info (extracted_information st)
                   (mkInfo (Some u) (pending_goal i) GET_GOAL_TYPE)
                   (with_user u (mkUser first last dob mail []) h))
       | Raise e => Some (Raise e, h)
       end.
Proof.
  intros Hi Hc Hs Hr Hne Hj Hf Hl Hd Hm u. split.
  { apply not_elem_of_dom. apply is_fresh. }
  pose proof (extract_user_info_parsed _ _ _ Hr Hne Hj) as He.
  unfold stops in Hs. unfold chat_response. rewrite Hs.
  munfold. rewrite Hi, Hc, He.
  unfold required_user_fields, Dyn.all_in, Dyn.contains_key, Py.mem, Dyn.getitem.
  rewrite Hf, Hl, Hd, Hm.
  destruct (parse_date today dob_text) as [dob | e]; [| reflexivity].
  cbn. rewrite Hi. cbn. rewrite !lookup_insert_eq. cbn.
  rewrite !lookup_insert_eq. cbn.
  unfold with_info, with_user. cbn. rewrite !insert_insert_eq. reflexivity.
Qed.

(** X13. In stage [GET_USER_INFO], when the answer parses to a JSON
    object that lacks one of the four required fields, the turn creates
    no user, stays in the stage and asks for the identity again: what
    the answer does contain is dropped. *)
Theorem identity_turn_needs_every_field st h i response d k :
  infos h !! extracted_information st = Some i ->
  conversation_stage i = GET_USER_INFO ->
  stops st = false ->
  llm (user_info_prompt (last_message st)) = Some response ->
  response <> EmptyString ->
  json_loads (Str.strip (strip_fence response)) = Some (VDict d) ->
  In k required_user_fields ->
  Py.mem k d = false ->
  chat_response llm json_loads today float_of_str str_of_value st h
  = Some (Ok (mkState false (messages st ++ new_messages st)
                      [ai ask_user_info_text] (extracted_information st)), h).
Proof.
  intros Hi Hc Hs Hr Hne Hj Hk Hmem.
  pose proof (extract_user_info_parsed _ _ _ Hr Hne Hj) as He.
  unfold stops in Hs. unfold chat_response. rewrite Hs.
  munfold. rewrite Hi, Hc, He.
  assert (Hall : Dyn.all_in required_user_fields (VDict d) = Ok false).
  { unfold required_user_fields in *. cbn in Hk. cbn [Dyn.all_in Dyn.contains_key].
    destruct Hk as [<- | [<- | [<- | [<- | []]]]]; rewrite ?Hmem;
      repeat (destruct (Py.mem _ d); try reflexivity); congruence. }
  rewrite Hall. cbn. rewrite Hi, Hc. reflexivity.
Qed.

(** X14. In stage [GET_USER_INFO], when the answer parses to [null], a
    boolean or a number, the membership test on it raises [TypeError]:
    the turn raises it and changes nothing. *)
Theorem identity_turn_raises_on_scalar st h i response v :
  infos h !! extracted_information st = Some i ->
  conversation_stage i = GET_USER_INFO ->
  stops st = false ->
  llm (user_info_prompt (last_message st)) = Some response ->
  response <> EmptyString ->
  json_loads (Str.strip (strip_fence response)) = Some v ->
  match v with VDict _ | VList _ | VStr _ => False | _ => True end ->
  chat_response llm json_loads today float_of_str str_of_value st h
  = Some (Raise TypeError, h).
Proof.
  intros Hi Hc Hs Hr Hne Hj Hv.
  pose proof (extract_user_info_parsed _ _ _ Hr Hne Hj) as He.
  unfold stops in Hs. unfold chat_response. rewrite Hs.
  munfold. rewrite Hi, Hc, He.
  destruct v; try contradiction; reflexivity.
Qed.

(** X15. In stage [GET_GOAL_TYPE] every utterance that is not a stop
    command starts a goal: a new home when the utterance, in lower case,
    contains "home"; else a new car when it contains "car"; else a goal
    of the kind other.  The new goal has no details, becomes the pending
    goal, and the turn moves to [GET_GOAL_DETAILS] with the question of
    that kind. *)
Theorem goal_type_turn st h i :
  infos h !! extracted_information st = Some i ->
  conversation_stage i = GET_GOAL_TYPE ->
  stops st = false ->
  let text := Str.lower (last_message st) in
  let '(kind, name, question) :=
    if Str.contains "home" text then (NEW_HOME, "Buy a new home", ask_home_text)
    else if Str.contains "car" text then (NEW_CAR, "Buy a new car", ask_car_text)
    else (OTHER, "Other financial goal", ask_other_text) in
  let g := fresh (dom (goal_objects h)) in
  goal_objects h !! g = None
  /\ chat_response llm json_loads today float_of_str str_of_value st h
     = Some (Ok (mkState false (messages st ++ new_messages st)
                         [ai question] (extracted_information st)),
             with_info (extracted_information st)
               (mkInfo (user i) (Some g) GET_GOAL_DETAILS)
               (with_goal g (mkGoal kind name None) h)).
Proof.
  intros Hi Hc Hs text.
  assert (Hfresh : goal_objects h !! fresh (dom (goal_objects h)) = None)
    by (apply not_elem_of_dom, is_fresh).
  unfold stops in Hs. unfold chat_response. rewrite Hs.
  munfold. rewrite Hi, Hc. fold text.
  destruct (Str.contains "home" text); [| destruct (Str.contains "car" text)].
  all: split; [exact Hfresh |].
  all: cbn; rewrite Hi; cbn; rewrite !lookup_insert_eq; cbn;
       rewrite !lookup_insert_eq; cbn;
       unfold with_info, with_goal; cbn; rewrite !insert_insert_eq; reflexivity.
Qed.

(** X16. In stage [ADD_ANOTHER_GOAL] an utterance that starts with "y"
    or "Y" leads back to [GET_GOAL_TYPE]; every other utterance
    completes the conversation with the closing message and the
    [finished] flag set.  Nothing else of the store changes. *)
Theorem add_another_goal_turn st h i :
  infos h !! extracted_information st = Some i ->
  conversation_stage i = ADD_ANOTHER_GOAL ->
  stops st = false ->
  chat_response llm json_loads today float_of_str str_of_value st h
  = if Str.startswith "y" (Str.lower (last_message st)) then
      Some (Ok (mkState false (messages st ++ new_messages st)
                        [ai ask_next_goal_text] (extracted_information st)),
            with_info (extracted_information st)
                      (mkInfo (user i) (pending_goal i) GET_GOAL_TYPE) h)
    else
      Some (Ok (mkState true (messages st ++ new_messages st)
                        [ai closing_text] (extracted_information st)),
            with_info (extracted_information st)
                      (mkInfo (user i) (pending_goal i) COMPLETED) h).
Proof.
  intros Hi Hc Hs. unfold stops in Hs. unfold chat_response. rewrite Hs.
  munfold. rewrite Hi, Hc.
  destruct (Str.startswith "y" _); rewrite Hi; cbn; rewrite !lookup_insert_eq;
    reflexivity.
Qed.

End MoreTurns.

(** ** The turn that collects the details of a goal *)



Section GoalDetails.

Variable llm : string -> option string.
Variable json_loads : string -> option pyval.
Variable today : date.
Variable float_of_str : string -> option Q.
Variable str_of_value : pyval -> string.

(** [float] of an integer raises exactly beyond the range of a double. *)
Lemma py_float_int z :
  py_float float_of_str (VInt z)
  = if Z.abs z <? float_overflow then Ok (inject_Z z) else Raise OverflowError.
Proof. reflexivity. Qed.

Lemma py_float_huge : py_float float_of_str (VInt (10 ^ 309)) = Raise OverflowError.
Proof. vm_compute. reflexivity. Qed.

(** The re-prompt and the confirmation of a turn in [GET_GOAL_DETAILS]. *)
Lemma goal_details_turn st h i g G :
  infos h !! extracted_information st = Some i ->
  conversation_stage i = GET_GOAL_DETAILS ->
  pending_goal i = Some g ->
  goal_objects h !! g = Some G ->
  stops st = false ->
  chat_response llm json_loads today float_of_str str_of_value st h
  = match extract_goal_details llm json_loads today (last_message st) (goal_type G) with
    | Some data =>
        if Py.truthy data then
          match build_info today float_of_str (goal_type G) data with
          | Ok details =>
              Some (Ok (mkState false (messages st ++ new_messages st)
                                [ai (confirm_text str_of_value details)]
                                (extracted_information st)),
                    with_info (extracted_information st)
                      (mkInfo (user i) (Some g) CONFIRM_GOAL)
                      (with_goal g (mkGoal (goal_type G) (goal_name G) (Some details)) h))
          | Raise e => Some (Raise e, h)
          end
        else
          Some (Ok (mkState false (messages st ++ new_messages st)
                            [ai (retry_text (goal_type G))]
                            (extracted_information st)), h)
    | None =>
        Some (Ok (mkState false (messages st ++ new_messages st)
                          [ai (retry_text (goal_type G))]
                          (extracted_information st)), h)
    end.
Proof.
  intros Hi Hc Hp HG Hs.
  unfold stops in Hs. unfold chat_response. rewrite Hs.
  munfold. rewrite Hi, Hc, Hi, Hp, HG.
  destruct (extract_goal_details _ _ _ _ _) as [data |]; cbn [some_truthy].
  - destruct (Py.truthy data).
    + change (default VNone (Some data)) with data.
      destruct (build_info _ _ _ _) as [details | e]; [| reflexivity].
      rewrite HG. cbn. rewrite Hi. cbn. rewrite ?lookup_insert_eq. cbn.
      unfold with_info, with_goal. cbn. rewrite ?Hp. reflexivity.
    + rewrite Hi, Hc. reflexivity.
  - rewrite Hi, Hc. reflexivity.
Qed.


(** X18. In stage [GET_GOAL_DETAILS], when the extracted object holds,
    as the price of the goal, a value that [float] rejects (a text that
    is no number, [null], an array, an object, an integer beyond the
    range of a float), the turn raises the exception of [float] and
    changes nothing: [parse_currency] is not consulted. *)
Theorem goal_details_turn_raises_on_bad_amount st h i g G d v e :
  infos h !! extracted_information st = Some i ->
  conversation_stage i = GET_GOAL_DETAILS ->
  pending_goal i = Some g ->
  goal_objects h !! g = Some G ->
  stops st = false ->
  extract_goal_details llm json_loads today (last_message st) (goal_type G)
  = Some (VDict d) ->
  Py.get (price_key_of (goal_type G)) d = Some v ->
  py_float float_of_str v = Raise e ->
  chat_response llm json_loads today float_of_str str_of_value st h
  = Some (Raise e, h).
Proof.
  intros Hi Hc Hp HG Hs He Hv Hf.
  rewrite (goal_details_turn st h i g G Hi Hc Hp HG Hs), He.
  assert (Ht : Py.truthy (VDict d) = true).
  { destruct d; [discriminate Hv | reflexivity]. }
  rewrite Ht.
  unfold build_info, Dyn.get, Py.get_default.
  destruct (goal_type G); cbn [price_key_of rbind] in *; rewrite Hv;
    cbv [default from_option id]; rewrite Hf; reflexivity.
Qed.

(** X19. In stage [GET_GOAL_DETAILS], an answer that parses to something
    else than a JSON object never gives details.  A false value, a value
    on which the search for the date keys fails, or one in which a date
    key is found, leads to the re-prompt of the kind of goal; any other
    value (a non-empty array or text without the date keys) makes the
    turn raise [AttributeError].  The store is unchanged in both cases. *)
Theorem goal_details_answer_must_be_an_object st h i g G response data :
  infos h !! extracted_information st = Some i ->
  conversation_stage i = GET_GOAL_DETAILS ->
  pending_goal i = Some g ->
  goal_objects h !! g = Some G ->
  stops st = false ->
  llm (goal_prompt today (last_message st) (goal_type G)) = Some response ->
  response <> EmptyString ->
  json_loads (Str.strip (strip_fence response)) = Some data ->
  (forall d, data <> VDict d) ->
  chat_response llm json_loads today float_of_str str_of_value st h
  = Some (if gives_nothing data
          then Ok (mkState false (messages st ++ new_messages st)
                           [ai (retry_text (goal_type G))]
                           (extracted_information st))
          else Raise AttributeError, h).
Proof.
  intros Hi Hc Hp HG Hs Hl Hne Hj Hnd.
  rewrite (goal_details_turn st h i g G Hi Hc Hp HG Hs).
  rewrite (extract_goal_details_parsed _ _ _ _ _ _ _ Hl Hne Hj).
  unfold validate_dates, gives_nothing.
  destruct data as [| b | z | q | s | l | d]; try reflexivity.
  - cbn [Dyn.contains_key].
    destruct (Str.contains "purchase_date" s); [reflexivity |].
    destruct (Str.contains "target_date" s); [reflexivity |].
    destruct (Py.truthy (VStr s)); [| reflexivity].
    cbn. destruct (goal_type G); reflexivity.
  - cbn [Dyn.contains_key].
    destruct (existsb _ l); [reflexivity |].
    destruct (existsb _ l); [reflexivity |].
    destruct (Py.truthy (VList l)); [| reflexivity].
    cbn. destruct (goal_type G); reflexivity.
  - exfalso. exact (Hnd d eq_refl).
Qed.

End GoalDetails.

(** ** The shape of a turn *)

Section TurnShape.

Variable llm : string -> option string.
Variable json_loads : string -> option pyval.
Variable today : date.
Variable float_of_str : string -> option Q.
Variable str_of_value : pyval -> string.

(** X20. A turn that returns follows the stage graph: a stop command
    leads to [COMPLETED]; otherwise [GET_USER_INFO] stays or moves to
    [GET_GOAL_TYPE], [GET_GOAL_TYPE] moves to [GET_GOAL_DETAILS], which
    stays or moves to [CONFIRM_GOAL], which moves to [ADD_ANOTHER_GOAL]
    or back to [GET_GOAL_TYPE], [ADD_ANOTHER_GOAL] moves to
    [GET_GOAL_TYPE] or [COMPLETED], and [COMPLETED] stays.  Outside
    [GET_USER_INFO] the user of the conversation is never replaced. *)
Theorem turn_follows_stage_graph st h st' h' i i' :
  chat_response llm json_loads today float_of_str str_of_value st h
  = Some (Ok st', h') ->
  infos h !! extracted_information st = Some i ->
  infos h' !! extracted_information st' = Some i' ->
  may_follow (stops st) (conversation_stage i) (conversation_stage i') = true
  /\ (conversation_stage i <> GET_USER_INFO -> user i' = user i).
Proof.
  intros H Hi Hi'. unfold stops. turn_cases H. all: heap_simpl_all.
  all: cbn [extracted_information] in *; heap_simpl_all.
  all: cbn [may_follow conversation_stage user pending_goal].
  all: repeat match goal with
              | H : is_stop_command _ = _ |- _ => rewrite H; clear H
              | H : conversation_stage _ = _ |- _ => rewrite H; clear H
              end.
  all: cbn [may_follow].
  all: split; [try reflexivity | try congruence].
  all: try (destruct (conversation_stage _); reflexivity).
  all: try (apply bool_decide_eq_true_2; reflexivity).
Qed.

(** X21. In the state a turn returns, [finished] holds exactly when the
    stage is [COMPLETED]; the new messages are all from the assistant
    and there is at most one; and there is none exactly when the
    conversation was already completed and the utterance is not a stop
    command. *)
Theorem turn_output st h st' h' i i' :
  chat_response llm json_loads today float_of_str str_of_value st h
  = Some (Ok st', h') ->
  infos h !! extracted_information st = Some i ->
  infos h' !! extracted_information st' = Some i' ->
  finished st' = bool_decide (conversation_stage i' = COMPLETED)
  /\ Forall (fun m => sender m = AI) (new_messages st')
  /\ (length (new_messages st') <= 1)%nat
  /\ (new_messages st' = [] <->
      stops st = false /\ conversation_stage i = COMPLETED).
Proof.
  intros H Hi Hi'. unfold stops. turn_cases H. all: heap_simpl_all.
  all: cbn [finished new_messages extracted_information conversation_stage] in *.
  all: heap_simpl_all.
  all: repeat match goal with
              | H : is_stop_command _ = _ |- _ => rewrite H; clear H
              | H : conversation_stage _ = _ |- _ => rewrite H in *; clear H
              end.
  all: cbn [conversation_stage length].
  all: split; [reflexivity |].
  all: split; [repeat constructor |].
  all: split; [lia |].
  all: split; [try discriminate | intros [? ?]; try discriminate; try reflexivity].
  all: try (intros _; split; reflexivity).
Qed.

End TurnShape.

(** ** Well-formed stores *)

Lemma detailed_goal_fresh h g G x :
  goal_objects h !! g = None ->
  detailed_goal h x -> detailed_goal (with_goal g G h) x.
Proof.
  intros Hg (g0 & G0 & d & -> & HG0 & Hd). exists g0, G0, d.
  split; [reflexivity |]. split; [| assumption].
  cbn. rewrite lookup_insert_ne; [assumption | congruence].
Qed.

Lemma detailed_goal_set h g G d x :
  goal_specific_information G = Some d ->
  detailed_goal h x -> detailed_goal (with_goal g G h) x.
Proof.
  intros HG (g0 & G0 & d0 & -> & HG0 & Hd).
  destruct (decide (g = g0)) as [-> | Hne].
  - exists g0, G, d. cbn. rewrite lookup_insert_eq. auto.
  - exists g0, G0, d0. cbn. rewrite lookup_insert_ne by assumption. auto.
Qed.

Lemma consistent_with_info h l x i :
  consistent h i -> consistent (with_info l x h) i.
Proof. intros [? ? ? ? ?]. constructor; assumption. Qed.

Lemma consistent_completed h i :
  consistent h i ->
  consistent h (mkInfo (user i) (pending_goal i) COMPLETED).
Proof.
  intros [Hnu Hfs Hu Hp Hc]. constructor; cbn; try discriminate; auto.
  intros g Hg. destruct (Hp g Hg) as (G & HG & _). exists G.
  split; [assumption | discriminate].
Qed.

Lemma consistent_new_user h i U :
  consistent h i ->
  conversation_stage i = GET_USER_INFO ->
  goals U = [] ->
  consistent (with_user (fresh (dom (users h))) U h)
             (mkInfo (Some (fresh (dom (users h)))) (pending_goal i) GET_GOAL_TYPE).
Proof.
  intros [Hnu Hfs Hu Hp Hc] Hs HU. destruct (Hfs Hs) as [_ Hpn].
  constructor; cbn; try discriminate.
  - intros u [= <-]. exists U. rewrite lookup_insert_eq, HU.
    split; [reflexivity | constructor].
  - rewrite Hpn. discriminate.
Qed.

Lemma consistent_new_goal h i G :
  consistent h i ->
  conversation_stage i = GET_GOAL_TYPE ->
  consistent (with_goal (fresh (dom (goal_objects h))) G h)
             (mkInfo (user i) (Some (fresh (dom (goal_objects h)))) GET_GOAL_DETAILS).
Proof.
  intros [Hnu Hfs Hu Hp Hc] Hs.
  assert (Hfresh : goal_objects h !! fresh (dom (goal_objects h)) = None)
    by (apply not_elem_of_dom, is_fresh).
  constructor; cbn; try discriminate.
  - intros E. destruct (Hnu E); congruence.
  - intros u E. destruct (Hu u E) as (U & HU & HF). exists U.
    split; [assumption |].
    eapply Forall_impl; [exact HF |]. intros x. apply detailed_goal_fresh, Hfresh.
  - intros g [= <-]. exists G. rewrite lookup_insert_eq.
    split; [reflexivity | discriminate].
  - intros _. eexists. reflexivity.
Qed.

Lemma consistent_details h i g G d :
  consistent h i ->
  conversation_stage i = GET_GOAL_DETAILS ->
  pending_goal i = Some g ->
  consistent (with_goal g (mkGoal (goal_type G) (goal_name G) (Some d)) h)
             (mkInfo (user i) (pending_goal i) CONFIRM_GOAL).
Proof.
  intros [Hnu Hfs Hu Hp Hc] Hs Hg.
  constructor; cbn; try discriminate.
  - intros E. destruct (Hnu E); congruence.
  - intros u E. destruct (Hu u E) as (U & HU & HF). exists U.
    split; [assumption |].
    eapply Forall_impl; [exact HF |]. intros x.
    apply (detailed_goal_set h g _ d). reflexivity.
  - intros g0 E. rewrite Hg in E. injection E as <-.
    eexists. rewrite lookup_insert_eq. split; [reflexivity |].
    intros _. eexists. reflexivity.
  - intros _. rewrite Hg. eexists. reflexivity.
Qed.

Lemma consistent_saved h i u U :
  consistent h i ->
  conversation_stage i = CONFIRM_GOAL ->
  user i = Some u ->
  users h !! u = Some U ->
  consistent (with_user u (mkUser (first_name U) (last_name U) (date_of_birth U)
                                  (email U) (goals U ++ [pending_goal i])) h)
             (mkInfo (user i) None ADD_ANOTHER_GOAL).
Proof.
  intros [Hnu Hfs Hu Hp Hc] Hs Hui HU.
  constructor; cbn; try discriminate.
  - rewrite Hui. discriminate.
  - intros u0 E. rewrite Hui in E. injection E as <-.
    eexists. rewrite lookup_insert_eq. split; [reflexivity |]. cbn.
    destruct (Hu u Hui) as (U' & HU' & HF). rewrite HU in HU'.
    injection HU' as <-.
    apply Forall_app. split; [exact HF |]. constructor; [| constructor].
    destruct (Hc ltac:(rewrite Hs; reflexivity)) as [g Hg].
    destruct (Hp g Hg) as (G & HG & Hd). destruct (Hd Hs) as [d Hdd].
    exists g, G, d. auto.
Qed.

Lemma consistent_discarded h i :
  consistent h i ->
  conversation_stage i = CONFIRM_GOAL ->
  consistent h (mkInfo (user i) None GET_GOAL_TYPE).
Proof.
  intros [Hnu Hfs Hu Hp Hc] Hs.
  constructor; cbn; try discriminate; auto.
  intros E. destruct (Hnu E); congruence.
Qed.

Lemma consistent_after_saving h i s :
  consistent h i ->
  conversation_stage i = ADD_ANOTHER_GOAL ->
  s = GET_GOAL_TYPE \/ s = COMPLETED ->
  consistent h (mkInfo (user i) (pending_goal i) s).
Proof.
  intros [Hnu Hfs Hu Hp Hc] Hs Hss.
  constructor; cbn; auto.
  - intros E. destruct (Hnu E); congruence.
  - intros ->. destruct Hss; discriminate.
  - intros g Hg. destruct (Hp g Hg) as (G & HG & _). exists G.
    split; [assumption |]. intros ->. destruct Hss; discriminate.
  - destruct Hss as [-> | ->]; discriminate.
Qed.

Section Consistent.

Variable llm : string -> option string.
Variable json_loads : string -> option pyval.
Variable today : date.
Variable float_of_str : string -> option Q.
Variable str_of_value : pyval -> string.

Lemma turn_keeps_consistent st h r h' i :
  infos h !! extracted_information st = Some i ->
  consistent h i ->
  chat_response llm json_loads today float_of_str str_of_value st h
  = Some (r, h') ->
  exists i', infos h' !! extracted_information st = Some i' /\ consistent h' i'.
Proof.
  intros Hi Hcons H. turn_cases H. all: heap_simpl_all.
  all: eexists; (split; [first [eassumption | apply infos_with_info] |]).
  all: try assumption.
  all: repeat apply consistent_with_info.
  all: cbn [user pending_goal conversation_stage].
  all: try (apply consistent_completed; assumption).
  all: try (apply consistent_new_user; [assumption | assumption | reflexivity]).
  all: try (apply consistent_new_goal; assumption).
  all: try (eapply consistent_details; eassumption).
  all: try (apply consistent_saved; assumption).
  all: try (apply consistent_discarded; assumption).
  all: try (apply consistent_after_saving; auto).
Qed.

End Consistent.

Lemma consistent_new_conversation h0 st h :
  new_conversation h0 = Some (Ok st, h) ->
  exists i, infos h !! extracted_information st = Some i /\ consistent h i.
Proof.
  intros Hnew. exists (mkInfo None None GET_USER_INFO).
  split; [exact (new_conversation_info _ _ _ Hnew) |].
  constructor; cbn; try discriminate; auto.
Qed.

Lemma reachable_is_consistent h st :
  reachable h st ->
  exists i, infos h !! extracted_information st = Some i /\ consistent h i.
Proof.
  intros Hr. induction Hr as
    [h0 st h Hnew
    | llm json_loads today float_of_str str_of_value h st u st' h' Hr IH Hturn
    | llm json_loads today float_of_str str_of_value h st u e h' Hr IH Hturn].
  - exact (consistent_new_conversation _ _ _ Hnew).
  - destruct IH as (i & Hi & Hc). unfold advance in Hturn.
    destruct (turn_result _ _ _ _ _ _ _ _ _ Hturn) as [Hl _].
    rewrite Hl.
    exact (turn_keeps_consistent llm json_loads today float_of_str str_of_value
             (with_utterance st u) _ _ _ _ Hi Hc Hturn).
  - destruct IH as (i & Hi & Hc). unfold advance in Hturn.
    exact (turn_keeps_consistent llm json_loads today float_of_str str_of_value
             (with_utterance st u) _ _ _ _ Hi Hc Hturn).
Qed.

(** X22. In every state a conversation reaches, the extracted
    information is well formed: there is no user only in [GET_USER_INFO]
    or after an early stop; in [GET_USER_INFO] there is neither user nor
    pending goal; the user and the pending goal refer to objects of the
    store; every goal saved in the user's list has its details, and so
    has the pending goal in [CONFIRM_GOAL]; and in [GET_GOAL_DETAILS]
    and [CONFIRM_GOAL] there is a pending goal. *)
Theorem reachable_states_are_well_formed h st :
  reachable h st ->
  exists i,
    infos h !! extracted_information st = Some i
    /\ (user i = None ->
        conversation_stage i = GET_USER_INFO \/ conversation_stage i = COMPLETED)
    /\ (conversation_stage i = GET_USER_INFO ->
        user i = None /\ pending_goal i = None)
    /\ (forall u, user i = Some u ->
          exists U, users h !! u = Some U /\ Forall (detailed_goal h) (goals U))
    /\ (forall g, pending_goal i = Some g ->
          exists G, goal_objects h !! g = Some G
                    /\ (conversation_stage i = CONFIRM_GOAL ->
                        is_Some (goal_specific_information G)))
    /\ (collecting_goal (conversation_stage i) = true -> is_Some (pending_goal i)).
Proof.
  intros Hr.
  destruct (reachable_is_consistent h st Hr) as (i & Hi & [Hnu Hfs Hu Hp Hcol]).
  exists i. split; [exact Hi |].
  split; [exact Hnu |]. split; [exact Hfs |]. split; [exact Hu |].
  split; [exact Hp | exact Hcol].
Qed.

Lemma goal_type_turn_returns
    llm json_loads today float_of_str str_of_value st h i :
  infos h !! extracted_information st = Some i ->
  conversation_stage i = GET_GOAL_TYPE ->
  stops st = false ->
  exists st' h',
    chat_response llm json_loads today float_of_str str_of_value st h
    = Some (Ok st', h').
Proof.
  intros Hi Hc Hs. unfold stops in Hs. unfold chat_response. rewrite Hs.
  munfold. rewrite Hi, Hc.
  destruct (Str.contains "home" _); [| destruct (Str.contains "car" _)].
  all: cbn; rewrite Hi; cbn; rewrite !lookup_insert_eq; cbn;
       rewrite !lookup_insert_eq; cbn; eauto.
Qed.

Lemma add_another_turn_returns
    llm json_loads today float_of_str str_of_value st h i :
  infos h !! extracted_information st = Some i ->
  conversation_stage i = ADD_ANOTHER_GOAL ->
  stops st = false ->
  exists st' h',
    chat_response llm json_loads today float_of_str str_of_value st h
    = Some (Ok st', h').
Proof.
  intros Hi Hc Hs. unfold stops in Hs. unfold chat_response. rewrite Hs.
  munfold. rewrite Hi, Hc.
  destruct (Str.startswith "y" _); rewrite Hi; cbn; rewrite !lookup_insert_eq;
    eauto.
Qed.

Lemma consistent_turn_returns
    llm json_loads today float_of_str str_of_value h st i :
  infos h !! extracted_information st = Some i ->
  consistent h i ->
  (exists r h',
     chat_response llm json_loads today float_of_str str_of_value st h
     = Some (r, h'))
  /\ (stops st = true
      \/ (conversation_stage i <> GET_USER_INFO
          /\ conversation_stage i <> GET_GOAL_DETAILS) ->
      exists st' h',
        chat_response llm json_loads today float_of_str str_of_value st h
        = Some (Ok st', h')).
Proof.
  intros Hi1 Hc.
  destruct (stops st) eqn:Hs.
  { rewrite (turn_stop _ _ _ _ _ _ _ _ Hi1 Hs). split; eauto. }
  destruct Hc as [Hnu Hfs Hu Hp Hcol].
  destruct (conversation_stage i) eqn:Hst.
  - split; [| intros [? | [? _]]; congruence].
    destruct (chat_response _ _ _ _ _ st h) as [[r h'] |] eqn:E; [eauto |].
    exfalso. unfold chat_response in E. unfold stops in Hs. rewrite Hs in E.
    munfold. rewrite Hi1, Hst in E.
    destruct (Dyn.all_in _ _) as [[|] | ?];
      [| cbn in E; rewrite Hi1 in E; discriminate | discriminate].
    repeat (match type of E with
            | context [ match ?x with Ok _ => _ | Raise _ => _ end ] =>
                destruct x; [| discriminate]
            end).
    cbn in E. rewrite Hi1 in E. cbn in E. rewrite !lookup_insert_eq in E.
    cbn in E. rewrite !lookup_insert_eq in E. discriminate.
  - destruct (goal_type_turn_returns llm json_loads today float_of_str str_of_value
                _ _ _ Hi1 Hst Hs) as (st' & h' & E).
    rewrite E. split; eauto.
  - split; [| intros [? | [_ ?]]; congruence].
    destruct (Hcol ltac:(reflexivity)) as [g Hg].
    destruct (Hp g Hg) as (G & HG & _).
    destruct (chat_response _ _ _ _ _ st h) as [[r h'] |] eqn:E; [eauto |].
    exfalso. unfold chat_response in E. unfold stops in Hs. rewrite Hs in E.
    munfold. rewrite Hi1, Hst, Hi1, Hg, HG in E.
    destruct (some_truthy _); [| cbn in E; rewrite Hi1 in E; discriminate].
    destruct (build_info _ _ _ _); [| discriminate].
    rewrite HG in E. cbn in E. rewrite Hi1 in E. cbn in E.
    rewrite !lookup_insert_eq in E. discriminate.
  - destruct (Hcol ltac:(reflexivity)) as [g Hg].
    destruct (user i) as [u |] eqn:Hui; [| destruct (Hnu eq_refl); congruence].
    destruct (Hu u eq_refl) as (U & HU & _).
    rewrite (turn_confirm _ _ _ _ _ _ _ _ _ _ _ Hi1 Hst Hg Hui HU Hs).
    destruct (Str.startswith _ _); split; eauto.
  - destruct (add_another_turn_returns llm json_loads today float_of_str str_of_value
                _ _ _ Hi1 Hst Hs) as (st' & h' & E).
    rewrite E. split; eauto.
  - rewrite (turn_completed _ _ _ _ _ _ _ _ Hi1 Hst Hs). split; eauto.
Qed.

(** X23. From every state a conversation reaches, a turn on any
    utterance has an outcome, a returned state or an exception: it never
    follows a reference that leads to no object. *)
Theorem reachable_turn_has_an_outcome
    llm json_loads today float_of_str str_of_value h st utterance :
  reachable h st ->
  exists r h',
    advance llm json_loads today float_of_str str_of_value st utterance h
    = Some (r, h').
Proof.
  intros Hr. destruct (reachable_is_consistent _ _ Hr) as (i & Hi & Hc).
  exact (proj1 (consistent_turn_returns llm json_loads today float_of_str
                  str_of_value h (with_utterance st utterance) i Hi Hc)).
Qed.

(** X24. From every state a conversation reaches, a turn returns a
    state, without raising, whenever the utterance is a stop command or
    the stage is neither [GET_USER_INFO] nor [GET_GOAL_DETAILS]: only
    the two stages that work on the model's answer can raise. *)
Theorem reachable_turn_returns
    llm json_loads today float_of_str str_of_value h st i utterance :
  reachable h st ->
  infos h !! extracted_information st = Some i ->
  stops (with_utterance st utterance) = true
  \/ (conversation_stage i <> GET_USER_INFO
      /\ conversation_stage i <> GET_GOAL_DETAILS) ->
  exists st' h',
    advance llm json_loads today float_of_str str_of_value st utterance h
    = Some (Ok st', h').
Proof.
  intros Hr Hi. destruct (reachable_is_consistent _ _ Hr) as (i0 & Hi0 & Hc).
  rewrite Hi in Hi0. injection Hi0 as <-.
  exact (proj2 (consistent_turn_returns llm json_loads today float_of_str
                  str_of_value h (with_utterance st utterance) i Hi Hc)).
Qed.

(** ** The further properties at sample inputs *)

Lemma identity_turn_creates_user_sample :
  users Sample.h0 !! fresh (dom (users Sample.h0)) = None
  /\ chat_response (Sample.answers "ok") (Sample.parses_to Sample.identity)
       Sample.day Sample.no_float Sample.show
       (with_utterance Sample.st0 Sample.utterance1) Sample.h0
     = match parse_date Sample.day (VStr "1990-05-01") with
       | Ok dob =>
           Some (Ok (mkState false
                       (messages (with_utterance Sample.st0 Sample.utterance1)
                        ++ new_messages (with_utterance Sample.st0 Sample.utterance1))
                       [ai ask_goal_type_text] 1%positive),
                 with_info 1%positive
                   (mkInfo (Some (fresh (dom (users Sample.h0)))) None GET_GOAL_TYPE)
                   (with_user (fresh (dom (users Sample.h0)))
                      (mkUser (VStr "John") (VStr "Smith") dob
                              (VStr "john@example.com") [])
                      Sample.h0))
       | Raise e => Some (Raise e, Sample.h0)
       end.
Proof.
  apply (identity_turn_creates_user
           (Sample.answers "ok") (Sample.parses_to Sample.identity)
           Sample.day Sample.no_float Sample.show
           (with_utterance Sample.st0 Sample.utterance1) Sample.h0
           (mkInfo None None GET_USER_INFO) "ok" Example.identity_fields
           (VStr "John") (VStr "Smith") (VStr "1990-05-01")
           (VStr "john@example.com")).
  - vm_compute. reflexivity.
  - reflexivity.
  - vm_compute. reflexivity.
  - reflexivity.
  - discriminate.
  - reflexivity.
  - reflexivity.
  - reflexivity.
  - reflexivity.
  - reflexivity.
Defined.

Lemma identity_turn_needs_every_field_sample :
  chat_response (Sample.answers "ok")
    (Sample.parses_to (VDict Example.first_name_only))
    Sample.day Sample.no_float Sample.show
    (with_utterance Sample.st0 "John") Sample.h0
  = Some (Ok (mkState false
                (messages (with_utterance Sample.st0 "John")
                 ++ new_messages (with_utterance Sample.st0 "John"))
                [ai ask_user_info_text] 1%positive),
          Sample.h0).
Proof.
  apply (identity_turn_needs_every_field
           (Sample.answers "ok") (Sample.parses_to (VDict Example.first_name_only))
           Sample.day Sample.no_float Sample.show
           (with_utterance Sample.st0 "John") Sample.h0
           (mkInfo None None GET_USER_INFO) "ok" Example.first_name_only "email").
  - vm_compute. reflexivity.
  - reflexivity.
  - vm_compute. reflexivity.
  - reflexivity.
  - discriminate.
  - reflexivity.
  - vm_compute. right; right; right; left; reflexivity.
  - vm_compute. reflexivity.
Defined.

Lemma identity_turn_raises_on_scalar_sample :
  chat_response (Sample.answers "null") (Sample.parses_to VNone)
    Sample.day Sample.no_float Sample.show
    (with_utterance Sample.st0 "hello") Sample.h0
  = Some (Raise TypeError, Sample.h0).
Proof.
  apply (identity_turn_raises_on_scalar
           (Sample.answers "null") (Sample.parses_to VNone)
           Sample.day Sample.no_float Sample.show
           (with_utterance Sample.st0 "hello") Sample.h0
           (mkInfo None None GET_USER_INFO) "null" VNone).
  - vm_compute. reflexivity.
  - reflexivity.
  - vm_compute. reflexivity.
  - reflexivity.
  - discriminate.
  - reflexivity.
  - exact I.
Defined.

Lemma goal_type_turn_sample :
  goal_objects Sample.h1 !! fresh (dom (goal_objects Sample.h1)) = None
  /\ chat_response Sample.silent (Sample.parses_to VNone)
       Sample.day Sample.no_float Sample.show
       (with_utterance Sample.st1 "A car for my new HOME") Sample.h1
     = Some (Ok (mkState false
                   (messages (with_utterance Sample.st1 "A car for my new HOME")
                    ++ new_messages (with_utterance Sample.st1 "A car for my new HOME"))
                   [ai ask_home_text] 1%positive),
             with_info 1%positive
               (mkInfo (Some 1%positive)
                       (Some (fresh (dom (goal_objects Sample.h1))))
                       GET_GOAL_DETAILS)
               (with_goal (fresh (dom (goal_objects Sample.h1)))
                  (mkGoal NEW_HOME "Buy a new home" None) Sample.h1)).
Proof.
  apply (goal_type_turn
           Sample.silent (Sample.parses_to VNone)
           Sample.day Sample.no_float Sample.show
           (with_utterance Sample.st1 "A car for my new HOME") Sample.h1
           (mkInfo (Some 1%positive) None GET_GOAL_TYPE)).
  - vm_compute. reflexivity.
  - reflexivity.
  - vm_compute. reflexivity.
Defined.


Lemma goal_details_turn_raises_on_bad_amount_sample :
  chat_response (Sample.answers "ok")
    (Sample.parses_to (VDict Example.price_as_text))
    Sample.day Sample.no_float Sample.show
    (with_utterance Sample.st2 "a 1.5M flat in London") Sample.h2
  = Some (Raise ValueError, Sample.h2).
Proof.
  apply (goal_details_turn_raises_on_bad_amount
           (Sample.answers "ok") (Sample.parses_to (VDict Example.price_as_text))
           Sample.day Sample.no_float Sample.show
           (with_utterance Sample.st2 "a 1.5M flat in London") Sample.h2
           (mkInfo (Some 1%positive) (Some 1%positive) GET_GOAL_DETAILS)
           1%positive Sample.home Example.price_as_text (VStr "1.5M") ValueError).
  - vm_compute. reflexivity.
  - reflexivity.
  - reflexivity.
  - vm_compute. reflexivity.
  - vm_compute. reflexivity.
  - vm_compute. reflexivity.
  - reflexivity.
  - reflexivity.
Defined.

Lemma goal_details_answer_must_be_an_object_sample :
  chat_response (Sample.answers "ok")
    (Sample.parses_to (VList [VStr "London"]))
    Sample.day Sample.no_float Sample.show
    (with_utterance Sample.st2 "in London") Sample.h2
  = Some (if gives_nothing (VList [VStr "London"])
          then Ok (mkState false
                     (messages (with_utterance Sample.st2 "in London")
                      ++ new_messages (with_utterance Sample.st2 "in London"))
                     [ai (retry_text NEW_HOME)] 1%positive)
          else Raise AttributeError, Sample.h2).
Proof.
  apply (goal_details_answer_must_be_an_object
           (Sample.answers "ok") (Sample.parses_to (VList [VStr "London"]))
           Sample.day Sample.no_float Sample.show
           (with_utterance Sample.st2 "in London") Sample.h2
           (mkInfo (Some 1%positive) (Some 1%positive) GET_GOAL_DETAILS)
           1%positive Sample.home "ok" (VList [VStr "London"])).
  - vm_compute. reflexivity.
  - reflexivity.
  - reflexivity.
  - vm_compute. reflexivity.
  - vm_compute. reflexivity.
  - reflexivity.
  - discriminate.
  - reflexivity.
  - intros d. discriminate.
Defined.

Lemma add_another_goal_turn_sample :
  chat_response Sample.silent (Sample.parses_to VNone)
    Sample.day Sample.no_float Sample.show
    (Sample.st_confirm "no, thanks") Example.h_saved
  = if Str.startswith "y" (Str.lower (last_message (Sample.st_confirm "no, thanks")))
    then
      Some (Ok (mkState false
                  (messages (Sample.st_confirm "no, thanks")
                   ++ new_messages (Sample.st_confirm "no, thanks"))
                  [ai ask_next_goal_text] 1%positive),
            with_info 1%positive (mkInfo (Some 1%positive) None GET_GOAL_TYPE)
                      Example.h_saved)
    else
      Some (Ok (mkState true
                  (messages (Sample.st_confirm "no, thanks")
                   ++ new_messages (Sample.st_confirm "no, thanks"))
                  [ai closing_text] 1%positive),
            with_info 1%positive (mkInfo (Some 1%positive) None COMPLETED)
                      Example.h_saved).
Proof.
  apply (add_another_goal_turn
           Sample.silent (Sample.parses_to VNone)
           Sample.day Sample.no_float Sample.show
           (Sample.st_confirm "no, thanks") Example.h_saved
           (mkInfo (Some 1%positive) None ADD_ANOTHER_GOAL)).
  - vm_compute. reflexivity.
  - reflexivity.
  - vm_compute. reflexivity.
Defined.

Lemma turn_follows_stage_graph_sample :
  may_follow (stops (with_utterance Sample.st1 "home")) GET_GOAL_TYPE GET_GOAL_DETAILS
  = true
  /\ (GET_GOAL_TYPE <> GET_USER_INFO -> Some 1%positive = Some 1%positive).
Proof.
  apply (turn_follows_stage_graph
           Sample.silent (Sample.parses_to VNone)
           Sample.day Sample.no_float Sample.show
           (with_utterance Sample.st1 "home") Sample.h1 Sample.st2 Sample.h2
           (mkInfo (Some 1%positive) None GET_GOAL_TYPE)
           (mkInfo (Some 1%positive) (Some 1%positive) GET_GOAL_DETAILS)).
  - exact sample_home.
  - vm_compute. reflexivity.
  - vm_compute. reflexivity.
Defined.

Lemma turn_output_sample :
  finished Sample.st2 = bool_decide (GET_GOAL_DETAILS = COMPLETED)
  /\ Forall (fun m => sender m = AI) (new_messages Sample.st2)
  /\ (length (new_messages Sample.st2) <= 1)%nat
  /\ (new_messages Sample.st2 = [] <->
      stops (with_utterance Sample.st1 "home") = false
      /\ GET_GOAL_TYPE = COMPLETED).
Proof.
  apply (turn_output
           Sample.silent (Sample.parses_to VNone)
           Sample.day Sample.no_float Sample.show
           (with_utterance Sample.st1 "home") Sample.h1 Sample.st2 Sample.h2
           (mkInfo (Some 1%positive) None GET_GOAL_TYPE)
           (mkInfo (Some 1%positive) (Some 1%positive) GET_GOAL_DETAILS)).
  - exact sample_home.
  - vm_compute. reflexivity.
  - vm_compute. reflexivity.
Defined.

Lemma reachable_states_are_well_formed_sample :
  exists i,
    infos Sample.h3 !! extracted_information Sample.st3 = Some i
    /\ (user i = None ->
        conversation_stage i = GET_USER_INFO \/ conversation_stage i = COMPLETED)
    /\ (conversation_stage i = GET_USER_INFO ->
        user i = None /\ pending_goal i = None)
    /\ (forall u, user i = Some u ->
          exists U, users Sample.h3 !! u = Some U
                    /\ Forall (detailed_goal Sample.h3) (goals U))
    /\ (forall g, pending_goal i = Some g ->
          exists G, goal_objects Sample.h3 !! g = Some G
                    /\ (conversation_stage i = CONFIRM_GOAL ->
                        is_Some (goal_specific_information G)))
    /\ (collecting_goal (conversation_stage i) = true -> is_Some (pending_goal i)).
Proof.
  apply (reachable_states_are_well_formed Sample.h3 Sample.st3).
  exact sample_reachable.
Defined.

Lemma reachable_turn_has_an_outcome_sample :
  exists r h',
    advance (Sample.answers "ok") (Sample.parses_to (VList [VStr "London"]))
            Sample.day Sample.no_float Sample.show Sample.st3 "and a car" Sample.h3
    = Some (r, h').
Proof.
  apply (reachable_turn_has_an_outcome
           (Sample.answers "ok") (Sample.parses_to (VList [VStr "London"]))
           Sample.day Sample.no_float Sample.show Sample.h3 Sample.st3 "and a car").
  exact sample_reachable.
Defined.

Lemma reachable_turn_returns_sample :
  exists st' h',
    advance Sample.silent (Sample.parses_to VNone)
            Sample.day Sample.no_float Sample.show Sample.st3 "and a car" Sample.h3
    = Some (Ok st', h').
Proof.
  apply (reachable_turn_returns
           Sample.silent (Sample.parses_to VNone)
           Sample.day Sample.no_float Sample.show Sample.h3 Sample.st3
           (mkInfo (Some 1%positive) (Some 1%positive) COMPLETED) "and a car").
  - exact sample_reachable.
  - vm_compute. reflexivity.
  - right. split; discriminate.
Defined.

Lemma strip_fence_takes_the_block_sample :
  strip_fence ("Here it is: " +:+ json_fence +:+ "{}" +:+ fence +:+ " Bye.") = "{}"
  /\ strip_fence ("Here it is: " +:+ json_fence +:+ "{}") = "{}".
Proof.
  apply (strip_fence_takes_the_block "Here it is: " "{}" " Bye.");
    vm_compute; reflexivity.
Defined.

Lemma parse_date_in_units_sample :
  parse_date Sample.day (VStr (in_units 2 "year"))
  = Ok (Date.add_days Sample.day (365 * 2)).
Proof.
  apply (parse_date_in_units Sample.day 2 "year" 365).
  - vm_compute. right; right; right; left; reflexivity.
  - lia.
Defined.

Lemma parse_date_next_sample :
  parse_date (mkDate 2026 12 3) (VStr " Next Month")
  = if string_eqb (Str.strip (Str.lower " Next Month")) "next month"
       && (month (mkDate 2026 12 3) <? 12)
    then Ok (Some (mkDate (year (mkDate 2026 12 3)) (month (mkDate 2026 12 3) + 1) 1))
    else if year (mkDate 2026 12 3) <? 9999
         then Ok (Some (mkDate (year (mkDate 2026 12 3) + 1) 1 1))
         else Raise ValueError.
Proof.
  apply (parse_date_next (mkDate 2026 12 3) " Next Month").
  - vm_compute. reflexivity.
  - left. vm_compute. reflexivity.
Defined.

Lemma parse_date_slashed_day_first_sample :
  parse_date Sample.day (VStr (day_first (mkDate 2025 3 4)))
  = Ok (Some (mkDate 2025 3 4))
  /\ parse_date Sample.day (VStr (month_first (mkDate 2025 3 4)))
     = Ok (Some (if day (mkDate 2025 3 4) <=? 12
                 then mkDate (year (mkDate 2025 3 4)) (day (mkDate 2025 3 4))
                             (month (mkDate 2025 3 4))
                 else mkDate 2025 3 4)).
Proof.
  apply (parse_date_slashed_day_first Sample.day (mkDate 2025 3 4)).
  vm_compute. reflexivity.
Defined.

Lemma parse_date_month_and_year_sample :
  parse_date Sample.day (VStr (month_and_year "march" 2025))
  = Ok (Some (mkDate 2025 3 1)).
Proof.
  apply (parse_date_month_and_year Sample.day "march" 3 2025).
  - vm_compute. do 7 right. left. reflexivity.
  - lia.
Defined.

Lemma parse_date_long_sample :
  parse_date Sample.day (VStr (long_date "sep" "5" (year (mkDate 2025 9 5))))
  = Ok (Some (mkDate 2025 9 5)).
Proof.
  apply (parse_date_long Sample.day "sep" 9 "5" (mkDate 2025 9 5)).
  - vm_compute. do 20 right. left. reflexivity.
  - vm_compute. reflexivity.
  - reflexivity.
  - right. vm_compute. reflexivity.
Defined.

Lemma parse_date_bare_year_sample :
  parse_date Sample.day (VStr (Str.zfill 4 1999)) = Ok (bare_year_result 1999).
Proof. apply (parse_date_bare_year Sample.day 1999). lia. Defined.

Lemma parse_currency_nonneg_sample :
  parse_currency "-$1.5M" = Some 1500000%Q /\ (0 <= 1500000)%Q.
Proof.
  split; [vm_compute; reflexivity |].
  apply (parse_currency_nonneg "-$1.5M" 1500000%Q). vm_compute. reflexivity.
Defined.

Lemma parse_currency_needs_a_digit_sample : parse_currency "a lot" = None.
Proof. apply (parse_currency_needs_a_digit "a lot"). vm_compute. reflexivity. Defined.
